(** * Study-Capy-Appy: the profile and document store of [bot.py]

    A shallow embedding of [UserProfileManager], [DocumentManager] and the
    question-bank command handlers of [src/bot.py], together with the
    properties of the store that the specification states.

    Conventions of the embedding:
    - a Python [str] is a Rocq [string]; [str.lower] acts on the ASCII
      letters (code points above 127 are outside the model);
    - a Python [dict] keeps insertion order, so it is an association list
      ([Dict]) in which a new key is appended and an existing key is updated
      in place;
    - the subject dictionaries are heap objects: [get_active_subject] hands
      out the very object stored in the profile, so the profile stores a
      location and the world carries the heap;
    - every method is a computation in the monad [M]: it threads the world
      (in-memory table, heap, profile file, folder tree, pending write
      faults) and either returns a value or raises a Python exception;
    - the folder tree is described for paths that name their place
      directly: a path with a [".."] component, a symbolic link, and an
      absolute path into the working directory are outside what the tree
      describes, and the properties that depend on where a path leads say so
      in a hypothesis ([PyPath.plain]);
    - the profile file is missing, unreadable or a table; a write of it can
      fail before the file is opened, which leaves it as it was, or after,
      which leaves it unreadable; the write of an uploaded document fails
      only where the file cannot be opened. *)

From Stdlib Require Import ZArith String Ascii List DecimalString Lia Bool.
From stdpp Require Import base list strings option.

Open Scope string_scope.

(** ** Python strings *)

Module PyStr.

Fixpoint map (f : ascii -> ascii) (s : string) : string :=
  match s with
  | EmptyString => EmptyString
  | String c r => String (f c) (map f r)
  end.

(** [c.lower()] on one ASCII character: 'A'..'Z' move to 'a'..'z'. *)
Definition lower_char (c : ascii) : ascii :=
  let n := nat_of_ascii c in
  if (65 <=? n)%nat && (n <=? 90)%nat then ascii_of_nat (n + 32) else c.

(** [s.lower()] *)
Definition lower (s : string) : string := map lower_char s.

(** [s.replace(a, b)] for one-character [a] and [b]. *)
Definition replace (a b : ascii) (s : string) : string :=
  map (fun c => if Ascii.eqb c a then b else c) s.

(** [s.endswith(suffix)] *)
Definition endswith (s suffix : string) : bool :=
  let n := String.length s in
  let m := String.length suffix in
  (m <=? n)%nat && String.eqb (substring (n - m) m s) suffix.

(** [str(n)] for an integer [n]. *)
Definition str (n : Z) : string := NilZero.string_of_int (Z.to_int n).

(** [c in s] for a character [c]. *)
Fixpoint contains (c : ascii) (s : string) : bool :=
  match s with
  | EmptyString => false
  | String c' r => Ascii.eqb c c' || contains c r
  end.

(** [s.split(sep)] for a one-character separator. *)
Fixpoint split (sep : ascii) (s : string) : list string :=
  match s with
  | EmptyString => [EmptyString]
  | String c r =>
      if Ascii.eqb c sep then EmptyString :: split sep r
      else match split sep r with
           | h :: t => String c h :: t
           | [] => [String c EmptyString]
           end
  end.

Definition newline : string := String "010"%char EmptyString.

(** The characters for which [str.isspace] holds in ASCII. *)
Definition isspace (c : ascii) : bool :=
  let n := nat_of_ascii c in
  (n =? 32)%nat || ((9 <=? n)%nat && (n <=? 13)%nat)
  || ((28 <=? n)%nat && (n <=? 31)%nat).

End PyStr.

(** ** Insertion-ordered dictionaries with string keys *)

Module Dict.
Section Dict.
Context {V : Type}.

Definition t := list (string * V).

Definition empty : t := [].

(** [d.get(k)] *)
Fixpoint get (k : string) (d : t) : option V :=
  match d with
  | [] => None
  | (k', v) :: r => if String.eqb k k' then Some v else get k r
  end.

(** [k in d] *)
Definition mem (k : string) (d : t) : bool :=
  match get k d with Some _ => true | None => false end.

(** [d[k] = v]: an existing key keeps its place, a new one goes last. *)
Fixpoint set (k : string) (v : V) (d : t) : t :=
  match d with
  | [] => [(k, v)]
  | (k', v') :: r =>
      if String.eqb k k' then (k, v) :: r else (k', v') :: set k v r
  end.

(** A change made to the value stored under [k], through a reference to
    it; the key keeps its place. *)
Fixpoint alter (f : V -> V) (k : string) (d : t) : t :=
  match d with
  | [] => []
  | (k', v) :: r =>
      if String.eqb k k' then (k', f v) :: r else (k', v) :: alter f k r
  end.

(** [del d[k]] once [k in d] is known; the other entries keep their order. *)
Definition del (k : string) (d : t) : t :=
  List.filter (fun kv => negb (String.eqb k (fst kv))) d.

(** [list(d.keys())] *)
Definition keys (d : t) : list string := List.map fst d.

(** [list(d.values())] *)
Definition values (d : t) : list V := List.map snd d.

(** [next(iter(d.keys()))] when [d] is not empty. *)
Definition first_key (d : t) : option string :=
  match d with
  | [] => None
  | (k, _) :: _ => Some k
  end.

End Dict.
Arguments t : clear implicits.
End Dict.

(** ** Paths ([pathlib.Path]) *)

Record Path := mkPath { absolute : bool; parts : list string }.

#[global] Instance Path_eq_dec : EqDecision Path.
Proof. solve_decision. Defined.

Module PyPath.

(** The components that [pathlib] keeps of a string: empty components and
    ["."] are dropped, [".."] is kept as it is. *)
Definition components (s : string) : list string :=
  List.filter (fun c => negb (String.eqb c "") && negb (String.eqb c "."))
              (PyStr.split "/"%char s).

(** [Path(s)] *)
Definition of_string (s : string) : Path :=
  mkPath (PyStr.contains "/"%char (substring 0 1 s)) (components s).

(** [p / s]: an absolute [s] replaces [p]. *)
Definition join (p : Path) (s : string) : Path :=
  if absolute (of_string s) then of_string s
  else mkPath (absolute p) (parts p ++ components s).

(** [p.name] *)
Definition name (p : Path) : string := List.last (parts p) "".

(** [p.parent] *)
Definition parent (p : Path) : Path :=
  mkPath (absolute p) (List.removelast (parts p)).

(** [p.stem]: the name without its last suffix; a name whose only dot is
    the leading one has no suffix. *)
Fixpoint rfind_dot (s : string) (i : nat) (found : option nat) : option nat :=
  match s with
  | EmptyString => found
  | String c r =>
      rfind_dot r (S i) (if Ascii.eqb c "."%char then Some i else found)
  end.

Definition stem_of_name (n : string) : string :=
  match rfind_dot n 0 None with
  | Some i =>
      if (0 <? i)%nat && (i <? String.length n - 1)%nat
      then substring 0 i n else n
  | None => n
  end.

Definition stem (p : Path) : string := stem_of_name (name p).

(** [q] lies in the tree rooted at [p] ([p] itself included). *)
Definition under (p q : Path) : bool :=
  Bool.eqb (absolute p) (absolute q)
  && bool_decide (take (length (parts p)) (parts q) = parts p).

(** [p] names its place directly, from the working directory: it is
    relative and none of its components is [".."]. *)
Definition plain (p : Path) : bool :=
  negb (absolute p) && forallb (fun c => negb (String.eqb c "..")) (parts p).

End PyPath.

Notation "p // s" := (PyPath.join p s) (at level 40, left associativity).

(** ** The folder tree *)

Definition bytes := list Byte.byte.

(** The directories that exist and the regular files with their content.
    Paths are compared component by component: [".."] and symbolic links are
    not resolved, so that the tree is that of the file system for the paths
    that are [PyPath.plain] only.  The working directory (the empty relative
    path) and the root always exist. *)
Record FileSystem := mkFS {
  dirs : list Path;
  files : list (Path * bytes)
}.

Module FS.

Definition read_file (p : Path) (fs : FileSystem) : option bytes :=
  snd <$> List.find (fun e => bool_decide (fst e = p)) (files fs).

Definition is_file (p : Path) (fs : FileSystem) : bool :=
  match read_file p fs with Some _ => true | None => false end.

Definition is_dir (p : Path) (fs : FileSystem) : bool :=
  match parts p with
  | [] => true
  | _ => bool_decide (p ∈ dirs fs)
  end.

(** [p.exists()] *)
Definition exists_ (p : Path) (fs : FileSystem) : bool :=
  is_dir p fs || is_file p fs.

(** [p] and its ancestors below the anchor, outermost first. *)
Definition ancestors (p : Path) : list Path :=
  List.map (fun n => mkPath (absolute p) (take n (parts p)))
           (seq 1 (length (parts p))).

(** [p.mkdir(parents=True, exist_ok=True)]: fails when [p] or one of its
    ancestors is a regular file, otherwise every missing directory on the
    way is created. *)
Definition mkdir_p (p : Path) (fs : FileSystem) : option FileSystem :=
  if existsb (fun a => is_file a fs) (ancestors p) then None
  else Some (mkFS (dirs fs ++ List.filter (fun a => negb (is_dir a fs))
                                          (ancestors p))
                  (files fs)).

(** [shutil.rmtree(p)] on an existing [p]: fails on a regular file,
    otherwise removes the whole tree below [p].  The tree below [p] is taken
    component by component, which is where [p] leads when [p] and the
    entries of the tree are [PyPath.plain]; through a [".."] the call
    reaches other folders and is not described. *)
Definition rmtree (p : Path) (fs : FileSystem) : option FileSystem :=
  if is_file p fs then None
  else Some (mkFS (List.filter (fun d => negb (PyPath.under p d)) (dirs fs))
                  (List.filter (fun e => negb (PyPath.under p (fst e)))
                               (files fs))).

(** [open(p, 'wb').write(data)]: needs the parent directory, and [p] must
    not be a directory; an existing file is replaced, in place. *)
Fixpoint put (p : Path) (data : bytes) (l : list (Path * bytes))
  : list (Path * bytes) :=
  match l with
  | [] => [(p, data)]
  | (q, old) :: r =>
      if bool_decide (q = p) then (p, data) :: r else (q, old) :: put p data r
  end.

Definition write_file (p : Path) (data : bytes) (fs : FileSystem)
  : option FileSystem :=
  if is_dir (PyPath.parent p) fs && negb (is_dir p fs)
     && negb (bool_decide (parts p = []))
  then Some (mkFS (dirs fs) (put p data (files fs)))
  else None.

(** The entries directly inside [p]: files, then directories. *)
Definition children (p : Path) (fs : FileSystem) : list Path :=
  List.filter (fun q => bool_decide (PyPath.parent q = p)
                        && negb (bool_decide (parts q = [])))
              (List.map fst (files fs) ++ dirs fs).

(** [p.glob("*.pdf")]: the entries of [p] whose name ends in [.pdf]
    (a leading dot is not special for [pathlib]); nothing when [p] is not
    a directory. *)
Definition glob_pdf (p : Path) (fs : FileSystem) : list Path :=
  if is_dir p fs
  then List.filter (fun q => PyStr.endswith (PyPath.name q) ".pdf")
                   (children p fs)
  else [].

(** Every entry of [fs] names its place directly. *)
Definition plain_tree (fs : FileSystem) : bool :=
  forallb PyPath.plain (dirs fs)
  && forallb (fun e => PyPath.plain (fst e)) (files fs).

End FS.

(** ** Profiles, the heap of subject dictionaries and the world *)

(** A subject dictionary.  Every entry is optional: [create_subject] writes
    [name], [game], [created] and [question_bank], [get_active_subject] adds
    [key], and a table loaded from the profile file holds whatever the file
    held. *)
Record SubjectInfo := mkSubject {
  name : option string;
  game : option string;
  created : option bool;
  question_bank : option (list string);
  key : option string
}.

Definition empty_dict : SubjectInfo := mkSubject None None None None None.

Abbreviation loc := nat (only parsing).

(** [{"subjects": {...}, "active_subject": ...}], the subjects by reference. *)
Record Profile := mkProfile {
  subjects : Dict.t loc;
  active_subject : option string
}.

(** The same, written out as [json.dump] writes it. *)
Record ProfileJson := mkProfileJson {
  json_subjects : Dict.t SubjectInfo;
  json_active_subject : option string
}.

(** The state of [profiles.json]: the file is missing, it holds something
    that [json.load] rejects (an empty file, the beginning of a table), or
    it holds a table of profiles. *)
Inductive ProfileFile :=
| NoFile
| Garbled
| Json (table : Dict.t ProfileJson).

Record World := mkWorld {
  profiles : Dict.t Profile;          (* self.profiles *)
  heap : list SubjectInfo;            (* the subject dictionaries *)
  profiles_json : ProfileFile;        (* profiles.json *)
  fsys : FileSystem;                  (* the folders below base_path *)
  faults : list bool                  (* outcome of the coming writes of
                                         profiles.json: [true] raises, and
                                         the entry after a [true] tells
                                         whether the file was opened *)
}.

Inductive Exn :=
| KeyError (k : string)
| OSError
| HTTPException.

Inductive Res (A : Type) :=
| Ret (a : A)
| Raise (e : Exn).
Arguments Ret {A} a.
Arguments Raise {A} e.

Definition M (A : Type) := World -> Res A * World.

Definition ret {A} (a : A) : M A := fun w => (Ret a, w).

Definition raise {A} (e : Exn) : M A := fun w => (Raise e, w).

Definition bind {A B} (m : M A) (k : A -> M B) : M B :=
  fun w =>
    match m w with
    | (Ret a, w') => k a w'
    | (Raise e, w') => (Raise e, w')
    end.

(** [try: m except Exception: h] *)
Definition try_except {A} (m : M A) (h : M A) : M A :=
  fun w =>
    match m w with
    | (Ret a, w') => (Ret a, w')
    | (Raise _, w') => h w'
    end.

Declare Scope py_scope.
Delimit Scope py_scope with py.
Notation "'let*' x ':=' m 'in' k" := (bind m (fun x => k))
  (at level 10, x name, m at level 100, k at level 200) : py_scope.
Notation "m ';;' k" := (bind m (fun _ => k))
  (at level 100, k at level 200, right associativity) : py_scope.
Open Scope py_scope.

Definition get_world : M World := fun w => (Ret w, w).

Definition set_profiles (ps : Dict.t Profile) : M unit :=
  fun w => (Ret tt, mkWorld ps (heap w) (profiles_json w) (fsys w) (faults w)).

Definition set_heap (h : list SubjectInfo) : M unit :=
  fun w => (Ret tt, mkWorld (profiles w) h (profiles_json w) (fsys w) (faults w)).

Definition set_fsys (fs : FileSystem) : M unit :=
  fun w => (Ret tt, mkWorld (profiles w) (heap w) (profiles_json w) fs (faults w)).

(** The object at a location; every location a profile holds is allocated. *)
Definition deref (h : list SubjectInfo) (l : loc) : SubjectInfo :=
  default empty_dict (h !! l).

(** A filesystem call that either succeeds or raises [OSError]. *)
Definition fs_call (f : FileSystem -> option FileSystem) : M unit :=
  let* w := get_world in
  match f (fsys w) with
  | Some fs => set_fsys fs
  | None => raise OSError
  end.

(** ** [UserProfileManager] *)

Definition default_game : string := "popular video games".

(** [self.base_path], from the default [base_path = "./user_data"]. *)
Definition base_path : Path := PyPath.of_string "./user_data".

(** The table of [self.profiles] with every subject dictionary written out
    in place. *)
Definition table_json (h : list SubjectInfo) (ps : Dict.t Profile)
  : Dict.t ProfileJson :=
  List.map (fun up =>
    (fst up,
     mkProfileJson
       (List.map (fun kl => (fst kl, deref h (snd kl))) (subjects (snd up)))
       (active_subject (snd up))))
    ps.

(** The file that [json.dump(self.profiles, f)] writes. *)
Definition to_json (h : list SubjectInfo) (ps : Dict.t Profile)
  : ProfileFile :=
  Json (table_json h ps).

(** [with open(self.profiles_file, 'w') as f: json.dump(table, f)].  The
    write either succeeds, and the file holds the table, or raises.  It can
    raise in [open], and the file is as it was; or after [open], which has
    emptied the file: what is left then does not parse. *)
Definition write_json (content : ProfileFile) : M unit :=
  fun w =>
    match faults w with
    | true :: rest =>
        (Raise OSError,
         mkWorld (profiles w) (heap w)
                 (if hd false rest then Garbled else profiles_json w)
                 (fsys w) (tl rest))
    | _ =>
        (Ret tt,
         mkWorld (profiles w) (heap w) content (fsys w) (tl (faults w)))
    end.

(** [_save_profiles] *)
Definition _save_profiles : M unit :=
  fun w => write_json (to_json (heap w) (profiles w)) w.

Definition empty_profile : Profile := mkProfile Dict.empty None.

(** [get_user_profile] *)
Definition get_user_profile (user_id : Z) : M Profile :=
  let user_id_str := PyStr.str user_id in
  let* w := get_world in
  match Dict.get user_id_str (profiles w) with
  | Some profile => ret profile
  | None =>
      set_profiles (Dict.set user_id_str empty_profile (profiles w)) ;;
      _save_profiles ;;
      ret empty_profile
  end.

(** An assignment through the alias [profile] that [get_user_profile]
    returned: the profile inside [self.profiles] itself changes. *)
Definition update_profile (user_id : Z) (f : Profile -> Profile) : M unit :=
  let* w := get_world in
  set_profiles (Dict.alter f (PyStr.str user_id) (profiles w)).

(** A new dictionary object. *)
Definition alloc (s : SubjectInfo) : M loc :=
  let* w := get_world in
  set_heap (heap w ++ [s]) ;;
  ret (length (heap w)).

(** An assignment to an entry of the dictionary at [l]. *)
Definition update_subject (l : loc) (f : SubjectInfo -> SubjectInfo) : M unit :=
  let* w := get_world in
  set_heap (alter f l (heap w)).

(** [subject_name.lower().replace(" ", "_")] *)
Definition subject_key_of (subject_name : string) : string :=
  PyStr.replace " "%char "_"%char (PyStr.lower subject_name).

(** [get_subject_path] *)
Definition get_subject_path (user_id : Z) (subject_key : string) : Path :=
  base_path // PyStr.str user_id // subject_key.

Definition set_subjects (d : Dict.t loc) (p : Profile) : Profile :=
  mkProfile d (active_subject p).

Definition set_active (a : option string) (p : Profile) : Profile :=
  mkProfile (subjects p) a.

(** [create_subject] *)
Definition create_subject (user_id : Z) (subject_name game : string) : M bool :=
  let* profile := get_user_profile user_id in
  let subject_key := subject_key_of subject_name in
  if Dict.mem subject_key (subjects profile) then ret false
  else
    let subject_path := base_path // PyStr.str user_id // subject_key in
    fs_call (FS.mkdir_p (subject_path // "lectures")) ;;
    fs_call (FS.mkdir_p (subject_path // "practice_tests")) ;;
    let* l := alloc (mkSubject (Some subject_name) (Some game) (Some true)
                               (Some []) None) in
    update_profile user_id
      (fun p => set_subjects (Dict.set subject_key l (subjects p)) p) ;;
    update_profile user_id
      (fun p => match active_subject p with
                | None => set_active (Some subject_key) p
                | Some _ => p
                end) ;;
    _save_profiles ;;
    ret true.

(** [set_active_subject] *)
Definition set_active_subject (user_id : Z) (subject_name : string) : M bool :=
  let* profile := get_user_profile user_id in
  let subject_key := subject_key_of subject_name in
  if negb (Dict.mem subject_key (subjects profile)) then ret false
  else
    update_profile user_id (set_active (Some subject_key)) ;;
    _save_profiles ;;
    ret true.

Definition set_key (k : string) (s : SubjectInfo) : SubjectInfo :=
  mkSubject (name s) (game s) (created s) (question_bank s) (Some k).

Definition set_game (g : string) (s : SubjectInfo) : SubjectInfo :=
  mkSubject (name s) (Some g) (created s) (question_bank s) (key s).

Definition set_question_bank (q : list string) (s : SubjectInfo) : SubjectInfo :=
  mkSubject (name s) (game s) (created s) (Some q) (key s).

(** [get_active_subject]: the result is the dictionary stored in the
    profile, not a copy, and the method writes its ["key"] entry. *)
Definition get_active_subject (user_id : Z) : M (option loc) :=
  let* profile := get_user_profile user_id in
  match active_subject profile with
  | None => ret None
  | Some subject_key =>
      match Dict.get subject_key (subjects profile) with
      | None => raise (KeyError subject_key)
      | Some subject_info =>
          update_subject subject_info (set_key subject_key) ;;
          ret (Some subject_info)
      end
  end.

(** [set_subject_game] *)
Definition set_subject_game (user_id : Z) (subject_key game : string) : M unit :=
  let* profile := get_user_profile user_id in
  match Dict.get subject_key (subjects profile) with
  | Some l =>
      update_subject l (set_game game) ;;
      _save_profiles
  | None => ret tt
  end.

(** [add_question_to_bank] *)
Definition add_question_to_bank (user_id : Z) (subject_key question : string)
  : M bool :=
  let* profile := get_user_profile user_id in
  match Dict.get subject_key (subjects profile) with
  | Some l =>
      update_subject l
        (fun s => match question_bank s with
                  | None => set_question_bank [] s
                  | Some _ => s
                  end) ;;
      update_subject l
        (fun s => set_question_bank (default [] (question_bank s) ++ [question]) s) ;;
      _save_profiles ;;
      ret true
  | None => ret false
  end.

(** [get_question_bank] *)
Definition get_question_bank (user_id : Z) (subject_key : string)
  : M (list string) :=
  let* profile := get_user_profile user_id in
  match Dict.get subject_key (subjects profile) with
  | Some l =>
      let* w := get_world in
      ret (default [] (question_bank (deref (heap w) l)))
  | None => ret []
  end.

(** [questions.pop(index)] for [0 <= index < len(questions)]. *)
Definition pop (index : Z) (questions : list string) : list string :=
  delete (Z.to_nat index) questions.

(** [remove_question_from_bank] *)
Definition remove_question_from_bank (user_id : Z) (subject_key : string)
  (index : Z) : M bool :=
  let* profile := get_user_profile user_id in
  match Dict.get subject_key (subjects profile) with
  | Some l =>
      let* w := get_world in
      let questions := default [] (question_bank (deref (heap w) l)) in
      if (0 <=? index)%Z && (index <? Z.of_nat (length questions))%Z then
        update_subject l (set_question_bank (pop index questions)) ;;
        _save_profiles ;;
        ret true
      else ret false
  | None => ret false
  end.

(** One item of [list_subjects]. *)
Record SubjectView := mkView {
  view_key : string;
  view_name : string;
  view_game : string;
  view_active : bool
}.

Fixpoint list_subjects_items (h : list SubjectInfo) (active : option string)
  (items : list (string * loc)) : Res (list SubjectView) :=
  match items with
  | [] => Ret []
  | (k, l) :: r =>
      match name (deref h l), game (deref h l) with
      | None, _ => Raise (KeyError "name")
      | Some _, None => Raise (KeyError "game")
      | Some n, Some g =>
          match list_subjects_items h active r with
          | Ret vs => Ret (mkView k n g (bool_decide (Some k = active)) :: vs)
          | Raise e => Raise e
          end
      end
  end.

(** [list_subjects] *)
Definition list_subjects (user_id : Z) : M (list SubjectView) :=
  let* profile := get_user_profile user_id in
  let* w := get_world in
  match list_subjects_items (heap w) (active_subject profile)
                            (subjects profile) with
  | Ret items => ret items
  | Raise e => raise e
  end.

(** [delete_subject] *)
Definition delete_subject (user_id : Z) (subject_name : string) : M bool :=
  let* profile := get_user_profile user_id in
  let subject_key := subject_key_of subject_name in
  if negb (Dict.mem subject_key (subjects profile)) then ret false
  else
    let subject_path := get_subject_path user_id subject_key in
    (let* w := get_world in
     if FS.exists_ subject_path (fsys w)
     then fs_call (FS.rmtree subject_path)
     else ret tt) ;;
    update_profile user_id
      (fun p => set_subjects (Dict.del subject_key (subjects p)) p) ;;
    update_profile user_id
      (fun p => if bool_decide (active_subject p = Some subject_key)
                then set_active (Dict.first_key (subjects p)) p
                else p) ;;
    _save_profiles ;;
    ret true.

(** ** [DocumentManager] *)

(** A [discord.Attachment]: its file name and what downloading it gives
    ([None] when the download fails). *)
Record Attachment := mkAttachment {
  filename : string;
  payload : option bytes
}.

(** ["lectures" if folder_type == "lecture" else "practice_tests"] *)
Definition folder_of (folder_type : string) : string :=
  if String.eqb folder_type "lecture" then "lectures" else "practice_tests".

(** [f"[SOURCE: {filename}]\n{content}"] *)
Definition annotate (filename content : string) : string :=
  "[SOURCE: " +:+ filename +:+ "]" +:+ PyStr.newline +:+ content.

(** [subject["key"]] on the dictionary at [l]. *)
Definition subject_key_at (l : loc) : M string :=
  let* w := get_world in
  match key (deref (heap w) l) with
  | Some k => ret k
  | None => raise (KeyError "key")
  end.

(** [subject["name"]] on the dictionary at [l]. *)
Definition subject_name_at (l : loc) : M string :=
  let* w := get_world in
  match name (deref (heap w) l) with
  | Some n => ret n
  | None => raise (KeyError "name")
  end.

(** [await attachment.save(file_path)]: the content is downloaded, then
    [file_path] is opened and the content written.  A download that fails
    and a file that cannot be opened leave the file as it was; the write
    itself, once the file is open, is taken to succeed (a write that stops
    half-way, on a full disk, would leave a truncated file and is not
    described). *)
Definition attachment_save (attachment : Attachment) (file_path : Path)
  : M unit :=
  match payload attachment with
  | None => raise HTTPException
  | Some data => fs_call (FS.write_file file_path data)
  end.

(** [save_attachment] *)
Definition save_attachment (attachment : Attachment) (user_id : Z)
  (folder_type : string) : M bool :=
  if negb (PyStr.endswith (filename attachment) ".pdf") then ret false
  else
    let* subject := get_active_subject user_id in
    match subject with
    | None => ret false
    | Some subject =>
        let* subject_key := subject_key_at subject in
        let target_path := get_subject_path user_id subject_key in
        let target_path := target_path // folder_of folder_type in
        let file_path := target_path // filename attachment in
        try_except (attachment_save attachment file_path ;; ret true)
                   (ret false)
    end.

(** [list_files] *)
Definition list_files (user_id : Z) (folder_type : string) : M (list string) :=
  let* subject := get_active_subject user_id in
  match subject with
  | None => ret []
  | Some subject =>
      let* subject_key := subject_key_at subject in
      let folder_path := get_subject_path user_id subject_key in
      let folder_path := folder_path // folder_of folder_type in
      let* w := get_world in
      ret (List.map PyPath.stem (FS.glob_pdf folder_path (fsys w)))
  end.

Section Extraction.

(** [PyPDF2.PdfReader] on the content of a file: [None] when the reader
    rejects the file, otherwise the pages in order, each with the result
    of [extract_text] ([None] when that call raises). *)
Variable pdf_reader : bytes -> option (list (option string)).

(** The loop [for page in pdf_reader.pages: text += ... + "\n"], stopped by
    the first page whose extraction raises. *)
Fixpoint extract_pages (pages : list (option string)) (text : string)
  : string :=
  match pages with
  | [] => text
  | Some t :: rest => extract_pages rest (text +:+ t +:+ PyStr.newline)
  | None :: _ => text
  end.

(** [extract_text_from_pdf]: every exception is caught and the text read so
    far is returned. *)
Definition extract_text_from_pdf (file_path : Path) : M string :=
  let* w := get_world in
  match FS.read_file file_path (fsys w) with
  | None => ret ""
  | Some data =>
      match pdf_reader data with
      | None => ret ""
      | Some pages => ret (extract_pages pages "")
      end
  end.

(** The loop over [glob("*.pdf")] that fills the result dictionary. *)
Fixpoint collect (pdf_files : list Path) (acc : Dict.t string)
  : M (Dict.t string) :=
  match pdf_files with
  | [] => ret acc
  | pdf_file :: rest =>
      let filename := PyPath.stem pdf_file in
      let* content := extract_text_from_pdf pdf_file in
      collect rest (Dict.set filename (annotate filename content) acc)
  end.

Definition get_all_with_names (folder : string) (user_id : Z)
  : M (Dict.t string) :=
  let* subject := get_active_subject user_id in
  match subject with
  | None => ret Dict.empty
  | Some subject =>
      let* subject_key := subject_key_at subject in
      let lecture_path := get_subject_path user_id subject_key // folder in
      let* w := get_world in
      collect (FS.glob_pdf lecture_path (fsys w)) Dict.empty
  end.

(** [get_all_lectures_with_names] *)
Definition get_all_lectures_with_names (user_id : Z) : M (Dict.t string) :=
  get_all_with_names "lectures" user_id.

(** [get_all_practice_tests_with_names] *)
Definition get_all_practice_tests_with_names (user_id : Z)
  : M (Dict.t string) :=
  get_all_with_names "practice_tests" user_id.

End Extraction.

(** ** The question-bank commands *)

(** What a command sends back with [ctx.send]. *)
Inductive Reply :=
| NoActiveSubject
| QuestionAdded (subject_name : string) (count : nat)
| FailedToAdd
| QuestionRemoved (question_num : Z) (subject_name : string) (remaining : nat)
| QuestionNotFound (question_num : Z).

(** [add_question], the command [!addq] *)
Definition add_question (author : Z) (question : string) : M Reply :=
  let* subject := get_active_subject author in
  match subject with
  | None => ret NoActiveSubject
  | Some subject =>
      let* subject_key := subject_key_at subject in
      let* success := add_question_to_bank author subject_key question in
      if success : bool then
        let* subject_key := subject_key_at subject in
        let* bank := get_question_bank author subject_key in
        let* subject_name := subject_name_at subject in
        ret (QuestionAdded subject_name (length bank))
      else ret FailedToAdd
  end.

(** [remove_question], the command [!removeq] *)
Definition remove_question (author : Z) (question_num : Z) : M Reply :=
  let* subject := get_active_subject author in
  match subject with
  | None => ret NoActiveSubject
  | Some subject =>
      let* subject_key := subject_key_at subject in
      let* success :=
        remove_question_from_bank author subject_key (question_num - 1) in
      if success : bool then
        let* subject_key := subject_key_at subject in
        let* bank := get_question_bank author subject_key in
        let* subject_name := subject_name_at subject in
        ret (QuestionRemoved question_num subject_name (length bank))
      else ret (QuestionNotFound question_num)
  end.

(** ** Definitions used to state the properties *)

Definition profile_of (w : World) (user_id : Z) : Profile :=
  default empty_profile (Dict.get (PyStr.str user_id) (profiles w)).

Definition new_subject (subject_name game : string) : SubjectInfo :=
  mkSubject (Some subject_name) (Some game) (Some true) (Some []) None.

(** The normal form in the words of the specification: lowercased, and
    every whitespace character replaced by an underscore. *)
Definition subject_key_spec (display_name : string) : string :=
  PyStr.map (fun c => if PyStr.isspace c then "_"%char else PyStr.lower_char c)
            display_name.

(** A store that has just been created: no profile, no folder, and every
    write will succeed. *)
Definition empty_world : World := mkWorld [] [] (Json []) (mkFS [] []) [].

(** ["Unit<TAB>1"] *)
Definition name_with_tab : string :=
  "Unit" +:+ String "009"%char "1".

Definition profile_to_json (h : list SubjectInfo) (p : Profile) : ProfileJson :=
  mkProfileJson
    (List.map (fun kl => (fst kl, deref h (snd kl))) (subjects p))
    (active_subject p).

(** What [delete_subject] does to the profile once the key is known. *)
Definition delete_from_profile (subject_key : string) (p : Profile) : Profile :=
  let rest := Dict.del subject_key (subjects p) in
  mkProfile rest
            (if bool_decide (active_subject p = Some subject_key)
             then Dict.first_key rest
             else active_subject p).

(** Three subjects created in the order Bio, Chem, Art; Bio is active. *)
Definition three_subjects : World :=
  snd ((create_subject 7 "Bio" default_game ;;
        create_subject 7 "Chem" default_game ;;
        create_subject 7 "Art" default_game) empty_world).

Definition with_heap (h : list SubjectInfo) (w : World) : World :=
  mkWorld (profiles w) h (profiles_json w) (fsys w) (faults w).

(** The questions of the dictionary at [l], as [.get("question_bank", [])]
    reads them. *)
Definition bank_at (w : World) (l : loc) : list string :=
  default [] (question_bank (deref (heap w) l)).

(** What [add_question_to_bank] does to the dictionary. *)
Definition append_question (question : string) (s : SubjectInfo) : SubjectInfo :=
  set_question_bank (default [] (question_bank s) ++ [question]) s.

(** The world once [get_active_subject] has written the ["key"] entry of
    the dictionary at [l]. *)
Definition keyed (w : World) (k : string) (l : loc) : World :=
  with_heap (alter (set_key k) l (heap w)) w.

(** The heap after the question at 0-based [index] has been popped from the
    bank of [s], the dictionary at [l]. *)
Definition popped (w : World) (k : string) (l : loc) (s : SubjectInfo)
  (index : Z) : list SubjectInfo :=
  alter (set_question_bank (pop index (default [] (question_bank s)))) l
        (heap (keyed w k l)).

(** The heap after [question] has been appended to the bank at [l]. *)
Definition appended (w : World) (k : string) (l : loc) (question : string)
  : list SubjectInfo :=
  alter (append_question question) l (heap (keyed w k l)).

(** The folder of a subject. *)
Definition subject_folder (user_id : Z) (subject_name : string) : Path :=
  get_subject_path user_id (subject_key_of subject_name).

(** What [delete_subject] has made of the profile [p] once it has removed
    the key [k]: the subjects left are the others in their order of
    insertion; if [k] was the active subject, the active subject is the
    first-inserted key left, a key of the subjects left, and [None] exactly
    when none is left; if it was not, the active subject is as it was. *)
Definition reassigned (k : string) (p p' : Profile) : Prop :=
  let rest := Dict.del k (subjects p) in
  subjects p' = rest /\
  (active_subject p = Some k ->
     active_subject p' = Dict.first_key rest /\
     (rest = [] <-> active_subject p' = None) /\
     (forall k', active_subject p' = Some k' ->
                 Dict.mem k' rest = true /\ k' <> k)) /\
  (active_subject p <> Some k -> active_subject p' = active_subject p).

(** Three subjects, Bio being active, and a regular file where the folder
    of Bio should be. *)
Definition folder_is_a_file : World :=
  mkWorld (profiles three_subjects) (heap three_subjects)
          (profiles_json three_subjects)
          (mkFS [base_path; base_path // "7"]
                [(get_subject_path 7 "bio", [])])
          [].

(** What a method answers that first looks the profile up, with the result
    [r0], and then returns [b] without doing anything else: the exception
    of the look-up, if it raised one, otherwise [b]. *)
Definition answer_after {A B} (r0 : Res A) (b : B) : Res B :=
  match r0 with
  | Ret _ => Ret b
  | Raise e => Raise e
  end.

(** The profile file after a write that has raised in the state [w]: as it
    was if the write raised in [open], unreadable if it raised later. *)
Definition after_failed_write (w : World) : ProfileFile :=
  if hd false (tl (faults w)) then Garbled else profiles_json w.

(** A call signals an error when it raises. *)
Definition signals_error {A} (r : Res A) : Prop :=
  match r with
  | Raise _ => True
  | Ret _ => False
  end.

(** A user with an active subject whose folders are empty. *)
Definition one_subject : World :=
  snd (create_subject 7 "Bio" default_game empty_world).

(** A reader of PDF content for the examples: an empty file is rejected,
    any other file has the two pages ["hello"] and ["world"]. *)
Definition sample_reader (data : bytes) : option (list (option string)) :=
  match data with
  | [] => None
  | _ => Some [Some "hello"; Some "world"]
  end.

Definition with_faults (fl : list bool) (w : World) : World :=
  mkWorld (profiles w) (heap w) (profiles_json w) (fsys w) fl.

Definition with_fsys (fs : FileSystem) (w : World) : World :=
  mkWorld (profiles w) (heap w) (profiles_json w) fs (faults w).

Definition with_profiles (ps : Dict.t Profile) (w : World) : World :=
  mkWorld ps (heap w) (profiles_json w) (fsys w) (faults w).

(** What [create_subject] does to the profile: the new dictionary is stored
    under the key, and becomes the active subject when there was none. *)
Definition insert_subject (subject_key : string) (l : loc) (p : Profile)
  : Profile :=
  mkProfile (Dict.set subject_key l (subjects p))
            (match active_subject p with
             | None => Some subject_key
             | Some a => Some a
             end).

(** The mutating methods of [UserProfileManager]. *)
Inductive Mutation :=
| CreateSubject (user_id : Z) (subject_name game : string)
| SetActiveSubject (user_id : Z) (subject_name : string)
| SetSubjectGame (user_id : Z) (subject_key game : string)
| AddQuestionToBank (user_id : Z) (subject_key question : string)
| RemoveQuestionFromBank (user_id : Z) (subject_key : string) (index : Z)
| DeleteSubject (user_id : Z) (subject_name : string).

Definition user_of (m : Mutation) : Z :=
  match m with
  | CreateSubject u _ _ | SetActiveSubject u _ | SetSubjectGame u _ _
  | AddQuestionToBank u _ _ | RemoveQuestionFromBank u _ _
  | DeleteSubject u _ => u
  end.

(** The call, with the value it returns ([None] for a method that returns
    nothing). *)
Definition run_mutation (m : Mutation) : M (option bool) :=
  match m with
  | CreateSubject u n g => let* b := create_subject u n g in ret (Some b)
  | SetActiveSubject u n => let* b := set_active_subject u n in ret (Some b)
  | SetSubjectGame u k g => set_subject_game u k g ;; ret None
  | AddQuestionToBank u k q =>
      let* b := add_question_to_bank u k q in ret (Some b)
  | RemoveQuestionFromBank u k i =>
      let* b := remove_question_from_bank u k i in ret (Some b)
  | DeleteSubject u n => let* b := delete_subject u n in ret (Some b)
  end.

(** The invariant of a profile: the active subject, when there is one, is a
    key of the subjects. *)
Definition profile_ok (p : Profile) : Prop :=
  forall k, active_subject p = Some k -> Dict.mem k (subjects p) = true.

(** The same for a profile as the profile file holds it. *)
Definition profile_json_ok (p : ProfileJson) : Prop :=
  forall k, json_active_subject p = Some k ->
            Dict.mem k (json_subjects p) = true.

(** Every profile of the table in memory satisfies the invariant. *)
Definition active_in_subjects (w : World) : Prop :=
  forall u p, Dict.get u (profiles w) = Some p -> profile_ok p.

(** Every profile of the profile file satisfies it. *)
Definition file_active_in_subjects (w : World) : Prop :=
  forall table u p,
    profiles_json w = Json table ->
    Dict.get u table = Some p -> profile_json_ok p.

(** [w'] has the profile file of [w], and the invariant if [w] has it. *)
Definition prepared (w w' : World) : Prop :=
  profiles_json w' = profiles_json w /\
  (active_in_subjects w -> active_in_subjects w').

(** A computation that, from [w], either ends without writing the profile
    file, or prepares a world and then ends with the flush; what it prepares
    does not depend on the pending write faults. *)
Definition flushes_last {A} (m : M A) (w : World) : Prop :=
  (exists r w',
     prepared w w' /\
     forall fl, m (with_faults fl w) = (r, with_faults fl w')) \/
  (exists a w2,
     prepared w w2 /\
     forall fl,
       m (with_faults fl w) = (_save_profiles ;; ret a) (with_faults fl w2)).

Definition table_ok (ps : Dict.t Profile) : Prop :=
  forall u p, Dict.get u ps = Some p -> profile_ok p.

(** A user whose profile exists and holds no subject, at the moment where
    the next write of the profile file will fail. *)
Definition before_failing_write : World :=
  with_faults [true] (snd (get_user_profile 7 empty_world)).

(** Where [save_attachment] writes and [list_files] looks. *)
Definition collection_path (user_id : Z) (subject_key folder_type : string)
  : Path :=
  get_subject_path user_id subject_key // folder_of folder_type.

(** The notes of a lecture, uploaded twice with different content. *)
Definition notes_v1 : Attachment := mkAttachment "notes.pdf" (Some [Byte.x01]).
Definition notes_v2 : Attachment := mkAttachment "notes.pdf" (Some [Byte.x02]).

(** What [extract_text_from_pdf] returns for the file at [q]: nothing when
    the file cannot be opened or the reader rejects it, otherwise the pages
    up to the first one whose extraction raises. *)
Definition extracted_text (pdf_reader : bytes -> option (list (option string)))
  (fs : FileSystem) (q : Path) : string :=
  match FS.read_file q fs with
  | None => ""
  | Some data =>
      match pdf_reader data with
      | None => ""
      | Some pages => extract_pages pages ""
      end
  end.

(** One turn of the loop of [get_all_lectures_with_names]. *)
Definition add_document (pdf_reader : bytes -> option (list (option string)))
  (fs : FileSystem) (acc : Dict.t string) (q : Path) : Dict.t string :=
  Dict.set (PyPath.stem q)
           (annotate (PyPath.stem q) (extracted_text pdf_reader fs q)) acc.

(** A lecture folder with a file that the reader rejects and one it reads. *)
Definition two_documents : World :=
  snd ((create_subject 7 "Bio" default_game ;;
        save_attachment (mkAttachment "bad.pdf" (Some [])) 7 "lecture" ;;
        save_attachment (mkAttachment "good.pdf" (Some [Byte.x01])) 7
                        "lecture") empty_world).

(** [json.load]: every subject dictionary of the file becomes a new object. *)
Fixpoint load_subjects (js : Dict.t SubjectInfo) (h : list SubjectInfo)
  : Dict.t loc * list SubjectInfo :=
  match js with
  | [] => ([], h)
  | (k, s) :: r =>
      let (d, h') := load_subjects r (h ++ [s]) in
      ((k, length h) :: d, h')
  end.

(** [json.load] on the table of a profile file that parses. *)
Fixpoint load_profiles (j : Dict.t ProfileJson) (h : list SubjectInfo)
  : Dict.t Profile * list SubjectInfo :=
  match j with
  | [] => ([], h)
  | (u, pj) :: r =>
      let (d, h1) := load_subjects (json_subjects pj) h in
      let (ps, h2) := load_profiles r h1 in
      ((u, mkProfile d (json_active_subject pj)) :: ps, h2)
  end.

(** [_load_profiles]: a file that cannot be opened or does not parse gives
    the empty table ([except: return {}]). *)
Definition _load_profiles (file : ProfileFile)
  : Dict.t Profile * list SubjectInfo :=
  match file with
  | Json table => load_profiles table []
  | Garbled | NoFile => ([], [])
  end.

(** [_ensure_base_folder]: the base folder is made, and a profile file
    that does not exist is created with the empty table. *)
Definition _ensure_base_folder : M unit :=
  fs_call (FS.mkdir_p base_path) ;;
  let* w := get_world in
  match profiles_json w with
  | NoFile => write_json (Json [])
  | _ => ret tt
  end.

(** [UserProfileManager.__init__] in a new process: the folder and the
    file are made sure of and the table is loaded from the profile file
    into a new heap. *)
Definition UserProfileManager_init : M unit :=
  _ensure_base_folder ;;
  fun w =>
    let (ps, h) := _load_profiles (profiles_json w) in
    (Ret tt, mkWorld ps h (profiles_json w) (fsys w) (faults w)).

(** The operations of the store. *)
Inductive Op :=
| OpGetUserProfile (user_id : Z)
| OpMutation (m : Mutation)
| OpGetActiveSubject (user_id : Z)
| OpGetQuestionBank (user_id : Z) (subject_key : string)
| OpListSubjects (user_id : Z)
| OpSaveAttachment (attachment : Attachment) (user_id : Z)
                   (folder_type : string)
| OpListFiles (user_id : Z) (folder_type : string)
| OpGetAllLectures (user_id : Z)
| OpGetAllPracticeTests (user_id : Z)
| OpAddQuestion (author : Z) (question : string)
| OpRemoveQuestion (author : Z) (question_num : Z).

Definition run_op (pdf_reader : bytes -> option (list (option string)))
  (op : Op) : M unit :=
  match op with
  | OpGetUserProfile u => get_user_profile u ;; ret tt
  | OpMutation m => run_mutation m ;; ret tt
  | OpGetActiveSubject u => get_active_subject u ;; ret tt
  | OpGetQuestionBank u k => get_question_bank u k ;; ret tt
  | OpListSubjects u => list_subjects u ;; ret tt
  | OpSaveAttachment a u t => save_attachment a u t ;; ret tt
  | OpListFiles u t => list_files u t ;; ret tt
  | OpGetAllLectures u => get_all_lectures_with_names pdf_reader u ;; ret tt
  | OpGetAllPracticeTests u =>
      get_all_practice_tests_with_names pdf_reader u ;; ret tt
  | OpAddQuestion u q => add_question u q ;; ret tt
  | OpRemoveQuestion u n => remove_question u n ;; ret tt
  end.

(** The states of the store: a first start on an empty profile file,
    whatever the folders and the coming write faults are, then any operation
    and any restart of the process. *)
Inductive reachable (pdf_reader : bytes -> option (list (option string)))
  : World -> Prop :=
| reach_start fs fl : reachable pdf_reader (mkWorld [] [] (Json []) fs fl)
| reach_op w op :
    reachable pdf_reader w -> reachable pdf_reader (snd (run_op pdf_reader op w))
| reach_restart w w' :
    reachable pdf_reader w ->
    UserProfileManager_init w = (Ret tt, w') ->
    reachable pdf_reader w'.

Definition store_ok (w : World) : Prop :=
  active_in_subjects w /\ file_active_in_subjects w.

(** A computation that keeps the invariant, whatever it returns. *)
Definition preserves {A} (m : M A) : Prop :=
  forall w, store_ok w -> store_ok (snd (m w)).

(** Bio, Chem and Art are created, then Bio is deleted. *)
Definition after_four_operations : World :=
  let w0 := mkWorld [] [] (Json []) (mkFS [] []) [] in
  let w1 := snd (run_op sample_reader
                   (OpMutation (CreateSubject 7 "Bio" default_game)) w0) in
  let w2 := snd (run_op sample_reader
                   (OpMutation (CreateSubject 7 "Chem" default_game)) w1) in
  let w3 := snd (run_op sample_reader
                   (OpMutation (CreateSubject 7 "Art" default_game)) w2) in
  snd (run_op sample_reader (OpMutation (DeleteSubject 7 "Bio")) w3).

(** ** [AITeacher] *)

(** [get_subject_game] *)
Definition get_subject_game (user_id : Z) : M string :=
  let* subject := get_active_subject user_id in
  match subject with
  | None => ret default_game
  | Some subject =>
      let* w := get_world in
      ret (default default_game (game (deref (heap w) subject)))
  end.

(** The text of pages that are all read: every page followed by a newline. *)
Fixpoint pages_text (pages : list string) : string :=
  match pages with
  | [] => ""
  | t :: rest => t +:+ PyStr.newline +:+ pages_text rest
  end.

(** The operation leaves the folder tree as it is, whatever it returns. *)
Definition keeps_files {A} (m : M A) : Prop :=
  forall w, fsys (snd (m w)) = fsys w.

(** A lecture folder holding one uploaded document. *)
Definition one_document : World :=
  snd ((create_subject 7 "Bio" default_game ;;
        save_attachment notes_v1 7 "lecture") empty_world).

(** The path of an uploaded document. *)
Definition document_path (user_id : Z) (subject_key folder_type : string)
  (attachment : Attachment) : Path :=
  collection_path user_id subject_key folder_type // filename attachment.

(** ** Long replies *)

(** [range(0, stop, step)] for a positive [step]. *)
Definition py_range (stop step : nat) : list nat :=
  List.map (fun j => j * step) (seq 0 ((stop + step - 1) / step)).

(** [s[i:j]], for [0 <= i <= j]: cut short at the end of [s]. *)
Definition slice (s : string) (i j : nat) : string := substring i (j - i) s.

(** The length of the pieces in which [!maketest], [!teach] and [!ask] send
    a generated text. *)
Definition chunk_size : nat := 1900.

(** [[text[i:i+1900] for i in range(0, len(text), 1900)]] *)
Definition chunks (text : string) : list string :=
  List.map (fun i => slice text i (i + chunk_size))
           (py_range (String.length text) chunk_size).

(** The messages put together again. *)
Definition concat_text (messages : list string) : string :=
  fold_right String.append "" messages.

(** ** The command [!questions] *)

Inductive QuestionsReply :=
| QuestionsNoActiveSubject
| QuestionsEmpty (subject_name : string)
| QuestionsEmbed (subject_name : string) (fields : list (string * string)).

(** [q[:100] + "..." if len(q) > 100 else q] *)
Definition display_question (q : string) : string :=
  if (100 <? String.length q)%nat then slice q 0 100 +:+ "..." else q.

(** The fields added by the loop over [enumerate(questions)], from index
    [i] on: the name is [f"#{i+1}"]. *)
Fixpoint question_fields (i : nat) (questions : list string)
  : list (string * string) :=
  match questions with
  | [] => []
  | q :: rest =>
      ("#" +:+ PyStr.str (Z.of_nat i + 1), display_question q)
      :: question_fields (S i) rest
  end.

(** [list_questions], the command [!questions] *)
Definition list_questions (author : Z) : M QuestionsReply :=
  let* subject := get_active_subject author in
  match subject with
  | None => ret QuestionsNoActiveSubject
  | Some subject =>
      let* subject_key := subject_key_at subject in
      let* questions := get_question_bank author subject_key in
      let* subject_name := subject_name_at subject in
      match questions with
      | [] => ret (QuestionsEmpty subject_name)
      | _ => ret (QuestionsEmbed subject_name (question_fields 0 questions))
      end
  end.

(** ** The commands [!upload], [!deletesubject] and [!newsubject] *)

Inductive UploadReply :=
| UploadNoActiveSubject
| UploadBadType
| UploadNoAttachment
| UploadNotPdf
| UploadDone (file subject_name folder_name : string)
| UploadFailed.

(** [upload_document], the command [!upload]; [attachments] is
    [ctx.message.attachments].  The message sent before the upload reads
    [subject['name']]. *)
Definition upload_document (author : Z) (doc_type : string)
  (attachments : list Attachment) : M UploadReply :=
  let* subject := get_active_subject author in
  match subject with
  | None => ret UploadNoActiveSubject
  | Some subject =>
      if negb (String.eqb (PyStr.lower doc_type) "lecture"
               || String.eqb (PyStr.lower doc_type) "practice")
      then ret UploadBadType
      else
        match attachments with
        | [] => ret UploadNoAttachment
        | attachment :: _ =>
            if negb (PyStr.endswith (filename attachment) ".pdf")
            then ret UploadNotPdf
            else
              let folder_name :=
                if String.eqb (PyStr.lower doc_type) "lecture"
                then "lectures" else "practice tests" in
              subject_name_at subject ;;
              let* success :=
                save_attachment attachment author (PyStr.lower doc_type) in
              if success : bool then
                let* subject_name := subject_name_at subject in
                ret (UploadDone (filename attachment) subject_name
                                folder_name)
              else ret UploadFailed
        end
  end.

Inductive DeleteReply :=
| DeleteDone (subject_name : string)
| DeleteNotFound (subject_name : string)
| DeleteCancelled
| DeleteTimedOut.

(** [delete_subject], the command [!deletesubject]; [msg] is the content of
    the message that [bot.wait_for] returns, [None] when it times out.  The
    bare [except] answers every exception, the timeout included, with the
    same message. *)
Definition delete_subject_command (author : Z) (subject_name : string)
  (msg : option string) : M DeleteReply :=
  match msg with
  | None => ret DeleteTimedOut
  | Some content =>
      try_except
        (if String.eqb (PyStr.lower content) "yes" then
           let* success := delete_subject author subject_name in
           if success : bool then ret (DeleteDone subject_name)
           else ret (DeleteNotFound subject_name)
         else ret DeleteCancelled)
        (ret DeleteTimedOut)
  end.

Inductive NewSubjectReply :=
| NewSubjectUsage
| NewSubjectCreated (subject_name game : string)
| NewSubjectExists (subject_name : string).

(** [new_subject], the command [!newsubject], on the arguments as
    [discord.py] binds them: the first word is [game], the rest of the line
    is [subject_name]. *)
Definition new_subject_command (author : Z) (game subject_name : string)
  : M NewSubjectReply :=
  let create subject_name game :=
    let* success := create_subject author subject_name game in
    if success : bool then ret (NewSubjectCreated subject_name game)
    else ret (NewSubjectExists subject_name) in
  if String.eqb subject_name "" then
    if negb (String.eqb game "") && negb (String.eqb game default_game)
    then create game default_game
    else ret NewSubjectUsage
  else create subject_name game.

(** A reply that answers the confirmation with something else than "yes". *)
Definition declines (msg : option string) : Prop :=
  match msg with
  | None => True
  | Some content => PyStr.lower content <> "yes"
  end.

(** ** Sharing between subjects *)

(** The dictionary that the table in memory holds for the user [u] under
    the subject key [k]. *)
Definition lookup_subject (w : World) (u k : string) : option loc :=
  match Dict.get u (profiles w) with
  | Some p => Dict.get k (subjects p)
  | None => None
  end.

(** Every dictionary that the table holds is allocated, and no two entries
    of the table hold the same dictionary. *)
Definition heap_ok (w : World) : Prop :=
  forall u k l,
    lookup_subject w u k = Some l ->
    l < length (heap w) /\
    forall u' k', lookup_subject w u' k' = Some l -> u' = u /\ k' = k.

Definition keeps_heap_ok {A} (m : M A) : Prop :=
  forall w, heap_ok w -> heap_ok (snd (m w)).

(** Two users with two subjects each. *)
Definition two_users : World :=
  snd ((create_subject 7 "Bio" default_game ;;
        create_subject 8 "Bio" default_game ;;
        create_subject 7 "Chem" default_game ;;
        create_subject 8 "Art" default_game) empty_world).

(** * Properties *)

(** ** Facts about dictionaries *)

Module DictFacts.
Section DictFacts.
Context {V : Type}.
Implicit Types (d : Dict.t V) (k : string) (v : V).

Lemma get_set_eq k v d : Dict.get k (Dict.set k v d) = Some v.
Proof.
  induction d as [|[k' v'] r IH]; simpl.
  - by rewrite String.eqb_refl.
  - destruct (String.eqb k k') eqn:E; simpl; rewrite ?String.eqb_refl, ?E; done.
Qed.

Lemma get_set_ne k k' v d : k <> k' -> Dict.get k' (Dict.set k v d) = Dict.get k' d.
Proof.
  intros Hne. induction d as [|[k0 v0] r IH]; simpl.
  - apply String.eqb_neq in Hne. rewrite String.eqb_sym in Hne. by rewrite Hne.
  - destruct (String.eqb k k0) eqn:E; simpl.
    + apply String.eqb_eq in E. subst k0.
      destruct (String.eqb k' k) eqn:E'; [|done].
      apply String.eqb_eq in E'. congruence.
    + by rewrite IH.
Qed.

Lemma get_alter_eq f k d : Dict.get k (Dict.alter f k d) = f <$> Dict.get k d.
Proof.
  induction d as [|[k' v'] r IH]; simpl; [done|].
  destruct (String.eqb k k') eqn:E; simpl; rewrite E; done.
Qed.

Lemma get_alter_ne f k k' d : k <> k' -> Dict.get k' (Dict.alter f k d) = Dict.get k' d.
Proof.
  intros Hne. induction d as [|[k0 v0] r IH]; simpl; [done|].
  destruct (String.eqb k k0) eqn:E; simpl.
  - apply String.eqb_eq in E. subst k0.
    destruct (String.eqb k' k) eqn:E'; [|done].
    apply String.eqb_eq in E'. congruence.
  - by rewrite IH.
Qed.

Lemma alter_id_absent f k d : Dict.get k d = None -> Dict.alter f k d = d.
Proof.
  induction d as [|[k' v'] r IH]; simpl; [done|].
  destruct (String.eqb k k'); [done|]. intros H. by rewrite IH.
Qed.

Lemma alter_alter f g k d :
  Dict.alter f k (Dict.alter g k d) = Dict.alter (fun v => f (g v)) k d.
Proof.
  induction d as [|[k' v'] r IH]; simpl; [done|].
  destruct (String.eqb k k') eqn:E; simpl; rewrite E; [done|]. by rewrite IH.
Qed.

Lemma alter_ext f g k d :
  (forall v, f v = g v) -> Dict.alter f k d = Dict.alter g k d.
Proof.
  intros H. induction d as [|[k' v'] r IH]; simpl; [done|].
  destruct (String.eqb k k'); [by rewrite H|by rewrite IH].
Qed.

Lemma mem_get k d : Dict.mem k d = true <-> is_Some (Dict.get k d).
Proof.
  unfold Dict.mem. destruct (Dict.get k d); split; intros H; try done.
Qed.

Lemma mem_false k d : Dict.mem k d = false <-> Dict.get k d = None.
Proof. unfold Dict.mem. destruct (Dict.get k d); split; done. Qed.

Lemma get_del_eq k d : Dict.get k (Dict.del k d) = None.
Proof.
  induction d as [|[k' v'] r IH]; simpl; [done|].
  destruct (String.eqb k k') eqn:E; simpl; [done|]. by rewrite E.
Qed.

Lemma get_del_ne k k' d : k <> k' -> Dict.get k' (Dict.del k d) = Dict.get k' d.
Proof.
  intros Hne. induction d as [|[k0 v0] r IH]; simpl; [done|].
  destruct (String.eqb k k0) eqn:E; simpl.
  - apply String.eqb_eq in E. subst k0.
    destruct (String.eqb k' k) eqn:E'; [|done].
    apply String.eqb_eq in E'. congruence.
  - by rewrite IH.
Qed.

Lemma first_key_mem k d : Dict.first_key d = Some k -> Dict.mem k d = true.
Proof.
  destruct d as [|[k' v'] r]; simpl; [done|].
  intros [= ->]. unfold Dict.mem. simpl. by rewrite String.eqb_refl.
Qed.

Lemma first_key_none d : Dict.first_key d = None <-> d = [].
Proof. destruct d as [|[k' v'] r]; simpl; split; done. Qed.

End DictFacts.
End DictFacts.
Import DictFacts.

(** ** Running the methods *)

Arguments PyStr.str : simpl never.
Arguments subject_key_of : simpl never.
Arguments base_path : simpl never.
Arguments PyPath.join : simpl never.
Arguments get_subject_path : simpl never.
Arguments FS.mkdir_p : simpl never.
Arguments FS.rmtree : simpl never.
Arguments FS.write_file : simpl never.
Arguments FS.glob_pdf : simpl never.
Arguments FS.exists_ : simpl never.
Arguments PyStr.endswith : simpl never.

Lemma get_user_profile_known user_id w p :
  Dict.get (PyStr.str user_id) (profiles w) = Some p ->
  get_user_profile user_id w = (Ret p, w).
Proof. intros H. unfold get_user_profile, bind, get_world. by rewrite H. Qed.

Lemma create_subject_existing user_id subject_name game w p :
  Dict.get (PyStr.str user_id) (profiles w) = Some p ->
  Dict.mem (subject_key_of subject_name) (subjects p) = true ->
  create_subject user_id subject_name game w = (Ret false, w).
Proof.
  intros Hp Hk. unfold create_subject, bind.
  rewrite (get_user_profile_known _ _ _ Hp). by rewrite Hk.
Qed.

Lemma get_user_profile_inv user_id w r w0 :
  get_user_profile user_id w = (r, w0) ->
  heap w0 = heap w /\ fsys w0 = fsys w /\
  profiles w0 = match Dict.get (PyStr.str user_id) (profiles w) with
                | Some _ => profiles w
                | None => Dict.set (PyStr.str user_id) empty_profile (profiles w)
                end /\
  (forall p, r = Ret p ->
     p = profile_of w user_id /\
     Dict.get (PyStr.str user_id) (profiles w0) = Some p).
Proof.
  unfold get_user_profile, bind, get_world, profile_of.
  destruct (Dict.get (PyStr.str user_id) (profiles w)) as [p|] eqn:Hp; simpl.
  - intros [= <- <-]. rewrite Hp.
    split; [done|]. split; [done|]. split; [done|]. by intros ? [= <-].
  - unfold _save_profiles, write_json; simpl.
    destruct (faults w) as [|[] rest]; simpl; intros [= <- <-]; simpl.
    all: split; [done|]; split; [done|]; split; [done|].
    all: intros ? [= <-]; by rewrite ?get_set_eq.
Qed.

Lemma save_profiles_inv w r w' :
  _save_profiles w = (r, w') ->
  profiles w' = profiles w /\ heap w' = heap w /\ fsys w' = fsys w /\
  faults w' = match r with
              | Ret _ => tl (faults w)
              | Raise _ => tl (tl (faults w))
              end /\
  match r with
  | Ret _ => head (faults w) <> Some true /\
             profiles_json w' = to_json (heap w) (profiles w)
  | Raise e => e = OSError /\ head (faults w) = Some true /\
               profiles_json w' = after_failed_write w
  end.
Proof.
  unfold _save_profiles, write_json, after_failed_write.
  destruct (faults w) as [|[] rest]; intros [= <- <-]; simpl; repeat split; done.
Qed.

Lemma fs_call_inv f w r w' :
  fs_call f w = (r, w') ->
  profiles w' = profiles w /\ heap w' = heap w /\
  profiles_json w' = profiles_json w /\ faults w' = faults w /\
  match r with
  | Ret _ => f (fsys w) = Some (fsys w')
  | Raise e => e = OSError /\ f (fsys w) = None /\ fsys w' = fsys w
  end.
Proof.
  unfold fs_call, bind, get_world, set_fsys, raise.
  destruct (f (fsys w)) as [fs|]; intros [= <- <-]; simpl; repeat split; done.
Qed.

Lemma create_subject_true user_id subject_name game w w1 :
  create_subject user_id subject_name game w = (Ret true, w1) ->
  let p0 := profile_of w user_id in
  let k := subject_key_of subject_name in
  Dict.mem k (subjects p0) = false /\
  heap w1 = (heap w ++ [new_subject subject_name game])%list /\
  Dict.get (PyStr.str user_id) (profiles w1) =
    Some (mkProfile (Dict.set k (length (heap w)) (subjects p0))
                    (match active_subject p0 with
                     | None => Some k
                     | Some a => Some a
                     end)).
Proof.
  unfold create_subject. unfold bind at 1.
  destruct (get_user_profile user_id w) as [[p|e] w0] eqn:Hg; [|done].
  apply get_user_profile_inv in Hg as (Hh & Hf & Hps & Hp).
  destruct (Hp p eq_refl) as [-> Hget]. clear Hp.
  destruct (Dict.mem _ _) eqn:Hmem; [done|].
  unfold bind at 1.
  destruct (fs_call _ w0) as [[[]|e] wa] eqn:Ha; [|done].
  apply fs_call_inv in Ha as (Hpa & Hha & _ & _ & _).
  unfold bind at 1.
  destruct (fs_call _ wa) as [[[]|e] wb] eqn:Hb; [|done].
  apply fs_call_inv in Hb as (Hpb & Hhb & _ & _ & _).
  unfold bind at 1. unfold alloc, bind, get_world, set_heap, ret,
    update_profile, set_profiles. simpl.
  match goal with |- context [_save_profiles ?w] =>
    destruct (_save_profiles w) as [[[]|e] wc] eqn:Hc; [|done] end.
  apply save_profiles_inv in Hc as (Hpc & Hhc & _). simpl in *.
  intros [= <-]. split; [done|]. split.
  - rewrite Hhc, Hhb, Hha, Hh. done.
  - rewrite Hpc, Hpb, Hpa, alter_alter, get_alter_eq, Hget. simpl.
    rewrite Hhb, Hha, Hh. unfold set_active, set_subjects; simpl.
    by destruct (active_subject (profile_of w user_id)).
Qed.

Lemma get_active_subject_known user_id w p k l :
  Dict.get (PyStr.str user_id) (profiles w) = Some p ->
  active_subject p = Some k ->
  Dict.get k (subjects p) = Some l ->
  get_active_subject user_id w =
    (Ret (Some l),
     mkWorld (profiles w) (alter (set_key k) l (heap w)) (profiles_json w)
             (fsys w) (faults w)).
Proof.
  intros Hp Ha Hl. unfold get_active_subject, bind.
  rewrite (get_user_profile_known _ _ _ Hp), Ha, Hl. done.
Qed.

Lemma get_active_subject_none user_id w p :
  Dict.get (PyStr.str user_id) (profiles w) = Some p ->
  active_subject p = None ->
  get_active_subject user_id w = (Ret None, w).
Proof.
  intros Hp Ha. unfold get_active_subject, bind.
  rewrite (get_user_profile_known _ _ _ Hp), Ha. done.
Qed.

Lemma deref_alter f l h s :
  h !! l = Some s -> deref (alter f l h) l = f s.
Proof. intros H. unfold deref. by rewrite list_lookup_alter_eq, H. Qed.

Lemma deref_alter_ne f l l' h :
  l <> l' -> deref (alter f l h) l' = deref h l'.
Proof. intros H. unfold deref. by rewrite list_lookup_alter_ne. Qed.

(** ** Subject keys and the first subject (C1) *)

Lemma lower_char_space c :
  Ascii.eqb (PyStr.lower_char c) " " = Ascii.eqb c " ".
Proof. by destruct c as [[] [] [] [] [] [] [] []]. Qed.

Lemma subject_key_of_chars s :
  subject_key_of s =
  PyStr.map (fun c => if Ascii.eqb c " " then "_"%char else PyStr.lower_char c) s.
Proof.
  unfold subject_key_of, PyStr.replace, PyStr.lower.
  induction s as [|c r IH]; simpl; [done|].
  by rewrite IH, lower_char_space.
Qed.

(** C1, as stated, fails: a tab is whitespace, and the key of the first
    subject ["Unit<TAB>1"] keeps it, whereas the normal form of the
    specification has an underscore there. *)
Lemma first_subject_key_keeps_tab :
  exists w1 l w2,
    create_subject 1 name_with_tab default_game empty_world = (Ret true, w1) /\
    get_active_subject 1 w1 = (Ret (Some l), w2) /\
    key (deref (heap w2) l) = Some ("unit" +:+ String "009"%char "1") /\
    key (deref (heap w2) l) <> Some (subject_key_spec name_with_tab).
Proof.
  eexists _, _, _. split; [vm_compute; reflexivity|].
  split; [vm_compute; reflexivity|].
  split; [vm_compute; reflexivity|]. vm_compute. discriminate.
Qed.

(** C1, amended: [create_subject] stores the subject under the key obtained
    from the display name by lowercasing it and replacing every space
    character by an underscore (other whitespace is kept), and when no
    subject was active before, as for the first subject of a user, the
    following [get_active_subject] returns that very subject with its
    ["key"] entry equal to this key. *)
Theorem create_subject_then_get_active_subject
    user_id subject_name game w w1 :
  active_subject (profile_of w user_id) = None ->
  create_subject user_id subject_name game w = (Ret true, w1) ->
  subject_key_of subject_name =
    PyStr.map (fun c => if Ascii.eqb c " " then "_"%char
                        else PyStr.lower_char c) subject_name /\
  exists l w2,
    get_active_subject user_id w1 = (Ret (Some l), w2) /\
    Dict.get (subject_key_of subject_name) (subjects (profile_of w2 user_id))
      = Some l /\
    active_subject (profile_of w2 user_id) = Some (subject_key_of subject_name) /\
    key (deref (heap w2) l) = Some (subject_key_of subject_name) /\
    name (deref (heap w2) l) = Some subject_name.
Proof.
  intros Hnone Hrun. split; [apply subject_key_of_chars|].
  apply create_subject_true in Hrun as (_ & Hheap & Hprof).
  rewrite Hnone in Hprof.
  eexists _, _. split.
  { eapply get_active_subject_known; [exact Hprof|done|]. simpl.
    apply get_set_eq. }
  unfold profile_of; simpl. rewrite Hprof; simpl.
  split; [apply get_set_eq|]. split; [done|].
  rewrite (deref_alter _ _ _ (new_subject subject_name game)); [done|].
  rewrite Hheap. by rewrite list_lookup_middle.
Qed.

Lemma create_subject_then_get_active_subject_witness :
  exists w1,
    create_subject 7 "Pokemon Biology" "Pokemon" empty_world = (Ret true, w1) /\
    exists l w2,
      get_active_subject 7 w1 = (Ret (Some l), w2) /\
      key (deref (heap w2) l) = Some "pokemon_biology".
Proof.
  assert (Hrun : create_subject 7 "Pokemon Biology" "Pokemon" empty_world
                 = (Ret true,
                    snd (create_subject 7 "Pokemon Biology" "Pokemon"
                                        empty_world)))
    by (vm_compute; reflexivity).
  eexists. split; [exact Hrun|].
  destruct (create_subject_then_get_active_subject
              7 "Pokemon Biology" "Pokemon" empty_world _
              eq_refl Hrun) as (_ & l & w2 & H1 & _ & _ & H2 & _).
  exists l, w2. split; [exact H1|exact H2].
Defined.

(** ** A colliding key (C2) *)

(** C2: when the normalized key of [subject_name] is already a key of the
    user's subjects, [create_subject] returns [False] and nothing at all has
    changed: not the profile table, not a subject dictionary or its question
    bank, not the active subject, not the profile file, not a folder. *)
Theorem create_subject_collision_changes_nothing
    user_id subject_name game w p :
  Dict.get (PyStr.str user_id) (profiles w) = Some p ->
  Dict.mem (subject_key_of subject_name) (subjects p) = true ->
  create_subject user_id subject_name game w = (Ret false, w).
Proof. apply create_subject_existing. Qed.

Lemma create_subject_collision_changes_nothing_witness :
  let w := snd (create_subject 7 "Bio Chem" "Pokemon" empty_world) in
  create_subject 7 "bio chem" default_game w = (Ret false, w) /\
  create_subject 7 "BIO_CHEM" default_game w = (Ret false, w).
Proof.
  split.
  - apply (create_subject_collision_changes_nothing 7 "bio chem" default_game _
             (mkProfile [("bio_chem", 0)] (Some "bio_chem")));
      vm_compute; reflexivity.
  - apply (create_subject_collision_changes_nothing 7 "BIO_CHEM" default_game _
             (mkProfile [("bio_chem", 0)] (Some "bio_chem")));
      vm_compute; reflexivity.
Defined.

(** ** The read that writes (C10) *)

Lemma get_map_values {A B} (f : A -> B) k (d : Dict.t A) :
  Dict.get k (List.map (fun kv => (fst kv, f (snd kv))) d) = f <$> Dict.get k d.
Proof.
  induction d as [|[k' v] r IH]; simpl; [done|].
  by destruct (String.eqb k k').
Qed.

Lemma get_to_json h ps u :
  Dict.get u (table_json h ps) = profile_to_json h <$> Dict.get u ps.
Proof. exact (get_map_values (profile_to_json h) u ps). Qed.

Lemma get_json_subject h ps u p k l :
  Dict.get u ps = Some p ->
  Dict.get k (subjects p) = Some l ->
  exists pj, Dict.get u (table_json h ps) = Some pj /\
             Dict.get k (json_subjects pj) = Some (deref h l).
Proof.
  intros Hp Hl. exists (profile_to_json h p). rewrite get_to_json, Hp.
  split; [done|]. simpl.
  by rewrite (get_map_values (deref h) k (subjects p)), Hl.
Qed.

(** C10: for a user with an active subject [k], [get_active_subject] returns
    the dictionary that the profile stores under [k] (the same object, not a
    copy) after writing [k] into its ["key"] entry.  The table in memory is
    thereby changed by the read whenever that entry was not yet [k], and
    the next [_save_profiles] that succeeds on this table writes the entry
    to the profile file. *)
Theorem get_active_subject_writes_key user_id w p k l s :
  Dict.get (PyStr.str user_id) (profiles w) = Some p ->
  active_subject p = Some k ->
  Dict.get k (subjects p) = Some l ->
  heap w !! l = Some s ->
  exists w',
    get_active_subject user_id w = (Ret (Some l), w') /\
    profiles w' = profiles w /\
    heap w' = alter (set_key k) l (heap w) /\
    deref (heap w') l = set_key k s /\
    profiles_json w' = profiles_json w /\
    (key s <> Some k ->
       heap w' <> heap w /\
       to_json (heap w') (profiles w') <> to_json (heap w) (profiles w)) /\
    (forall wx wy,
       profiles wx = profiles w' -> heap wx = heap w' ->
       _save_profiles wx = (Ret tt, wy) ->
       exists table pj,
         profiles_json wy = Json table /\
         Dict.get (PyStr.str user_id) table = Some pj /\
         Dict.get k (json_subjects pj) = Some (set_key k s)).
Proof.
  intros Hp Ha Hl Hs. eexists. split.
  { eapply get_active_subject_known; eauto. }
  simpl. split; [done|]. split; [done|].
  split; [by apply deref_alter|]. split; [done|]. split.
  - intros Hk.
    assert (Hne : deref (alter (set_key k) l (heap w)) l <> deref (heap w) l).
    { rewrite (deref_alter _ _ _ s Hs). unfold deref. rewrite Hs. simpl.
      intros E. apply Hk. rewrite <- E. done. }
    split.
    + intros E. apply Hne. by rewrite E.
    + intros E. injection E as E.
      destruct (get_json_subject (alter (set_key k) l (heap w)) _ _ _ _ _ Hp Hl)
        as (pj & H1 & H2).
      destruct (get_json_subject (heap w) _ _ _ _ _ Hp Hl) as (pj' & H1' & H2').
      rewrite E in H1. rewrite H1 in H1'. injection H1' as ->.
      rewrite H2 in H2'. injection H2' as E'. by apply Hne.
  - intros wx wy Hpx Hhx Hsave.
    apply save_profiles_inv in Hsave as (_ & _ & _ & _ & _ & ->).
    rewrite Hpx, Hhx. simpl.
    destruct (get_json_subject (alter (set_key k) l (heap w)) _ _ _ _ _ Hp Hl)
      as (pj & H1 & H2).
    eexists _, pj. split; [reflexivity|]. split; [done|].
    by rewrite H2, (deref_alter _ _ _ s Hs).
Qed.

Lemma get_active_subject_writes_key_witness :
  let w := snd (create_subject 7 "Bio" "Pokemon" empty_world) in
  exists w',
    get_active_subject 7 w = (Ret (Some 0), w') /\
    key (deref (heap w) 0) = None /\
    key (deref (heap w') 0) = Some "bio".
Proof.
  intros w.
  destruct (get_active_subject_writes_key 7 w
              (mkProfile [("bio", 0)] (Some "bio")) "bio" 0
              (mkSubject (Some "Bio") (Some "Pokemon") (Some true) (Some []) None)
              eq_refl eq_refl eq_refl eq_refl)
    as (w' & Hrun & _ & _ & Hkey & _).
  exists w'. split; [exact Hrun|]. split; [reflexivity|].
  rewrite Hkey. reflexivity.
Defined.

(** ** Deleting a subject (C3) *)

Lemma delete_subject_run user_id subject_name w p r w' :
  Dict.get (PyStr.str user_id) (profiles w) = Some p ->
  Dict.mem (subject_key_of subject_name) (subjects p) = true ->
  delete_subject user_id subject_name w = (r, w') ->
  let subject_key := subject_key_of subject_name in
  let subject_path := get_subject_path user_id subject_key in
  heap w' = heap w /\
  ((FS.is_file subject_path (fsys w) = true /\ r = Raise OSError /\
    profiles w' = profiles w /\ fsys w' = fsys w /\
    profiles_json w' = profiles_json w) \/
   (FS.is_file subject_path (fsys w) = false /\
    profiles w' = Dict.alter (delete_from_profile subject_key)
                             (PyStr.str user_id) (profiles w) /\
    ((r = Ret true /\ head (faults w) <> Some true /\
      profiles_json w' = to_json (heap w') (profiles w')) \/
     (r = Raise OSError /\ head (faults w) = Some true /\
      profiles_json w' = after_failed_write w)))).
Proof.
  intros Hp Hk. unfold delete_subject. unfold bind at 1.
  rewrite (get_user_profile_known _ _ _ Hp), Hk. simpl negb. cbv iota.
  unfold bind at 1. unfold bind at 1. unfold get_world at 1.
  intros Hrun.
  assert (Hstep : forall w0,
    heap w0 = heap w -> profiles w0 = profiles w ->
    profiles_json w0 = profiles_json w -> faults w0 = faults w ->
    (let* _ := update_profile user_id
        (fun p0 => set_subjects (Dict.del (subject_key_of subject_name)
                                          (subjects p0)) p0) in
     let* _ := update_profile user_id
        (fun p0 => if bool_decide (active_subject p0 =
                                   Some (subject_key_of subject_name))
                   then set_active (Dict.first_key (subjects p0)) p0
                   else p0) in
     let* _ := _save_profiles in ret true) w0 = (r, w') ->
    heap w' = heap w /\
    profiles w' = Dict.alter (delete_from_profile (subject_key_of subject_name))
                             (PyStr.str user_id) (profiles w) /\
    ((r = Ret true /\ head (faults w) <> Some true /\
      profiles_json w' = to_json (heap w') (profiles w')) \/
     (r = Raise OSError /\ head (faults w) = Some true /\
      profiles_json w' = after_failed_write w))).
  { intros w0 Hh0 Hp0 Hj0 Hf0.
    unfold update_profile, bind, get_world, set_profiles, ret. simpl.
    rewrite alter_alter, Hp0.
    rewrite (alter_ext _ (delete_from_profile (subject_key_of subject_name)))
      by (intros v; unfold delete_from_profile, set_active, set_subjects;
          simpl; by case_bool_decide).
    match goal with |- context [_save_profiles ?x] =>
      destruct (_save_profiles x) as [[[]|e] wc] eqn:Hc end;
      apply save_profiles_inv in Hc as (Hpc & Hhc & _ & _ & Hres);
      simpl in *; intros [= <- <-].
    - destruct Hres as [Hf Hj]. rewrite Hhc, Hpc, Hh0. split; [done|].
      split; [done|]. left.
      rewrite <- Hf0. split; [done|]. split; [done|]. by rewrite Hj, Hh0.
    - destruct Hres as (-> & Hf & Hj). rewrite Hhc, Hpc, Hh0. split; [done|].
      split; [done|]. right. rewrite <- Hf0. split; [done|]. split; [done|].
      rewrite Hj. unfold after_failed_write. simpl. by rewrite Hf0, Hj0. }
  cbv beta iota delta [negb] in Hrun. unfold FS.exists_ in Hrun.
  destruct (FS.is_file _ (fsys w)) eqn:Hfile.
  - rewrite orb_true_r in Hrun.
    unfold fs_call, bind, get_world, FS.rmtree in Hrun.
    rewrite Hfile in Hrun. simpl in Hrun. injection Hrun as <- <-.
    split; [done|]. left. done.
  - rewrite orb_false_r in Hrun.
    destruct (FS.is_dir _ (fsys w)) eqn:Hdir.
    + destruct (fs_call _ w) as [[[]|e] wa] eqn:Ha.
      * apply fs_call_inv in Ha as (Hpa & Hha & Hja & Hfa & _).
        destruct (Hstep wa Hha Hpa Hja Hfa Hrun) as (H1 & H2 & H3).
        split; [done|]. right. done.
      * apply fs_call_inv in Ha as (_ & _ & _ & _ & _ & Hnone & _).
        unfold FS.rmtree in Hnone. by rewrite Hfile in Hnone.
    + destruct (Hstep w eq_refl eq_refl eq_refl eq_refl Hrun) as (H1 & H2 & H3).
      split; [done|]. right. done.
Qed.

(** C3: [delete_subject] on a subject of the profile either raises in
    [rmtree] and leaves the profiles as they were, or removes the subject and
    leaves a profile that is [reassigned]: the subjects left are the others
    in their order of insertion; if the deleted subject was the active one,
    the active subject becomes the first-inserted remaining key, a key of the
    remaining subjects, and [None] exactly when none remain; if it was not,
    the active subject is unchanged.  A call that returns [True] has removed
    the subject.  So in every case a subject that was not active leaves the
    active subject unchanged, and after the call on the active subject the
    active subject is a key of the subjects of the profile, or [None] with no
    subject left.  Where the folders name their places directly and the
    folder of the subject is not a regular file, the subject is removed,
    whether or not the flush that follows succeeds. *)
Theorem delete_subject_reassigns_active user_id subject_name w p r w' :
  Dict.get (PyStr.str user_id) (profiles w) = Some p ->
  Dict.mem (subject_key_of subject_name) (subjects p) = true ->
  delete_subject user_id subject_name w = (r, w') ->
  let k := subject_key_of subject_name in
  let p' := profile_of w' user_id in
  ((r = Raise OSError /\ profiles w' = profiles w /\ heap w' = heap w) \/
   ((r = Ret true \/ r = Raise OSError) /\ reassigned k p p')) /\
  (r = Ret true -> reassigned k p p') /\
  (active_subject p <> Some k -> active_subject p' = active_subject p) /\
  (active_subject p = Some k ->
     match active_subject p' with
     | Some k' => Dict.mem k' (subjects p') = true
     | None => subjects p' = []
     end) /\
  (PyPath.plain (subject_folder user_id subject_name) = true ->
   FS.plain_tree (fsys w) = true ->
   FS.is_file (subject_folder user_id subject_name) (fsys w) = false ->
   (r = Ret true \/ r = Raise OSError) /\ reassigned k p p').
Proof.
  intros Hp Hk Hrun k p'.
  pose proof (delete_subject_run _ _ _ _ _ _ Hp Hk Hrun) as Hd.
  cbv zeta in Hd. destruct Hd as (Hheap & [H|H]).
  { destruct H as (Hfile & -> & Hps & _).
    assert (Hp' : p' = p) by (unfold p', profile_of; by rewrite Hps, Hp).
    split; [by left|]. split; [done|]. rewrite Hp'. split; [done|].
    split; [intros ->; exact Hk|].
    intros _ _ Hfile'. unfold subject_folder in Hfile'. congruence. }
  destruct H as (_ & Hps & Hr).
  assert (Hp' : p' = delete_from_profile k p).
  { unfold p', profile_of. by rewrite Hps, get_alter_eq, Hp. }
  assert (Hres : r = Ret true \/ r = Raise OSError)
    by (destruct Hr as [(-> & _)|(-> & _)]; auto).
  assert (Hre : reassigned k p p').
  { rewrite Hp'. unfold reassigned, delete_from_profile. simpl.
    split; [done|]. split.
    - intros Ha. rewrite bool_decide_eq_true_2 by done.
      split; [done|]. split; [symmetry; apply first_key_none|].
      intros k' Hk'. split; [by apply first_key_mem|].
      intros ->. apply first_key_mem, mem_get in Hk' as [v Hv].
      by rewrite get_del_eq in Hv.
    - intros Ha. by rewrite bool_decide_eq_false_2. }
  split; [by right|]. split; [done|].
  destruct Hre as (Hsub & Hact & Hother).
  split; [done|]. split; [|by split; [|split]].
  intros Ha. destruct (Hact Ha) as (Hfirst & Hnone & Hsome).
  rewrite Hsub. destruct (active_subject p') as [k'|] eqn:Hk'.
  - by destruct (Hsome k' eq_refl).
  - by apply Hnone.
Qed.

Lemma delete_subject_reassigns_active_witness :
  active_subject (profile_of three_subjects 7) = Some "bio" /\
  active_subject (profile_of (snd (delete_subject 7 "BIO" three_subjects)) 7)
    = Some "chem" /\
  fst (delete_subject 7 "BIO" folder_is_a_file) = Raise OSError /\
  active_subject (profile_of (snd (delete_subject 7 "BIO" folder_is_a_file)) 7)
    = Some "bio".
Proof.
  split; [reflexivity|].
  destruct (delete_subject_reassigns_active 7 "BIO" three_subjects
              (mkProfile [("bio", 0); ("chem", 1); ("art", 2)] (Some "bio"))
              (fst (delete_subject 7 "BIO" three_subjects))
              (snd (delete_subject 7 "BIO" three_subjects))
              eq_refl eq_refl (surjective_pairing _))
    as (_ & _ & _ & _ & Hplain).
  destruct (Hplain eq_refl eq_refl eq_refl) as (_ & _ & Hact & _).
  destruct (Hact eq_refl) as (H & _).
  split; [exact H|]. split; reflexivity.
Defined.

(** ** The question bank (C5) *)

Lemma bind_run {A B} (m : M A) (k : A -> M B) w a w' :
  m w = (Ret a, w') -> bind m k w = k a w'.
Proof. intros H. unfold bind. by rewrite H. Qed.

Lemma bind_raise {A B} (m : M A) (k : A -> M B) w e w' :
  m w = (Raise e, w') -> bind m k w = (Raise e, w').
Proof. intros H. unfold bind. by rewrite H. Qed.

Lemma update_subject_run l f w :
  update_subject l f w = (Ret tt, with_heap (alter f l (heap w)) w).
Proof. reflexivity. Qed.

Lemma subject_key_at_known l w k :
  key (deref (heap w) l) = Some k -> subject_key_at l w = (Ret k, w).
Proof. intros H. unfold subject_key_at, bind, get_world. by rewrite H. Qed.

Lemma subject_name_at_run l w :
  subject_name_at l w =
  (match name (deref (heap w) l) with
   | Some n => Ret n
   | None => Raise (KeyError "name")
   end, w).
Proof.
  unfold subject_name_at, bind, get_world. by destruct (name _).
Qed.

Lemma get_question_bank_known user_id k w p l :
  Dict.get (PyStr.str user_id) (profiles w) = Some p ->
  Dict.get k (subjects p) = Some l ->
  get_question_bank user_id k w = (Ret (bank_at w l), w).
Proof.
  intros Hp Hl. unfold get_question_bank.
  rewrite (bind_run _ _ _ _ _ (get_user_profile_known _ _ _ Hp)), Hl. done.
Qed.

Lemma remove_question_from_bank_run user_id k index w p l :
  Dict.get (PyStr.str user_id) (profiles w) = Some p ->
  Dict.get k (subjects p) = Some l ->
  remove_question_from_bank user_id k index w =
  if (0 <=? index)%Z && (index <? Z.of_nat (length (bank_at w l)))%Z
  then (_save_profiles ;; ret true)
         (with_heap (alter (set_question_bank (pop index (bank_at w l))) l
                           (heap w)) w)
  else (Ret false, w).
Proof.
  intros Hp Hl. unfold remove_question_from_bank.
  rewrite (bind_run _ _ _ _ _ (get_user_profile_known _ _ _ Hp)), Hl.
  unfold bind at 1, get_world at 1. fold (bank_at w l).
  destruct (_ && _); [|done].
  by rewrite (bind_run _ _ _ _ _ (update_subject_run _ _ _)).
Qed.

Lemma add_question_to_bank_run user_id k question w p l :
  Dict.get (PyStr.str user_id) (profiles w) = Some p ->
  Dict.get k (subjects p) = Some l ->
  add_question_to_bank user_id k question w =
  (_save_profiles ;; ret true)
    (with_heap (alter (append_question question) l (heap w)) w).
Proof.
  intros Hp Hl. unfold add_question_to_bank.
  rewrite (bind_run _ _ _ _ _ (get_user_profile_known _ _ _ Hp)), Hl.
  rewrite (bind_run _ _ _ _ _ (update_subject_run _ _ _)).
  rewrite (bind_run _ _ _ _ _ (update_subject_run _ _ _)).
  f_equal. unfold with_heap; simpl. f_equal.
  rewrite list_alter_alter_eq. apply list_alter_ext; [|done].
  intros x _. unfold append_question, compose.
  by destruct x as [? ? ? [?|] ?].
Qed.

Lemma save_then_ret {A} (a : A) w :
  (_save_profiles ;; ret a) w =
  match faults w with
  | true :: rest =>
      (Raise OSError,
       mkWorld (profiles w) (heap w) (after_failed_write w) (fsys w)
               (tl rest))
  | _ =>
      (Ret a,
       mkWorld (profiles w) (heap w) (to_json (heap w) (profiles w))
               (fsys w) (tl (faults w)))
  end.
Proof.
  unfold bind, _save_profiles, write_json, after_failed_write.
  by destruct (faults w) as [|[] ?].
Qed.

Section QuestionBank.

Variables (user_id : Z) (w : World) (p : Profile) (k : string) (l : loc)
          (s : SubjectInfo).
Hypothesis Hp : Dict.get (PyStr.str user_id) (profiles w) = Some p.
Hypothesis Ha : active_subject p = Some k.
Hypothesis Hl : Dict.get k (subjects p) = Some l.
Hypothesis Hs : heap w !! l = Some s.

Local Abbreviation qs := (default [] (question_bank s)) (only parsing).

Lemma active_subject_step :
  get_active_subject user_id w = (Ret (Some l), (keyed w k l)).
Proof. exact (get_active_subject_known _ _ p _ _ Hp Ha Hl). Qed.

Lemma deref_keyed : deref (heap (keyed w k l)) l = set_key k s.
Proof. simpl. by apply deref_alter. Qed.

Lemma bank_at_keyed : bank_at (keyed w k l) l = qs.
Proof. unfold bank_at. by rewrite deref_keyed. Qed.

(** The handler up to the call of the manager. *)
Lemma handler_prefix {A} (body : loc -> string -> M A) :
  (let* subject := get_active_subject user_id in
   match subject with
   | None => ret None
   | Some subject =>
       let* subject_key := subject_key_at subject in
       let* a := body subject subject_key in ret (Some a)
   end) w =
  (let* a := body l k in ret (Some a)) (keyed w k l).
Proof.
  rewrite (bind_run _ _ _ _ _ active_subject_step).
  rewrite (bind_run _ _ _ k (keyed w k l)); [done|].
  apply subject_key_at_known. by rewrite deref_keyed.
Qed.

Lemma remove_question_out_of_range n :
  (n < 1 \/ Z.of_nat (length qs) < n)%Z ->
  remove_question user_id n w = (Ret (QuestionNotFound n), (keyed w k l)).
Proof.
  intros Hn. unfold remove_question.
  rewrite (bind_run _ _ _ _ _ active_subject_step).
  rewrite (bind_run _ _ _ k (keyed w k l))
    by (apply subject_key_at_known; by rewrite deref_keyed).
  rewrite (bind_run _ _ _ false (keyed w k l)); [done|].
  rewrite (remove_question_from_bank_run _ _ _ (keyed w k l) p l Hp Hl).
  rewrite bank_at_keyed.
  destruct (0 <=? n - 1)%Z eqn:E1;
    destruct (n - 1 <? Z.of_nat (length qs))%Z eqn:E2; simpl; try done.
  apply Z.leb_le in E1. apply Z.ltb_lt in E2. lia.
Qed.

Lemma deref_popped index :
  deref (popped w k l s index) l = set_question_bank (pop index qs) (set_key k s).
Proof.
  unfold popped. simpl. apply deref_alter.
  by rewrite list_lookup_alter_eq, Hs.
Qed.

Lemma remove_question_in_range n :
  (1 <= n <= Z.of_nat (length qs))%Z ->
  remove_question user_id n w =
  match faults w with
  | true :: rest =>
      (Raise OSError,
       mkWorld (profiles w) (popped w k l s (n - 1)) (after_failed_write w)
               (fsys w) (tl rest))
  | _ =>
      (match name s with
       | Some nm => Ret (QuestionRemoved n nm (length qs - 1))
       | None => Raise (KeyError "name")
       end,
       mkWorld (profiles w) (popped w k l s (n - 1))
               (to_json (popped w k l s (n - 1)) (profiles w)) (fsys w)
               (tl (faults w)))
  end.
Proof.
  intros Hn. unfold remove_question.
  rewrite (bind_run _ _ _ _ _ active_subject_step).
  rewrite (bind_run _ _ _ k (keyed w k l))
    by (apply subject_key_at_known; by rewrite deref_keyed).
  pose proof (remove_question_from_bank_run _ _ (n - 1) (keyed w k l) p l Hp Hl)
    as Hrun.
  rewrite bank_at_keyed in Hrun.
  replace ((0 <=? n - 1)%Z && (n - 1 <? Z.of_nat (length qs))%Z) with true
    in Hrun by (symmetry; apply andb_true_iff; split;
                [apply Z.leb_le|apply Z.ltb_lt]; lia).
  rewrite save_then_ret in Hrun. fold (popped w k l s (n - 1)) in Hrun.
  simpl in Hrun.
  destruct (faults w) as [|[] rest] eqn:Hf.
  all: try (rewrite (bind_raise _ _ _ _ _ Hrun); done).
  all: rewrite (bind_run _ _ _ _ _ Hrun).
  all: erewrite bind_run
    by (apply subject_key_at_known; simpl; by rewrite deref_popped).
  all: erewrite bind_run
    by (apply (get_question_bank_known _ _ _ p l); [exact Hp|exact Hl]).
  all: unfold bind; rewrite subject_name_at_run; unfold bank_at; simpl.
  all: rewrite deref_popped; simpl.
  all: assert (Hlen : length (pop (n - 1) qs) = length qs - 1)
    by (unfold pop; apply length_delete, lookup_lt_is_Some; lia).
  all: rewrite Hlen; by destruct (name s).
Qed.

Lemma deref_appended question :
  deref (appended w k l question) l =
  set_question_bank (qs ++ [question]) (set_key k s).
Proof.
  unfold appended. simpl.
  rewrite (deref_alter _ _ _ (set_key k s))
    by (by rewrite list_lookup_alter_eq, Hs).
  done.
Qed.

Lemma add_question_run question :
  add_question user_id question w =
  match faults w with
  | true :: rest =>
      (Raise OSError,
       mkWorld (profiles w) (appended w k l question) (after_failed_write w)
               (fsys w) (tl rest))
  | _ =>
      (match name s with
       | Some nm => Ret (QuestionAdded nm (S (length qs)))
       | None => Raise (KeyError "name")
       end,
       mkWorld (profiles w) (appended w k l question)
               (to_json (appended w k l question) (profiles w)) (fsys w)
               (tl (faults w)))
  end.
Proof.
  unfold add_question.
  rewrite (bind_run _ _ _ _ _ active_subject_step).
  rewrite (bind_run _ _ _ k (keyed w k l))
    by (apply subject_key_at_known; by rewrite deref_keyed).
  pose proof (add_question_to_bank_run _ _ question (keyed w k l) p l Hp Hl) as Hrun.
  rewrite save_then_ret in Hrun. fold (appended w k l question) in Hrun.
  simpl in Hrun.
  destruct (faults w) as [|[] rest] eqn:Hf.
  all: try (rewrite (bind_raise _ _ _ _ _ Hrun); done).
  all: rewrite (bind_run _ _ _ _ _ Hrun).
  all: erewrite bind_run
    by (apply subject_key_at_known; simpl; by rewrite deref_appended).
  all: erewrite bind_run
    by (apply (get_question_bank_known _ _ _ p l); [exact Hp|exact Hl]).
  all: unfold bind; rewrite subject_name_at_run; unfold bank_at; simpl.
  all: rewrite deref_appended; simpl.
  all: rewrite length_app; simpl; rewrite Nat.add_1_r; by destruct (name s).
Qed.

End QuestionBank.

(** C5: [!removeq n] takes the 1-based number shown by [!questions] and
    removes the question at the 0-based position [n - 1]; a number outside
    [1 .. len(bank)], in particular any number on an empty bank, is answered
    with "not found", nothing is raised and the bank is left as it was; and
    [!addq q] followed by [!removeq 1] removes the question that was first
    in the bank ([q] itself when the bank was empty). *)
Theorem remove_question_one_based user_id w p k l s :
  Dict.get (PyStr.str user_id) (profiles w) = Some p ->
  active_subject p = Some k ->
  Dict.get k (subjects p) = Some l ->
  heap w !! l = Some s ->
  let qs := default [] (question_bank s) in
  (forall n, (n < 1 \/ Z.of_nat (length qs) < n)%Z ->
     exists w',
       remove_question user_id n w = (Ret (QuestionNotFound n), w') /\
       bank_at w' l = qs /\ length (bank_at w' l) = length qs /\
       question_bank (deref (heap w') l) = question_bank s /\
       profiles w' = profiles w /\ profiles_json w' = profiles_json w) /\
  (forall n r w',
     (1 <= n <= Z.of_nat (length qs))%Z ->
     remove_question user_id n w = (r, w') ->
     bank_at w' l = delete (Z.to_nat (n - 1)) qs /\
     length (bank_at w' l) = length qs - 1 /\
     (head (faults w) <> Some true ->
      forall nm, name s = Some nm ->
                 r = Ret (QuestionRemoved n nm (length qs - 1)))) /\
  (forall q r1 w1 r2 w2,
     add_question user_id q w = (r1, w1) ->
     remove_question user_id 1 w1 = (r2, w2) ->
     bank_at w1 l = (qs ++ [q])%list /\
     bank_at w1 l = hd q qs :: bank_at w2 l).
Proof.
  intros Hp Ha Hl Hs qs.
  assert (Hin : forall n r w',
     (1 <= n <= Z.of_nat (length qs))%Z ->
     remove_question user_id n w = (r, w') ->
     heap w' = popped w k l s (n - 1) /\
     (head (faults w) <> Some true ->
      forall nm, name s = Some nm ->
                 r = Ret (QuestionRemoved n nm (length qs - 1)))).
  { intros n r w' Hn.
    rewrite (remove_question_in_range user_id w p k l s Hp Ha Hl Hs n Hn).
    destruct (faults w) as [|[] rest]; intros [= <- <-]; simpl;
      (split; [done|]); intros Hf nm Hnm; try done; by rewrite Hnm. }
  split; [|split].
  - intros n Hn. exists (keyed w k l). split.
    { by apply (remove_question_out_of_range user_id w p k l s). }
    rewrite (bank_at_keyed w k l s Hs). split; [done|]. split; [done|].
    split; [|done]. by rewrite (deref_keyed w k l s Hs).
  - intros n r w' Hn Hrun. destruct (Hin n r w' Hn Hrun) as [Hh Hr].
    assert (Hb : bank_at w' l = delete (Z.to_nat (n - 1)) qs).
    { unfold bank_at. by rewrite Hh, (deref_popped w k l s Hs). }
    split; [done|]. split; [|done].
    rewrite Hb. apply length_delete, lookup_lt_is_Some. lia.
  - intros q r1 w1 r2 w2 Hadd Hrem.
    rewrite (add_question_run user_id w p k l s Hp Ha Hl Hs q) in Hadd.
    assert (Hp1 : profiles w1 = profiles w)
      by (destruct (faults w) as [|[] ?]; by injection Hadd as <- <-).
    assert (Hh1 : heap w1 = appended w k l q)
      by (destruct (faults w) as [|[] ?]; by injection Hadd as <- <-).
    assert (Hd1 : deref (heap w1) l =
                  set_question_bank (qs ++ [q])%list (set_key k s))
      by (by rewrite Hh1, (deref_appended w k l s Hs)).
    assert (Hb1 : bank_at w1 l = (qs ++ [q])%list)
      by (unfold bank_at; by rewrite Hd1).
    split; [done|].
    assert (Hs1 : heap w1 !! l =
                  Some (set_question_bank (qs ++ [q])%list (set_key k s))).
    { rewrite Hh1. unfold appended, keyed; simpl.
      by rewrite !list_lookup_alter_eq, Hs. }
    rewrite <- Hp1 in Hp.
    rewrite (remove_question_in_range user_id w1 p k l _ Hp Ha Hl Hs1 1)
      in Hrem by (simpl; rewrite length_app; simpl; lia).
    assert (Hh2 : heap w2 = popped w1 k l
                    (set_question_bank (qs ++ [q])%list (set_key k s)) (1 - 1))
      by (destruct (faults w1) as [|[] ?]; by injection Hrem as <- <-).
    rewrite Hb1. unfold bank_at.
    rewrite Hh2, (deref_popped w1 k l _ Hs1). simpl.
    by destruct qs.
Qed.

Lemma remove_question_one_based_witness :
  let w := snd ((create_subject 7 "Bio" default_game ;;
                 add_question 7 "What is a cell?" ;;
                 add_question 7 "What is DNA?") empty_world) in
  fst (remove_question 7 3 w) = Ret (QuestionNotFound 3) /\
  fst (remove_question 7 0 w) = Ret (QuestionNotFound 0) /\
  bank_at (snd (remove_question 7 2 w)) 0 = ["What is a cell?"].
Proof.
  intros w.
  destruct (remove_question_one_based 7 w
              (mkProfile [("bio", 0)] (Some "bio")) "bio" 0
              (mkSubject (Some "Bio") (Some default_game) (Some true)
                         (Some ["What is a cell?"; "What is DNA?"])
                         (Some "bio"))
              eq_refl eq_refl eq_refl eq_refl) as (Hout & Hin & _).
  split; [|split].
  - destruct (Hout 3%Z) as (w' & -> & _); [right; simpl; lia|done].
  - destruct (Hout 0%Z) as (w' & -> & _); [left; lia|done].
  - destruct (Hin 2%Z _ _ ltac:(simpl; lia) (surjective_pairing _)) as (-> & _).
    reflexivity.
Defined.

(** ** No active subject (C8) *)

Lemma get_active_subject_none_inv user_id w w' :
  get_active_subject user_id w = (Ret None, w') ->
  get_user_profile user_id w = (Ret (profile_of w user_id), w') /\
  active_subject (profile_of w user_id) = None /\
  fsys w' = fsys w /\ heap w' = heap w.
Proof.
  unfold get_active_subject. unfold bind at 1.
  destruct (get_user_profile user_id w) as [[p|e] w0] eqn:Hg; [|done].
  destruct (get_user_profile_inv _ _ _ _ Hg) as (Hh & Hf & _ & Hp).
  destruct (Hp p eq_refl) as [-> _].
  destruct (active_subject (profile_of w user_id)) as [k|] eqn:Ha.
  - destruct (Dict.get k _); [|done].
    unfold bind, update_subject, bind, get_world, set_heap. simpl. done.
  - by intros [= <-].
Qed.

(** C8, as stated, fails: for a user with no active subject the three
    methods return normally, with [False], the empty list and the empty
    mapping, and the listing is the same value as for a user whose active
    subject has no file. *)
Lemma no_active_subject_is_silent :
  active_subject (profile_of empty_world 7) = None /\
  fst (list_files 7 "lecture" empty_world) = Ret [] /\
  ~ signals_error (fst (list_files 7 "lecture" empty_world)) /\
  fst (list_files 7 "lecture" one_subject) = Ret [] /\
  fst (get_all_lectures_with_names sample_reader 7 empty_world) = Ret [] /\
  ~ signals_error (fst (get_all_lectures_with_names sample_reader 7
                                                    empty_world)) /\
  fst (save_attachment (mkAttachment "notes.pdf" (Some [])) 7 "lecture"
                       empty_world) = Ret false /\
  ~ signals_error (fst (save_attachment (mkAttachment "notes.pdf" (Some []))
                                        7 "lecture" empty_world)).
Proof. vm_compute. repeat split; auto. Qed.

(** C8, amended: for a user with no active subject the methods of
    [DocumentManager] do what the look-up of the profile does and answer
    without an error of their own.  Where [get_user_profile] returns,
    [list_files] returns the empty list, [get_all_lectures_with_names] and
    [get_all_practice_tests_with_names] return the empty mapping and
    [save_attachment] returns [False]; where it raises, they raise its
    exception (a name that does not end in [.pdf] is refused by
    [save_attachment] before the look-up).  The look-up leaves the folders
    and the subjects alone; for a user who has a profile it returns and
    changes nothing; for a new user it adds the empty profile and writes the
    profile file, and it raises [OSError] exactly when that write fails. *)
Theorem no_active_subject_degenerate
    pdf_reader user_id folder_type attachment w r0 w0 :
  active_subject (profile_of w user_id) = None ->
  get_user_profile user_id w = (r0, w0) ->
  list_files user_id folder_type w = (answer_after r0 [], w0) /\
  get_all_lectures_with_names pdf_reader user_id w
    = (answer_after r0 Dict.empty, w0) /\
  get_all_practice_tests_with_names pdf_reader user_id w
    = (answer_after r0 Dict.empty, w0) /\
  save_attachment attachment user_id folder_type w
    = (if PyStr.endswith (filename attachment) ".pdf"
       then (answer_after r0 false, w0) else (Ret false, w)) /\
  fsys w0 = fsys w /\ heap w0 = heap w /\
  (forall p, Dict.get (PyStr.str user_id) (profiles w) = Some p ->
             r0 = Ret p /\ w0 = w) /\
  (Dict.get (PyStr.str user_id) (profiles w) = None ->
   profiles w0 = Dict.set (PyStr.str user_id) empty_profile (profiles w) /\
   ((head (faults w) <> Some true /\ r0 = Ret empty_profile /\
     profiles_json w0 = to_json (heap w0) (profiles w0)) \/
    (head (faults w) = Some true /\ r0 = Raise OSError /\
     profiles_json w0 = after_failed_write w))).
Proof.
  intros Hnone Hrun.
  assert (Hact : get_active_subject user_id w = (answer_after r0 None, w0)).
  { unfold get_active_subject, bind. rewrite Hrun.
    destruct r0 as [p|e]; [|done].
    destruct (get_user_profile_inv _ _ _ _ Hrun) as (_ & _ & _ & Hp).
    destruct (Hp p eq_refl) as (-> & _). by rewrite Hnone. }
  assert (Hbind : forall B (b : B) (k : option loc -> M B),
            k None = ret b ->
            bind (get_active_subject user_id) k w = (answer_after r0 b, w0)).
  { intros B b k Hk. unfold bind. rewrite Hact.
    destruct r0; simpl; [by rewrite Hk|done]. }
  split; [by apply Hbind|]. split; [by apply Hbind|].
  split; [by apply Hbind|]. split.
  { unfold save_attachment. destruct (PyStr.endswith _ _); simpl; [|done].
    by apply Hbind. }
  destruct (get_user_profile_inv _ _ _ _ Hrun) as (Hheap & Hfs & Hps & _).
  split; [done|]. split; [done|]. split.
  - intros p Hp. rewrite (get_user_profile_known _ _ _ Hp) in Hrun.
    by injection Hrun as <- <-.
  - intros Hnew. rewrite Hnew in Hps. split; [done|].
    revert Hrun. unfold get_user_profile, bind at 1, get_world.
    rewrite Hnew. unfold bind at 1, set_profiles. unfold bind.
    match goal with |- context [_save_profiles ?x] =>
      destruct (_save_profiles x) as [[[]|e] wc] eqn:Hc end;
      apply save_profiles_inv in Hc as (Hpc & Hhc & _ & _ & Hres);
      simpl in *; intros [= <- <-].
    + destruct Hres as [Hf Hj]. left. split; [done|]. split; [done|].
      by rewrite Hj, Hhc, Hpc.
    + destruct Hres as (-> & Hf & Hj). right. split; [done|]. split; [done|].
      by rewrite Hj.
Qed.

Lemma no_active_subject_degenerate_witness :
  list_files 7 "lecture" before_failing_write
    = (Ret [], before_failing_write) /\
  (exists w0,
     list_files 7 "lecture" (with_faults [true] empty_world)
       = (Raise OSError, w0) /\
     profiles w0 = [("7", empty_profile)]) /\
  (exists w0,
     save_attachment (mkAttachment "notes.pdf" (Some [])) 7 "lecture"
                     empty_world = (Ret false, w0) /\
     profiles_json w0 = Json [("7", mkProfileJson [] None)] /\
     fsys w0 = fsys empty_world).
Proof.
  split; [|split].
  - destruct (no_active_subject_degenerate sample_reader 7 "lecture"
                (mkAttachment "notes.pdf" (Some [])) before_failing_write
                _ _ eq_refl (surjective_pairing _))
      as (H & _ & _ & _ & _ & _ & Hknown & _).
    destruct (Hknown empty_profile eq_refl) as (Hr & Hw).
    rewrite H, Hr, Hw. reflexivity.
  - destruct (no_active_subject_degenerate sample_reader 7 "lecture"
                (mkAttachment "notes.pdf" (Some []))
                (with_faults [true] empty_world)
                _ _ eq_refl (surjective_pairing _))
      as (H & _ & _ & _ & _ & _ & _ & Hnew).
    destruct (Hnew eq_refl) as (Hps & [(Hf & _)|(_ & Hr & _)]);
      [by destruct Hf|].
    eexists. split; [rewrite H, Hr; reflexivity|exact Hps].
  - destruct (no_active_subject_degenerate sample_reader 7 "lecture"
                (mkAttachment "notes.pdf" (Some [])) empty_world
                _ _ eq_refl (surjective_pairing _))
      as (_ & _ & _ & H & Hfs & _ & _ & Hnew).
    destruct (Hnew eq_refl) as (Hps & [(_ & Hr & Hj)|(Hf & _)]);
      [|discriminate Hf].
    eexists. split; [rewrite H, Hr; reflexivity|].
    split; [rewrite Hj; vm_compute; reflexivity|exact Hfs].
Defined.

(** ** A flush that fails (C9) *)

Lemma flushes_last_map {A B} (f : A -> B) (m : M A) w :
  flushes_last m w -> flushes_last (let* a := m in ret (f a)) w.
Proof.
  intros [(r & w' & Hj & H)|(a & w2 & Hj & H)].
  - left. exists (match r with Ret a => Ret (f a) | Raise e => Raise e end), w'.
    split; [done|].
    intros fl. unfold bind. rewrite H. by destruct r.
  - right. exists (f a), w2. split; [done|].
    intros fl. unfold bind at 1. rewrite H.
    rewrite !save_then_ret. simpl. by destruct fl as [|[] ?].
Qed.

Lemma create_subject_run user_id subject_name game w p :
  Dict.get (PyStr.str user_id) (profiles w) = Some p ->
  Dict.mem (subject_key_of subject_name) (subjects p) = false ->
  let subject_key := subject_key_of subject_name in
  let subject_path := base_path // PyStr.str user_id // subject_key in
  create_subject user_id subject_name game w =
  match FS.mkdir_p (subject_path // "lectures") (fsys w) with
  | None => (Raise OSError, w)
  | Some fs1 =>
      match FS.mkdir_p (subject_path // "practice_tests") fs1 with
      | None => (Raise OSError, with_fsys fs1 w)
      | Some fs2 =>
          (_save_profiles ;; ret true)
            (mkWorld (Dict.alter (insert_subject subject_key (length (heap w)))
                                 (PyStr.str user_id) (profiles w))
                     (heap w ++ [new_subject subject_name game])
                     (profiles_json w) fs2 (faults w))
      end
  end.
Proof.
  intros Hp Hk. simpl. unfold create_subject.
  rewrite (bind_run _ _ _ _ _ (get_user_profile_known _ _ _ Hp)), Hk.
  unfold fs_call at 1. unfold bind at 1. unfold bind at 1, get_world at 1.
  destruct (FS.mkdir_p _ (fsys w)) as [fs1|]; [|done].
  unfold set_fsys at 1. fold (with_fsys fs1 w).
  unfold fs_call at 1. unfold bind at 1. unfold bind at 1, get_world at 1.
  change (fsys (with_fsys fs1 w)) with fs1.
  destruct (FS.mkdir_p _ fs1) as [fs2|]; [|reflexivity].
  unfold set_fsys at 1. simpl.
  unfold alloc, update_profile. unfold bind at 1. unfold bind at 1.
  unfold get_world at 1, set_heap at 1, ret at 1. simpl.
  unfold bind at 1. unfold bind at 1, get_world at 1, set_profiles at 1.
  unfold bind at 1. unfold bind at 1, get_world at 1, set_profiles at 1.
  simpl. rewrite alter_alter.
  rewrite (alter_ext _ (insert_subject (subject_key_of subject_name)
                                       (length (heap w))))
    by (intros v; unfold insert_subject, set_active, set_subjects; simpl;
        by destruct (active_subject v)).
  done.
Qed.

Lemma set_active_subject_run user_id subject_name w p :
  Dict.get (PyStr.str user_id) (profiles w) = Some p ->
  set_active_subject user_id subject_name w =
  if Dict.mem (subject_key_of subject_name) (subjects p)
  then (_save_profiles ;; ret true)
         (with_profiles
            (Dict.alter (set_active (Some (subject_key_of subject_name)))
                        (PyStr.str user_id) (profiles w)) w)
  else (Ret false, w).
Proof.
  intros Hp. unfold set_active_subject.
  rewrite (bind_run _ _ _ _ _ (get_user_profile_known _ _ _ Hp)).
  by destruct (Dict.mem _ _).
Qed.

Lemma set_subject_game_run user_id subject_key game w p :
  Dict.get (PyStr.str user_id) (profiles w) = Some p ->
  set_subject_game user_id subject_key game w =
  match Dict.get subject_key (subjects p) with
  | Some l => _save_profiles (with_heap (alter (set_game game) l (heap w)) w)
  | None => (Ret tt, w)
  end.
Proof.
  intros Hp. unfold set_subject_game.
  rewrite (bind_run _ _ _ _ _ (get_user_profile_known _ _ _ Hp)).
  destruct (Dict.get subject_key (subjects p)); reflexivity.
Qed.

Lemma delete_subject_eq user_id subject_name w p :
  Dict.get (PyStr.str user_id) (profiles w) = Some p ->
  Dict.mem (subject_key_of subject_name) (subjects p) = true ->
  let subject_key := subject_key_of subject_name in
  let subject_path := get_subject_path user_id subject_key in
  let ps := Dict.alter (delete_from_profile subject_key) (PyStr.str user_id)
                       (profiles w) in
  delete_subject user_id subject_name w =
  if FS.exists_ subject_path (fsys w)
  then match FS.rmtree subject_path (fsys w) with
       | None => (Raise OSError, w)
       | Some fs =>
           (_save_profiles ;; ret true)
             (mkWorld ps (heap w) (profiles_json w) fs (faults w))
       end
  else (_save_profiles ;; ret true) (with_profiles ps w).
Proof.
  intros Hp Hk. simpl. unfold delete_subject.
  rewrite (bind_run _ _ _ _ _ (get_user_profile_known _ _ _ Hp)), Hk.
  assert (Hstep : forall w0,
    (let* _ := update_profile user_id
        (fun p0 => set_subjects (Dict.del (subject_key_of subject_name)
                                          (subjects p0)) p0) in
     let* _ := update_profile user_id
        (fun p0 => if bool_decide (active_subject p0 =
                                   Some (subject_key_of subject_name))
                   then set_active (Dict.first_key (subjects p0)) p0
                   else p0) in
     let* _ := _save_profiles in ret true) w0 =
    (_save_profiles ;; ret true)
      (with_profiles
         (Dict.alter (delete_from_profile (subject_key_of subject_name))
                     (PyStr.str user_id) (profiles w0)) w0)).
  { intros w0. unfold update_profile.
    unfold bind at 1. unfold bind at 1, get_world at 1, set_profiles at 1.
    unfold bind at 1. unfold bind at 1, get_world at 1, set_profiles at 1.
    simpl. rewrite alter_alter.
    rewrite (alter_ext _ (delete_from_profile (subject_key_of subject_name)))
      by (intros v; unfold delete_from_profile, set_active, set_subjects;
          simpl; by case_bool_decide).
    done. }
  cbv beta iota delta [negb].
  unfold bind at 1. unfold bind at 1, get_world at 1.
  destruct (FS.exists_ _ (fsys w)).
  - unfold fs_call, bind at 1, get_world at 1.
    destruct (FS.rmtree _ (fsys w)) as [fs|]; [|reflexivity].
    unfold set_fsys. by rewrite Hstep.
  - unfold ret at 1. by rewrite Hstep.
Qed.

Lemma table_ok_alter u f ps p :
  Dict.get u ps = Some p ->
  (profile_ok p -> profile_ok (f p)) ->
  table_ok ps -> table_ok (Dict.alter f u ps).
Proof.
  intros Hp Hf Hok u' p' Hget. destruct (decide (u = u')) as [<-|Hne].
  - rewrite get_alter_eq, Hp in Hget. injection Hget as <-.
    apply Hf. by apply (Hok u).
  - rewrite get_alter_ne in Hget by done. by apply (Hok u').
Qed.

Lemma table_ok_set_empty u ps :
  table_ok ps -> table_ok (Dict.set u empty_profile ps).
Proof.
  intros Hok u' p' Hget. destruct (decide (u = u')) as [<-|Hne].
  - rewrite get_set_eq in Hget. by injection Hget as <-.
  - rewrite get_set_ne in Hget by done. by apply (Hok u').
Qed.

Lemma mem_set {V} k a (v : V) d :
  Dict.mem a d = true \/ a = k -> Dict.mem a (Dict.set k v d) = true.
Proof.
  intros H. unfold Dict.mem. destruct (decide (k = a)) as [->|Hne].
  - by rewrite get_set_eq.
  - rewrite get_set_ne by done. destruct H as [H|H]; [done|congruence].
Qed.

Lemma insert_subject_ok k l p :
  profile_ok p -> profile_ok (insert_subject k l p).
Proof.
  intros Hok a. unfold insert_subject. simpl.
  destruct (active_subject p) as [a'|] eqn:Ha; intros [= <-];
    apply mem_set; auto.
Qed.

Lemma set_active_ok k p :
  Dict.mem k (subjects p) = true -> profile_ok (set_active (Some k) p).
Proof. intros Hk a. simpl. by intros [= <-]. Qed.

Lemma delete_from_profile_ok k p :
  profile_ok p -> profile_ok (delete_from_profile k p).
Proof.
  intros Hok a. unfold delete_from_profile. simpl.
  case_bool_decide as E.
  - apply first_key_mem.
  - intros Ha. specialize (Hok a Ha). unfold Dict.mem in *.
    rewrite get_del_ne; [done|]. intros ->. by apply E.
Qed.

Ltac same_table := split; [reflexivity|exact (fun H => H)].

Lemma flushes_last_mutation m w p :
  Dict.get (PyStr.str (user_of m)) (profiles w) = Some p ->
  flushes_last (run_mutation m) w.
Proof.
  intros Hp. destruct m as [u n g|u n|u k g|u k q|u k i|u n]; simpl in Hp.
  - apply (flushes_last_map Some).
    destruct (Dict.mem (subject_key_of n) (subjects p)) eqn:Hk.
    + left. exists (Ret false), w. split; [same_table|]. intros fl.
      by apply (create_subject_existing _ _ _ (with_faults fl w) p).
    + pose proof (fun fl => create_subject_run u n g (with_faults fl w) p Hp Hk)
        as Hrun. cbv zeta in Hrun.
      cbn [with_faults profiles heap fsys profiles_json faults] in Hrun.
      destruct (FS.mkdir_p _ (fsys w)) as [fs1|].
      * destruct (FS.mkdir_p _ fs1) as [fs2|].
        -- right.
           exists true,
             (mkWorld (Dict.alter (insert_subject (subject_key_of n)
                                                  (length (heap w)))
                                  (PyStr.str u) (profiles w))
                      (heap w ++ [new_subject n g])
                      (profiles_json w) fs2 (faults w)).
           split.
           { split; [reflexivity|]. intros Hok.
             apply (table_ok_alter _ _ _ p Hp); [|exact Hok].
             apply insert_subject_ok. }
           intros fl. rewrite Hrun. reflexivity.
        -- left. exists (Raise OSError), (with_fsys fs1 w).
           split; [same_table|]. intros fl. by rewrite Hrun.
      * left. exists (Raise OSError), w. split; [same_table|]. intros fl.
        by rewrite Hrun.
  - apply (flushes_last_map Some).
    pose proof (fun fl => set_active_subject_run u n (with_faults fl w) p Hp)
      as Hrun.
    cbn [with_faults profiles heap fsys profiles_json faults] in Hrun.
    destruct (Dict.mem (subject_key_of n) (subjects p)) eqn:Hk.
    + right.
      exists true,
        (with_profiles (Dict.alter (set_active (Some (subject_key_of n)))
                                   (PyStr.str u) (profiles w)) w).
      split.
      { split; [reflexivity|]. intros Hok.
        apply (table_ok_alter _ _ _ p Hp); [|exact Hok].
        intros _. by apply set_active_ok. }
      intros fl. rewrite Hrun. reflexivity.
    + left. exists (Ret false), w. split; [same_table|]. intros fl.
      by rewrite Hrun.
  - pose proof (fun fl => set_subject_game_run u k g (with_faults fl w) p Hp)
      as Hrun.
    cbn [with_faults profiles heap fsys profiles_json faults] in Hrun.
    cbn [run_mutation].
    destruct (Dict.get k (subjects p)) as [l|].
    + right. exists None, (with_heap (alter (set_game g) l (heap w)) w).
      split; [same_table|].
      intros fl. unfold bind at 1. rewrite Hrun. reflexivity.
    + left. exists (Ret None), w. split; [same_table|]. intros fl.
      unfold bind. by rewrite Hrun.
  - apply (flushes_last_map Some).
    destruct (Dict.get k (subjects p)) as [l|] eqn:Hl.
    + right. exists true, (with_heap (alter (append_question q) l (heap w)) w).
      split; [same_table|]. intros fl.
      rewrite (add_question_to_bank_run u k q (with_faults fl w) p l Hp Hl).
      reflexivity.
    + left. exists (Ret false), w. split; [same_table|]. intros fl.
      unfold add_question_to_bank.
      rewrite (bind_run _ _ _ _ _
                 (get_user_profile_known _ (with_faults fl w) _ Hp)).
      by rewrite Hl.
  - apply (flushes_last_map Some).
    destruct (Dict.get k (subjects p)) as [l|] eqn:Hl.
    + pose proof (fun fl =>
        remove_question_from_bank_run u k i (with_faults fl w) p l Hp Hl)
        as Hrun.
      destruct ((0 <=? i)%Z && (i <? Z.of_nat (length (bank_at w l)))%Z) eqn:E.
      * right.
        exists true,
          (with_heap (alter (set_question_bank (pop i (bank_at w l))) l
                            (heap w)) w).
        split; [same_table|]. intros fl. rewrite Hrun.
        change (bank_at (with_faults fl w) l) with (bank_at w l).
        rewrite E. reflexivity.
      * left. exists (Ret false), w. split; [same_table|]. intros fl.
        rewrite Hrun.
        change (bank_at (with_faults fl w) l) with (bank_at w l).
        by rewrite E.
    + left. exists (Ret false), w. split; [same_table|]. intros fl.
      unfold remove_question_from_bank.
      rewrite (bind_run _ _ _ _ _
                 (get_user_profile_known _ (with_faults fl w) _ Hp)).
      by rewrite Hl.
  - apply (flushes_last_map Some).
    destruct (Dict.mem (subject_key_of n) (subjects p)) eqn:Hk.
    + pose proof (fun fl => delete_subject_eq u n (with_faults fl w) p Hp Hk)
        as Hrun. cbv zeta in Hrun.
      cbn [with_faults profiles heap fsys profiles_json faults] in Hrun.
      assert (Hok : table_ok (profiles w) ->
                    table_ok (Dict.alter (delete_from_profile (subject_key_of n))
                                         (PyStr.str u) (profiles w))).
      { intros Hok. apply (table_ok_alter _ _ _ p Hp); [|exact Hok].
        apply delete_from_profile_ok. }
      destruct (FS.exists_ _ (fsys w)).
      * destruct (FS.rmtree _ (fsys w)) as [fs|].
        -- right.
           exists true,
             (mkWorld (Dict.alter (delete_from_profile (subject_key_of n))
                                  (PyStr.str u) (profiles w))
                      (heap w) (profiles_json w) fs (faults w)).
           split; [split; [reflexivity|exact Hok]|].
           intros fl. rewrite Hrun. reflexivity.
        -- left. exists (Raise OSError), w. split; [same_table|]. intros fl.
           by rewrite Hrun.
      * right.
        exists true,
          (with_profiles (Dict.alter (delete_from_profile (subject_key_of n))
                                     (PyStr.str u) (profiles w)) w).
        split; [split; [reflexivity|exact Hok]|].
        intros fl. rewrite Hrun. reflexivity.
    + left. exists (Ret false), w. split; [same_table|]. intros fl.
      unfold delete_subject.
      rewrite (bind_run _ _ _ _ _
                 (get_user_profile_known _ (with_faults fl w) _ Hp)).
      by rewrite Hk.
Qed.

(** C9, as stated, fails: [create_subject] meets a write that fails (here
    in [open], so that the file is as it was), the [OSError] leaves the
    method, and the table in memory holds the new subject, made active,
    while the profile file still has none. *)
Lemma failed_flush_is_not_rolled_back :
  let w := before_failing_write in
  let w' := snd (create_subject 7 "Bio" default_game w) in
  fst (create_subject 7 "Bio" default_game w) = Raise OSError /\
  profile_of w 7 = mkProfile [] None /\
  profile_of w' 7 = mkProfile [("bio", 0)] (Some "bio") /\
  profiles w' <> profiles w /\ heap w' <> heap w /\
  profiles_json w' = profiles_json w /\
  to_json (heap w') (profiles w') <> profiles_json w'.
Proof. vm_compute. repeat split; discriminate. Qed.

(** C9, amended: for every mutating method of [UserProfileManager] called
    for a user whose profile exists, a write of the profile file that fails
    makes the method raise [OSError], and the table in memory, the subject
    dictionaries and the folders are then exactly those that the same call
    leaves when the write succeeds: the mutation is kept, nothing is rolled
    back.  The profile file is then as it was if the write failed in
    [open], and unreadable if it failed after [open] had emptied the file.
    A call that does not reach the write behaves the same whatever the
    write would have done. *)
Theorem failed_flush_keeps_mutation m w p fl :
  Dict.get (PyStr.str (user_of m)) (profiles w) = Some p ->
  let ok := run_mutation m (with_faults [] w) in
  let ko := run_mutation m (with_faults (true :: fl) w) in
  profiles (snd ko) = profiles (snd ok) /\
  heap (snd ko) = heap (snd ok) /\
  fsys (snd ko) = fsys (snd ok) /\
  ((fst ko = Raise OSError /\ (exists a, fst ok = Ret a) /\
    profiles_json (snd ko)
      = (if hd false fl then Garbled else profiles_json w) /\
    profiles_json (snd ok) = to_json (heap (snd ok)) (profiles (snd ok)) /\
    faults (snd ko) = tl fl) \/
   (fst ko = fst ok /\
    profiles_json (snd ko) = profiles_json (snd ok) /\
    faults (snd ko) = true :: fl)).
Proof.
  intros Hp ok ko. unfold ok, ko.
  destruct (flushes_last_mutation m w p Hp)
    as [(r & w' & [Hj _] & H)|(a & w2 & [Hj _] & H)].
  - rewrite (H []), (H (true :: fl)). simpl.
    split; [done|]. split; [done|]. split; [done|]. right. done.
  - rewrite (H []), (H (true :: fl)), !save_then_ret.
    unfold after_failed_write. simpl.
    split; [done|]. split; [done|]. split; [done|]. left.
    split; [done|]. split; [by exists a|]. by rewrite Hj.
Qed.

Lemma failed_flush_keeps_mutation_witness :
  let w := snd (get_user_profile 7 empty_world) in
  let ok := run_mutation (CreateSubject 7 "Bio" default_game)
                         (with_faults [] w) in
  let ko := run_mutation (CreateSubject 7 "Bio" default_game)
                         (with_faults [true; true] w) in
  profiles (snd ko) = profiles (snd ok) /\ heap (snd ko) = heap (snd ok) /\
  fst ko = Raise OSError /\ fst ok = Ret (Some true) /\
  profiles_json (snd ko) = Garbled.
Proof.
  intros w ok ko.
  destruct (failed_flush_keeps_mutation (CreateSubject 7 "Bio" default_game)
              w (mkProfile [] None) [true] eq_refl) as (H1 & H2 & _ & H3).
  split; [exact H1|]. split; [exact H2|].
  destruct H3 as [(Hko & _ & Hfile & _)|(Heq & _ & Hf)].
  - split; [exact Hko|]. split; [reflexivity|exact Hfile].
  - discriminate Hf.
Defined.

(** ** Uploads (C6) *)

Lemma split_no_sep sep s :
  PyStr.contains sep s = false -> PyStr.split sep s = [s].
Proof.
  induction s as [|c r IH]; simpl; [done|].
  rewrite Ascii.eqb_sym. destruct (Ascii.eqb c sep); simpl; [done|].
  intros H. by rewrite (IH H).
Qed.

Lemma contains_first c s :
  PyStr.contains c s = false -> PyStr.contains c (substring 0 1 s) = false.
Proof.
  destruct s as [|c' r]; simpl; [done|].
  destruct (Ascii.eqb c c'); simpl; [done|]. intros _. by destruct r.
Qed.

Lemma endswith_length s suffix :
  PyStr.endswith s suffix = true -> String.length suffix <= String.length s.
Proof.
  unfold PyStr.endswith. intros H. apply andb_true_iff in H as [H _].
  by apply Nat.leb_le in H.
Qed.

Lemma join_file_name (p : Path) (f : string) :
  PyStr.contains "/" f = false ->
  PyStr.endswith f ".pdf" = true ->
  p // f = mkPath (absolute p) (parts p ++ [f]).
Proof.
  intros Hslash Hpdf. apply endswith_length in Hpdf. simpl in Hpdf.
  unfold PyPath.join, PyPath.of_string. simpl.
  rewrite (contains_first _ _ Hslash).
  unfold PyPath.components. rewrite (split_no_sep _ _ Hslash). simpl.
  destruct f as [|c1 [|c2 r]]; simpl in Hpdf; try lia.
  replace (String.eqb (String c1 (String c2 r)) "") with false by done.
  replace (String.eqb (String c1 (String c2 r)) ".") with false; [done|].
  simpl. destruct (Ascii.eqb c1 "."); [|done]. by destruct c2, r.
Qed.

Lemma parent_join_file (p : Path) f :
  PyPath.parent (mkPath (absolute p) (parts p ++ [f])) = p.
Proof.
  unfold PyPath.parent. simpl. rewrite removelast_last. by destruct p.
Qed.

Lemma name_join_file (p : Path) f :
  PyPath.name (mkPath (absolute p) (parts p ++ [f])) = f.
Proof. unfold PyPath.name. simpl. apply last_last. Qed.

Lemma find_put_eq p data l :
  List.find (fun e : Path * bytes => bool_decide (fst e = p)) (FS.put p data l)
  = Some (p, data).
Proof.
  induction l as [|[q old] r IH]; simpl.
  - by rewrite bool_decide_eq_true_2.
  - case_bool_decide as E; simpl.
    + by rewrite bool_decide_eq_true_2.
    + by rewrite bool_decide_eq_false_2.
Qed.

Lemma find_put_ne p q data l :
  q <> p ->
  List.find (fun e : Path * bytes => bool_decide (fst e = q)) (FS.put p data l)
  = List.find (fun e : Path * bytes => bool_decide (fst e = q)) l.
Proof.
  intros Hne. induction l as [|[q' old] r IH]; simpl.
  - by rewrite bool_decide_eq_false_2 by congruence.
  - case_bool_decide as E; simpl.
    + subst q'. by rewrite !bool_decide_eq_false_2 by congruence.
    + by rewrite IH.
Qed.

Lemma put_In p data l : In p (List.map fst (FS.put p data l)).
Proof.
  induction l as [|[q old] r IH]; simpl; [by left|].
  case_bool_decide; simpl; [by left|by right].
Qed.

Lemma write_file_inv p data fs fs' :
  FS.write_file p data fs = Some fs' ->
  FS.is_dir (PyPath.parent p) fs = true /\ parts p <> [] /\
  dirs fs' = dirs fs /\
  FS.read_file p fs' = Some data /\
  (forall q, q <> p -> FS.read_file q fs' = FS.read_file q fs) /\
  In p (FS.children (PyPath.parent p) fs').
Proof.
  unfold FS.write_file.
  destruct (FS.is_dir (PyPath.parent p) fs) eqn:Hd; [|done].
  destruct (FS.is_dir p fs); [done|].
  case_bool_decide as Hn; [done|]. simpl. intros [= <-].
  split; [done|]. split; [done|]. split; [done|].
  unfold FS.read_file. simpl. split; [by rewrite find_put_eq|]. split.
  - intros q Hq. by rewrite find_put_ne.
  - unfold FS.children. simpl. apply filter_In. split.
    + apply in_or_app. left. apply put_In.
    + rewrite bool_decide_eq_true_2 by done.
      by rewrite bool_decide_eq_false_2.
Qed.

Lemma is_dir_same_dirs p fs fs' :
  dirs fs' = dirs fs -> FS.is_dir p fs' = FS.is_dir p fs.
Proof. intros H. unfold FS.is_dir. by rewrite H. Qed.

Lemma save_attachment_run attachment user_id folder_type w p k l s :
  Dict.get (PyStr.str user_id) (profiles w) = Some p ->
  active_subject p = Some k ->
  Dict.get k (subjects p) = Some l ->
  heap w !! l = Some s ->
  PyStr.endswith (filename attachment) ".pdf" = true ->
  let file_path :=
    collection_path user_id k folder_type // filename attachment in
  save_attachment attachment user_id folder_type w =
  match payload attachment with
  | None => (Ret false, keyed w k l)
  | Some data =>
      match FS.write_file file_path data (fsys w) with
      | Some fs => (Ret true, with_fsys fs (keyed w k l))
      | None => (Ret false, keyed w k l)
      end
  end.
Proof.
  intros Hp Ha Hl Hs Hpdf. simpl. unfold save_attachment. rewrite Hpdf. simpl.
  rewrite (bind_run _ _ _ _ _ (active_subject_step _ _ p _ _ Hp Ha Hl)).
  rewrite (bind_run _ _ _ k (keyed w k l))
    by (apply subject_key_at_known; by rewrite (deref_keyed _ _ _ s Hs)).
  unfold try_except, attachment_save, collection_path.
  destruct (payload attachment) as [data|]; [|done].
  unfold bind at 1. unfold fs_call, bind at 1, get_world at 1.
  change (fsys (keyed w k l)) with (fsys w).
  by destruct (FS.write_file _ data (fsys w)).
Qed.

Lemma list_files_run user_id folder_type w p k l s :
  Dict.get (PyStr.str user_id) (profiles w) = Some p ->
  active_subject p = Some k ->
  Dict.get k (subjects p) = Some l ->
  heap w !! l = Some s ->
  list_files user_id folder_type w =
  (Ret (List.map PyPath.stem
          (FS.glob_pdf (collection_path user_id k folder_type) (fsys w))),
   keyed w k l).
Proof.
  intros Hp Ha Hl Hs. unfold list_files.
  rewrite (bind_run _ _ _ _ _ (active_subject_step _ _ p _ _ Hp Ha Hl)).
  rewrite (bind_run _ _ _ k (keyed w k l))
    by (apply subject_key_at_known; by rewrite (deref_keyed _ _ _ s Hs)).
  done.
Qed.

Lemma filter_put f p data l :
  f p = false ->
  List.filter f (List.map fst (FS.put p data l))
  = List.filter f (List.map fst l).
Proof.
  intros Hf. induction l as [|[q old] r IH]; simpl; [by rewrite Hf|].
  case_bool_decide as Hq; simpl; [by rewrite Hq|by rewrite IH].
Qed.

Lemma glob_pdf_other_folder p data fs fs' g :
  FS.write_file p data fs = Some fs' ->
  PyPath.parent p <> g ->
  FS.glob_pdf g fs' = FS.glob_pdf g fs.
Proof.
  intros Hwrite Hne.
  destruct (write_file_inv _ _ _ _ Hwrite) as (_ & _ & Hdirs & _).
  unfold FS.glob_pdf. rewrite (is_dir_same_dirs _ _ _ Hdirs).
  destruct (FS.is_dir g fs); [|done]. f_equal.
  unfold FS.children. rewrite !filter_app, Hdirs. f_equal.
  revert Hwrite. unfold FS.write_file.
  destruct (_ && _ && _); [|done]. intros [= <-]. simpl.
  apply filter_put. by rewrite bool_decide_eq_false_2.
Qed.

Lemma category_folders_differ (p : Path) :
  p // "lectures" <> p // "practice_tests".
Proof.
  change (mkPath (absolute p) (parts p ++ ["lectures"])
          <> mkPath (absolute p) (parts p ++ ["practice_tests"])).
  intros [= H]. by apply app_inv_head in H.
Qed.



(** ** Extraction of the text of a collection (C7) *)

Section ExtractionFacts.

Variable pdf_reader : bytes -> option (list (option string)).

Lemma extract_text_from_pdf_run q w :
  extract_text_from_pdf pdf_reader q w =
  (Ret (extracted_text pdf_reader (fsys w) q), w).
Proof.
  unfold extract_text_from_pdf, extracted_text, bind, get_world.
  destruct (FS.read_file q (fsys w)) as [data|]; [|done].
  by destruct (pdf_reader data).
Qed.

Lemma collect_run found acc w :
  collect pdf_reader found acc w =
  (Ret (fold_left (add_document pdf_reader (fsys w)) found acc), w).
Proof.
  revert acc. induction found as [|q rest IH]; intros acc; simpl; [done|].
  rewrite (bind_run _ _ _ _ _ (extract_text_from_pdf_run q w)).
  by rewrite IH.
Qed.

Lemma fold_add_keeps fs found acc n v :
  Dict.get n acc = Some v ->
  (forall q, In q found -> PyPath.stem q = n ->
             annotate n (extracted_text pdf_reader fs q) = v) ->
  Dict.get n (fold_left (add_document pdf_reader fs) found acc) = Some v.
Proof.
  revert acc. induction found as [|q rest IH]; intros acc Hacc Hall; simpl;
    [done|].
  apply IH.
  - unfold add_document. destruct (decide (PyPath.stem q = n)) as [E|E].
    + rewrite E, get_set_eq. f_equal. apply Hall; [by left|done].
    + by rewrite get_set_ne.
  - intros q' Hq'. apply Hall. by right.
Qed.

Lemma fold_add_lookup fs found acc q :
  In q found ->
  (forall q', In q' found -> PyPath.stem q' = PyPath.stem q -> q' = q) ->
  Dict.get (PyPath.stem q)
           (fold_left (add_document pdf_reader fs) found acc)
  = Some (annotate (PyPath.stem q) (extracted_text pdf_reader fs q)).
Proof.
  revert acc. induction found as [|a rest IH]; intros acc Hin Huniq;
    [done|].
  simpl. destruct (decide (a = q)) as [->|Hne].
  - apply fold_add_keeps.
    + unfold add_document. apply get_set_eq.
    + intros q' Hq' Hstem. rewrite (Huniq q'); [done|by right|done].
  - destruct Hin as [->|Hin]; [done|].
    apply IH; [done|]. intros q' Hq'. apply Huniq. by right.
Qed.

Lemma fold_add_origin fs found acc n v :
  Dict.get n (fold_left (add_document pdf_reader fs) found acc) = Some v ->
  Dict.get n acc = Some v \/
  exists q, In q found /\ PyPath.stem q = n /\
            v = annotate n (extracted_text pdf_reader fs q).
Proof.
  revert acc. induction found as [|a rest IH]; intros acc; simpl;
    [by left|].
  intros H. destruct (IH _ H) as [Hacc|(q & Hq & Hs & Hv)].
  - unfold add_document in Hacc.
    destruct (decide (PyPath.stem a = n)) as [E|E].
    + rewrite E, get_set_eq in Hacc. injection Hacc as <-.
      right. exists a. split; [by left|]. split; done.
    + rewrite get_set_ne in Hacc by done. by left.
  - right. exists q. split; [by right|done].
Qed.

Lemma get_all_with_names_run folder user_id w p k l s :
  Dict.get (PyStr.str user_id) (profiles w) = Some p ->
  active_subject p = Some k ->
  Dict.get k (subjects p) = Some l ->
  heap w !! l = Some s ->
  get_all_with_names pdf_reader folder user_id w =
  (Ret (fold_left (add_document pdf_reader (fsys w))
                  (FS.glob_pdf (get_subject_path user_id k // folder)
                               (fsys w))
                  Dict.empty),
   keyed w k l).
Proof.
  intros Hp Ha Hl Hs. unfold get_all_with_names.
  rewrite (bind_run _ _ _ _ _ (active_subject_step _ _ p _ _ Hp Ha Hl)).
  rewrite (bind_run _ _ _ k (keyed w k l))
    by (apply subject_key_at_known; by rewrite (deref_keyed _ _ _ s Hs)).
  unfold bind at 1, get_world at 1. by rewrite collect_run.
Qed.

End ExtractionFacts.

(** C7, as stated, fails: the document that the reader rejects is not left
    out of the result, it is in the mapping with the citation header and an
    empty text. *)
Lemma corrupt_document_is_listed :
  exists lectures,
    fst (get_all_lectures_with_names sample_reader 7 two_documents)
      = Ret lectures /\
    sample_reader [] = None /\
    Dict.mem "bad" lectures = true /\
    Dict.get "bad" lectures = Some ("[SOURCE: bad]" +:+ PyStr.newline) /\
    Dict.get "good" lectures =
      Some ("[SOURCE: good]" +:+ PyStr.newline +:+ "hello" +:+ PyStr.newline
            +:+ "world" +:+ PyStr.newline).
Proof. eexists. vm_compute. repeat split; reflexivity. Qed.

(** C7, amended: for a user with an active subject,
    [get_all_lectures_with_names] never raises and maps the stem of every
    [*.pdf] entry of the lecture folder (when no other entry has the same
    stem) to the header ["[SOURCE: stem]"], a newline, and the text that
    [extract_text_from_pdf] returns for it.  A failure on one document does
    not stop the others, but the failed document is not omitted: its text is
    what was read before the failure, the empty string when the file could
    not be opened or the reader rejected it.  Every key of the result is
    the stem of an entry of the folder. *)
Theorem get_all_lectures_includes_every_document
    pdf_reader user_id w p k l s :
  Dict.get (PyStr.str user_id) (profiles w) = Some p ->
  active_subject p = Some k ->
  Dict.get k (subjects p) = Some l ->
  heap w !! l = Some s ->
  let found := FS.glob_pdf (get_subject_path user_id k // "lectures")
                           (fsys w) in
  exists lectures w',
    get_all_lectures_with_names pdf_reader user_id w = (Ret lectures, w') /\
    fsys w' = fsys w /\
    (forall q,
       In q found ->
       (forall q', In q' found -> PyPath.stem q' = PyPath.stem q -> q' = q) ->
       Dict.get (PyPath.stem q) lectures =
         Some ("[SOURCE: " +:+ PyPath.stem q +:+ "]" +:+ PyStr.newline
               +:+ extracted_text pdf_reader (fsys w) q) /\
       ((FS.read_file q (fsys w) = None \/
         exists data, FS.read_file q (fsys w) = Some data /\
                      pdf_reader data = None) ->
        Dict.get (PyPath.stem q) lectures =
          Some ("[SOURCE: " +:+ PyPath.stem q +:+ "]" +:+ PyStr.newline))) /\
    (forall n v,
       Dict.get n lectures = Some v ->
       exists q, In q found /\ PyPath.stem q = n /\
                 v = annotate n (extracted_text pdf_reader (fsys w) q)).
Proof.
  intros Hp Ha Hl Hs found. eexists _, _. split.
  { apply (get_all_with_names_run pdf_reader "lectures" user_id w p k l s);
      done. }
  split; [done|]. split.
  - intros q Hq Huniq. fold found.
    pose proof (fold_add_lookup pdf_reader (fsys w) found Dict.empty q Hq Huniq)
      as Hget.
    split; [exact Hget|].
    intros Hfail. rewrite Hget. f_equal. unfold annotate. do 4 f_equal.
    unfold extracted_text.
    destruct Hfail as [->|(data & -> & ->)]; done.
  - intros n v Hget. fold found in Hget.
    destruct (fold_add_origin _ _ _ _ _ _ Hget) as [Hacc|H]; [done|exact H].
Qed.

Lemma get_all_lectures_includes_every_document_witness :
  exists lectures w',
    get_all_lectures_with_names sample_reader 7 two_documents
      = (Ret lectures, w') /\
    Dict.keys lectures = ["bad"; "good"].
Proof.
  destruct (get_all_lectures_includes_every_document sample_reader 7
              two_documents (mkProfile [("bio", 0)] (Some "bio")) "bio" 0
              (mkSubject (Some "Bio") (Some default_game) (Some true)
                         (Some []) (Some "bio"))
              eq_refl eq_refl eq_refl eq_refl)
    as (lectures & w' & Hrun & _).
  exists lectures, w'. split; [exact Hrun|].
  revert Hrun. vm_compute. intros [= <- _]. reflexivity.
Defined.

(** ** The active subject is a subject (C4) *)

Lemma store_ok_frame w w' :
  profiles w' = profiles w -> profiles_json w' = profiles_json w ->
  store_ok w -> store_ok w'.
Proof.
  intros Hp Hj [H1 H2]. unfold store_ok, active_in_subjects,
    file_active_in_subjects. by rewrite Hp, Hj.
Qed.

Lemma profile_to_json_ok h p : profile_ok p -> profile_json_ok (profile_to_json h p).
Proof.
  intros Hok k Hk. simpl in *. specialize (Hok k Hk). unfold Dict.mem in *.
  rewrite (get_map_values (deref h) k (subjects p)).
  by destruct (Dict.get k (subjects p)).
Qed.

Lemma store_ok_save w r w' :
  _save_profiles w = (r, w') -> store_ok w -> store_ok w'.
Proof.
  intros Hs [H1 H2].
  apply save_profiles_inv in Hs as (Hp & _ & _ & _ & Hr). split.
  - unfold active_in_subjects. by rewrite Hp.
  - unfold file_active_in_subjects. destruct r as [[]|e].
    + destruct Hr as [_ ->]. intros table u pj [= <-] Hget.
      rewrite get_to_json in Hget.
      destruct (Dict.get u (profiles w)) as [p|] eqn:Hu; [|done].
      injection Hget as <-. apply profile_to_json_ok. by apply (H1 u).
    + destruct Hr as (_ & _ & ->). unfold after_failed_write.
      destruct (hd false (tl (faults w))); [done|exact H2].
Qed.

Lemma preserves_ret {A} (a : A) : preserves (ret a).
Proof. by intros w H. Qed.

Lemma preserves_raise {A} e : preserves (@raise A e).
Proof. by intros w H. Qed.

Lemma preserves_bind {A B} (m : M A) (k : A -> M B) :
  preserves m -> (forall a, preserves (k a)) -> preserves (bind m k).
Proof.
  intros Hm Hk w Hw. unfold bind. specialize (Hm w Hw).
  destruct (m w) as [[a|e] w0]; simpl in *; [|done]. by apply Hk.
Qed.

Lemma preserves_try {A} (m h : M A) :
  preserves m -> preserves h -> preserves (try_except m h).
Proof.
  intros Hm Hh w Hw. unfold try_except. specialize (Hm w Hw).
  destruct (m w) as [[a|e] w0]; simpl in *; [done|]. by apply Hh.
Qed.

Lemma preserves_get_world : preserves get_world.
Proof. by intros w H. Qed.

Lemma preserves_save : preserves _save_profiles.
Proof.
  intros w H. destruct (_save_profiles w) as [r w'] eqn:E.
  by apply (store_ok_save _ _ _ E).
Qed.

Lemma preserves_fs_call f : preserves (fs_call f).
Proof.
  intros w H. destruct (fs_call f w) as [r w'] eqn:E.
  apply fs_call_inv in E as (Hp & _ & Hj & _). by apply (store_ok_frame w).
Qed.

Lemma preserves_update_subject l f : preserves (update_subject l f).
Proof. intros w H. by apply (store_ok_frame w). Qed.

Lemma preserves_subject_key_at l : preserves (subject_key_at l).
Proof.
  intros w H. unfold subject_key_at, bind, get_world.
  by destruct (key (deref (heap w) l)).
Qed.

Lemma preserves_subject_name_at l : preserves (subject_name_at l).
Proof. intros w H. by rewrite subject_name_at_run. Qed.

Lemma preserves_get_user_profile u : preserves (get_user_profile u).
Proof.
  intros w H. unfold get_user_profile, bind, get_world.
  destruct (Dict.get (PyStr.str u) (profiles w)) eqn:E; [done|]. simpl.
  match goal with |- context [_save_profiles ?x] =>
    assert (Hx : store_ok x);
    [|destruct (_save_profiles x) as [[[]|e] w1] eqn:Hs;
      by apply (store_ok_save _ _ _ Hs)] end.
  destruct H as [H1 H2]. split; [|done].
  by apply table_ok_set_empty.
Qed.

Lemma preserves_get_active_subject u : preserves (get_active_subject u).
Proof.
  unfold get_active_subject.
  apply preserves_bind; [apply preserves_get_user_profile|]. intros p.
  destruct (active_subject p) as [k|]; [|apply preserves_ret].
  destruct (Dict.get k (subjects p)) as [l|]; [|apply preserves_raise].
  apply preserves_bind; [apply preserves_update_subject|].
  intros _. apply preserves_ret.
Qed.

Lemma preserves_get_question_bank u k : preserves (get_question_bank u k).
Proof.
  unfold get_question_bank.
  apply preserves_bind; [apply preserves_get_user_profile|]. intros p.
  destruct (Dict.get k (subjects p)) as [l|]; [|apply preserves_ret].
  apply preserves_bind; [apply preserves_get_world|].
  intros w. apply preserves_ret.
Qed.

Lemma preserves_list_subjects u : preserves (list_subjects u).
Proof.
  unfold list_subjects.
  apply preserves_bind; [apply preserves_get_user_profile|]. intros p.
  apply preserves_bind; [apply preserves_get_world|]. intros w.
  destruct (list_subjects_items _ _ _);
    [apply preserves_ret|apply preserves_raise].
Qed.

Lemma after_profile_post {A B} u (body : Profile -> M A) (post : A -> M B) w :
  bind (bind (get_user_profile u) body) post w =
  match get_user_profile u w with
  | (Ret _, w0) => bind (bind (get_user_profile u) body) post w0
  | (Raise e, w0) => (Raise e, w0)
  end.
Proof.
  destruct (get_user_profile u w) as [[p|e] w0] eqn:Hg.
  - destruct (get_user_profile_inv _ _ _ _ Hg) as (_ & _ & _ & Hp).
    destruct (Hp p eq_refl) as [_ Hget].
    pose proof (get_user_profile_known _ _ _ Hget) as Hg0.
    unfold bind. by rewrite Hg, Hg0.
  - unfold bind. by rewrite Hg.
Qed.

Lemma mutation_after_profile m w :
  run_mutation m w =
  match get_user_profile (user_of m) w with
  | (Ret _, w0) => run_mutation m w0
  | (Raise e, w0) => (Raise e, w0)
  end.
Proof. destruct m; apply after_profile_post. Qed.

Lemma with_faults_self w : with_faults (faults w) w = w.
Proof. by destruct w. Qed.

Lemma store_ok_with_faults fl w : store_ok w -> store_ok (with_faults fl w).
Proof. by apply store_ok_frame. Qed.

Lemma preserves_mutation m : preserves (run_mutation m).
Proof.
  intros w H. rewrite mutation_after_profile.
  pose proof (preserves_get_user_profile (user_of m) w H) as H0.
  destruct (get_user_profile (user_of m) w) as [[p|e] w0] eqn:Hg;
    simpl in H0; [|done].
  destruct (get_user_profile_inv _ _ _ _ Hg) as (_ & _ & _ & Hp).
  destruct (Hp p eq_refl) as [_ Hget].
  destruct (flushes_last_mutation m w0 p Hget)
    as [(r & w' & [Hj Hok] & Hrun)|(a & w2 & [Hj Hok] & Hrun)].
  - specialize (Hrun (faults w0)). rewrite with_faults_self in Hrun.
    rewrite Hrun. simpl. destruct H0 as [H1 H2]. split.
    + by apply Hok.
    + unfold file_active_in_subjects. simpl. by rewrite Hj.
  - specialize (Hrun (faults w0)). rewrite with_faults_self in Hrun.
    rewrite Hrun.
    assert (Hw2 : store_ok (with_faults (faults w0) w2)).
    { destruct H0 as [H1 H2]. split.
      - by apply Hok.
      - unfold file_active_in_subjects. simpl. by rewrite Hj. }
    apply (preserves_bind _save_profiles (fun _ => ret a));
      [apply preserves_save|intros _; apply preserves_ret|done].
Qed.

Lemma preserves_unmap {A B} (f : A -> B) (m : M A) :
  preserves (let* a := m in ret (f a)) -> preserves m.
Proof.
  intros H w Hw. specialize (H w Hw). unfold bind in H.
  by destruct (m w) as [[a|e] w0].
Qed.

Lemma preserves_add_question_to_bank u k q :
  preserves (add_question_to_bank u k q).
Proof.
  apply (preserves_unmap Some).
  exact (preserves_mutation (AddQuestionToBank u k q)).
Qed.

Lemma preserves_remove_question_from_bank u k i :
  preserves (remove_question_from_bank u k i).
Proof.
  apply (preserves_unmap Some).
  exact (preserves_mutation (RemoveQuestionFromBank u k i)).
Qed.

Lemma preserves_save_attachment a u t : preserves (save_attachment a u t).
Proof.
  unfold save_attachment.
  destruct (negb _); [apply preserves_ret|].
  apply preserves_bind; [apply preserves_get_active_subject|].
  intros [l|]; [|apply preserves_ret].
  apply preserves_bind; [apply preserves_subject_key_at|]. intros k.
  apply preserves_try; [|apply preserves_ret].
  apply preserves_bind; [|intros _; apply preserves_ret].
  unfold attachment_save.
  destruct (payload a); [apply preserves_fs_call|apply preserves_raise].
Qed.

Lemma preserves_list_files u t : preserves (list_files u t).
Proof.
  unfold list_files.
  apply preserves_bind; [apply preserves_get_active_subject|].
  intros [l|]; [|apply preserves_ret].
  apply preserves_bind; [apply preserves_subject_key_at|]. intros k.
  apply preserves_bind; [apply preserves_get_world|]. intros w.
  apply preserves_ret.
Qed.

Lemma preserves_get_all_with_names pdf_reader folder u :
  preserves (get_all_with_names pdf_reader folder u).
Proof.
  unfold get_all_with_names.
  apply preserves_bind; [apply preserves_get_active_subject|].
  intros [l|]; [|apply preserves_ret].
  apply preserves_bind; [apply preserves_subject_key_at|]. intros k.
  apply preserves_bind; [apply preserves_get_world|]. intros w0.
  intros w Hw. by rewrite collect_run.
Qed.

Lemma preserves_add_question u q : preserves (add_question u q).
Proof.
  unfold add_question.
  apply preserves_bind; [apply preserves_get_active_subject|].
  intros [l|]; [|apply preserves_ret].
  apply preserves_bind; [apply preserves_subject_key_at|]. intros k.
  apply preserves_bind; [apply preserves_add_question_to_bank|].
  intros [|]; [|apply preserves_ret].
  apply preserves_bind; [apply preserves_subject_key_at|]. intros k'.
  apply preserves_bind; [apply preserves_get_question_bank|]. intros b.
  apply preserves_bind; [apply preserves_subject_name_at|]. intros n.
  apply preserves_ret.
Qed.

Lemma preserves_remove_question u n : preserves (remove_question u n).
Proof.
  unfold remove_question.
  apply preserves_bind; [apply preserves_get_active_subject|].
  intros [l|]; [|apply preserves_ret].
  apply preserves_bind; [apply preserves_subject_key_at|]. intros k.
  apply preserves_bind; [apply preserves_remove_question_from_bank|].
  intros [|]; [|apply preserves_ret].
  apply preserves_bind; [apply preserves_subject_key_at|]. intros k'.
  apply preserves_bind; [apply preserves_get_question_bank|]. intros b.
  apply preserves_bind; [apply preserves_subject_name_at|]. intros nm.
  apply preserves_ret.
Qed.

Lemma preserves_run_op pdf_reader op : preserves (run_op pdf_reader op).
Proof.
  destruct op; simpl;
    (apply preserves_bind; [|intros ?; apply preserves_ret]).
  - apply preserves_get_user_profile.
  - apply preserves_mutation.
  - apply preserves_get_active_subject.
  - apply preserves_get_question_bank.
  - apply preserves_list_subjects.
  - apply preserves_save_attachment.
  - apply preserves_list_files.
  - apply preserves_get_all_with_names.
  - apply preserves_get_all_with_names.
  - apply preserves_add_question.
  - apply preserves_remove_question.
Qed.

Lemma load_subjects_mem js h k :
  Dict.mem k (fst (load_subjects js h)) = Dict.mem k js.
Proof.
  revert h. induction js as [|[k' s] r IH]; intros h; simpl; [done|].
  specialize (IH (h ++ [s])%list).
  destruct (load_subjects r (h ++ [s])%list) as [d h'] eqn:E. simpl in *.
  unfold Dict.mem in *. simpl. by destruct (String.eqb k k').
Qed.

Lemma load_profiles_get j h u p :
  Dict.get u (fst (load_profiles j h)) = Some p ->
  exists pj,
    Dict.get u j = Some pj /\
    active_subject p = json_active_subject pj /\
    forall k, Dict.mem k (subjects p) = Dict.mem k (json_subjects pj).
Proof.
  revert h. induction j as [|[u0 pj] r IH]; intros h; simpl; [done|].
  pose proof (load_subjects_mem (json_subjects pj) h) as Hmem.
  destruct (load_subjects (json_subjects pj) h) as [d h1] eqn:E1.
  specialize (IH h1).
  destruct (load_profiles r h1) as [ps h2] eqn:E2. simpl in *.
  destruct (String.eqb u u0) eqn:Eu.
  - intros [= <-]. exists pj. simpl. done.
  - apply IH.
Qed.

(** A start that succeeds: the profile file is the one found, or the empty
    table if there was none, and the table in memory is loaded from it. *)
Lemma init_inv w w' :
  UserProfileManager_init w = (Ret tt, w') ->
  profiles_json w' = match profiles_json w with
                     | NoFile => Json []
                     | file => file
                     end /\
  (profiles w', heap w') = _load_profiles (profiles_json w').
Proof.
  unfold UserProfileManager_init, _ensure_base_folder.
  unfold bind at 1. unfold bind at 1.
  destruct (fs_call _ w) as [[[]|e] w0] eqn:Hfs; [|done].
  apply fs_call_inv in Hfs as (_ & _ & Hj & _).
  unfold bind, get_world. rewrite Hj.
  assert (Hload : forall w1,
    (let (ps, h) := _load_profiles (profiles_json w1) in
     (Ret tt, mkWorld ps h (profiles_json w1) (fsys w1) (faults w1)))
    = (Ret tt, w') ->
    profiles_json w' = profiles_json w1 /\
    (profiles w', heap w') = _load_profiles (profiles_json w1)).
  { intros w1. destruct (_load_profiles (profiles_json w1)) as [ps h].
    by intros [= <-]. }
  destruct (profiles_json w) eqn:Hfile.
  - unfold write_json. destruct (faults w0) as [|[] rest]; [|done|].
    all: intros H; apply Hload in H as [H1 H2]; simpl in *;
      rewrite H1; done.
  - unfold ret. intros H. apply Hload in H as [H1 H2].
    rewrite ?Hj, ?Hfile in H1, H2. by rewrite H1.
  - unfold ret. intros H. apply Hload in H as [H1 H2].
    rewrite ?Hj, ?Hfile in H1, H2. by rewrite H1.
Qed.

Lemma store_ok_init w w' :
  UserProfileManager_init w = (Ret tt, w') -> store_ok w -> store_ok w'.
Proof.
  intros Hinit [H1 H2]. apply init_inv in Hinit as [Hfile Hload].
  assert (Hfile' : forall table,
            profiles_json w' = Json table ->
            table = [] \/ profiles_json w = Json table).
  { intros table E. rewrite E in Hfile.
    destruct (profiles_json w); [left; congruence|done|by right]. }
  split.
  - intros u p Hget.
    assert (Hps : profiles w' = fst (_load_profiles (profiles_json w')))
      by (by rewrite <- Hload).
    rewrite Hps in Hget.
    destruct (profiles_json w') as [| |table] eqn:E; simpl in Hget;
      try done.
    apply load_profiles_get in Hget as (pj & Hpj & Hact & Hmem).
    destruct (Hfile' table eq_refl) as [->|Hw]; [done|].
    intros k Hk. rewrite Hmem.
    apply (H2 table u pj Hw Hpj). by rewrite <- Hact.
  - intros table u pj E Hget.
    destruct (Hfile' table E) as [->|Hw]; [done|].
    by apply (H2 table u pj Hw).
Qed.

(** C4: in every state that the store reaches from a first start (by any
    sequence of operations and restarts, whatever the calls return or
    raise), the active subject of every profile, when it is not [None], is
    a key of that profile's subjects; and every operation, started in a
    state where this holds in memory and in the profile file, ends in such
    a state. *)
Theorem active_subject_is_a_subject pdf_reader :
  (forall w, reachable pdf_reader w ->
     forall u p k,
       Dict.get u (profiles w) = Some p ->
       active_subject p = Some k ->
       Dict.mem k (subjects p) = true) /\
  (forall w op,
     store_ok w -> store_ok (snd (run_op pdf_reader op w))).
Proof.
  assert (Hreach : forall w, reachable pdf_reader w -> store_ok w).
  { intros w Hw. induction Hw as [fs fl|w op Hw IH|w w' Hw IH Hinit].
    - split; [by intros u p Hget|]. by intros table u p [= <-] Hget.
    - by apply preserves_run_op.
    - by apply (store_ok_init w). }
  split.
  - intros w Hw u p k Hget Hk. destruct (Hreach w Hw) as [H _].
    by apply (H u p).
  - intros w op. apply preserves_run_op.
Qed.

Lemma active_subject_is_a_subject_witness :
  reachable sample_reader after_four_operations /\
  Dict.get "7" (profiles after_four_operations)
    = Some (mkProfile [("chem", 1); ("art", 2)] (Some "chem")) /\
  Dict.mem "chem" [("chem", 1); ("art", 2)] = true.
Proof.
  assert (Hw : reachable sample_reader after_four_operations).
  { unfold after_four_operations. cbv zeta. do 4 apply reach_op.
    apply reach_start. }
  assert (Hget : Dict.get "7" (profiles after_four_operations)
                 = Some (mkProfile [("chem", 1); ("art", 2)] (Some "chem")))
    by (vm_compute; reflexivity).
  split; [exact Hw|]. split; [exact Hget|].
  destruct (active_subject_is_a_subject sample_reader) as [H _].
  exact (H _ Hw "7" _ "chem" Hget eq_refl).
Defined.

(** * Further properties of the store *)

(** ** Keys *)

Lemma lower_char_idem c :
  PyStr.lower_char (PyStr.lower_char c) = PyStr.lower_char c.
Proof. by destruct c as [[] [] [] [] [] [] [] []]. Qed.

(** X1: a key is its own key: normalizing an already normalized name gives
    the same string, so [set_active_subject] and [delete_subject] accept the
    key of a subject as well as its display name. *)
Theorem subject_key_of_idempotent subject_name :
  subject_key_of (subject_key_of subject_name) = subject_key_of subject_name.
Proof.
  rewrite !subject_key_of_chars.
  induction subject_name as [|c r IH]; simpl; [done|].
  rewrite IH. f_equal.
  destruct (Ascii.eqb c " ") eqn:E; [done|].
  rewrite lower_char_space, E. apply lower_char_idem.
Qed.

(** ** Reading the active subject twice *)

(** X2: [get_active_subject] changes the store at most once: called again
    on the state it has left, it returns the same dictionary and changes
    nothing. *)
Theorem get_active_subject_twice user_id w r w1 :
  get_active_subject user_id w = (Ret r, w1) ->
  get_active_subject user_id w1 = (Ret r, w1).
Proof.
  unfold get_active_subject at 1. unfold bind at 1.
  destruct (get_user_profile user_id w) as [[p|e] w0] eqn:Hg; [|done].
  destruct (get_user_profile_inv _ _ _ _ Hg) as (_ & _ & _ & Hp).
  destruct (Hp p eq_refl) as [_ Hget].
  destruct (active_subject p) as [k|] eqn:Ha.
  - destruct (Dict.get k (subjects p)) as [l|] eqn:Hl; [|done].
    rewrite (bind_run _ _ _ _ _ (update_subject_run _ _ _)).
    intros [= <- <-].
    rewrite (get_active_subject_known user_id
               (with_heap (alter (set_key k) l (heap w0)) w0) p k l
               Hget Ha Hl).
    f_equal. unfold with_heap. simpl. f_equal.
    rewrite list_alter_alter_eq. apply list_alter_ext; [|done].
    by intros [].
  - intros [= <- <-]. by apply (get_active_subject_none _ _ p).
Qed.

Lemma get_active_subject_twice_witness :
  exists w1,
    get_active_subject 7 one_subject = (Ret (Some 0), w1) /\
    get_active_subject 7 w1 = (Ret (Some 0), w1).
Proof.
  assert (H : get_active_subject 7 one_subject
              = (Ret (Some 0), snd (get_active_subject 7 one_subject)))
    by (vm_compute; reflexivity).
  eexists. split; [exact H|].
  exact (get_active_subject_twice 7 _ _ _ H).
Defined.

(** ** Profiles are created on first use *)

Lemma set_absent {V} k (v : V) d :
  Dict.get k d = None -> Dict.set k v d = (d ++ [(k, v)])%list.
Proof.
  induction d as [|[k' v'] r IH]; simpl; [done|].
  destruct (String.eqb k k'); [done|]. intros H. by rewrite IH.
Qed.

(** X3: the first access to a user creates an empty profile, placed after
    the profiles that exist, and tries to write the profile file; the others
    are untouched.  When that write fails the call raises, leaving the file
    as it was or unreadable, but the profile has been created all the same:
    the next access returns it and writes nothing. *)
Theorem get_user_profile_creates_once user_id w r w' :
  Dict.get (PyStr.str user_id) (profiles w) = None ->
  get_user_profile user_id w = (r, w') ->
  profiles w' = (profiles w ++ [(PyStr.str user_id, empty_profile)])%list /\
  (forall u, u <> PyStr.str user_id ->
             Dict.get u (profiles w') = Dict.get u (profiles w)) /\
  heap w' = heap w /\ fsys w' = fsys w /\
  ((r = Ret empty_profile /\ head (faults w) <> Some true /\
    profiles_json w' = to_json (heap w') (profiles w')) \/
   (r = Raise OSError /\ head (faults w) = Some true /\
    profiles_json w' = after_failed_write w)) /\
  get_user_profile user_id w' = (Ret empty_profile, w').
Proof.
  intros Hnone. unfold get_user_profile at 1, bind at 1, get_world at 1.
  rewrite Hnone. unfold bind at 1, set_profiles at 1.
  rewrite save_then_ret. unfold after_failed_write. simpl.
  assert (Hset : Dict.set (PyStr.str user_id) empty_profile (profiles w)
                 = (profiles w ++ [(PyStr.str user_id, empty_profile)])%list)
    by (by apply set_absent).
  intros Hrun.
  assert (Hp : profiles w' = Dict.set (PyStr.str user_id) empty_profile
                                      (profiles w))
    by (destruct (faults w) as [|[] ?]; by injection Hrun as <- <-).
  split; [by rewrite Hp|]. split.
  { intros u Hu. rewrite Hp. by apply get_set_ne. }
  split; [destruct (faults w) as [|[] ?]; by injection Hrun as <- <-|].
  split; [destruct (faults w) as [|[] ?]; by injection Hrun as <- <-|].
  split.
  - destruct (faults w) as [|[] ?]; injection Hrun as <- <-; simpl;
      [left|right|left]; done.
  - apply get_user_profile_known. rewrite Hp. apply get_set_eq.
Qed.

Lemma get_user_profile_creates_once_witness :
  let w := with_faults [true] one_subject in
  fst (get_user_profile 8 w) = Raise OSError /\
  get_user_profile 8 (snd (get_user_profile 8 w))
    = (Ret empty_profile, snd (get_user_profile 8 w)).
Proof.
  intros w.
  destruct (get_user_profile_creates_once 8 w _ _ eq_refl
              (surjective_pairing _)) as (_ & _ & _ & _ & H & H').
  split; [|exact H'].
  destruct H as [(_ & Hf & _)|(H & _)]; [|exact H].
  exfalso. apply Hf. reflexivity.
Defined.

(** ** Switching the active subject *)

(** X4: [set_active_subject] on a name whose key is not a subject returns
    [False] and changes nothing; on a name whose key is a subject it makes
    that key the active one, leaves the subjects and their dictionaries as
    they are, and the following [get_active_subject] returns the dictionary
    stored under that key; it returns [True] unless the write fails. *)
Theorem set_active_subject_switches user_id subject_name w p :
  Dict.get (PyStr.str user_id) (profiles w) = Some p ->
  let k := subject_key_of subject_name in
  (Dict.mem k (subjects p) = false ->
   set_active_subject user_id subject_name w = (Ret false, w)) /\
  (forall l r w',
     Dict.get k (subjects p) = Some l ->
     set_active_subject user_id subject_name w = (r, w') ->
     profile_of w' user_id = mkProfile (subjects p) (Some k) /\
     heap w' = heap w /\ fsys w' = fsys w /\
     (r = Ret true \/ r = Raise OSError) /\
     (r = Ret true <-> head (faults w) <> Some true) /\
     fst (get_active_subject user_id w') = Ret (Some l)).
Proof.
  intros Hp k. pose proof (set_active_subject_run user_id subject_name w p Hp)
    as Hrun. fold k in Hrun. split.
  - intros Hk. by rewrite Hrun, Hk.
  - intros l r w' Hl. rewrite Hrun. unfold Dict.mem. rewrite Hl.
    rewrite save_then_ret. simpl. intros Hres.
    assert (Hps : profiles w' = Dict.alter (set_active (Some k))
                                           (PyStr.str user_id) (profiles w))
      by (destruct (faults w) as [|[] ?]; by injection Hres as <- <-).
    assert (Hprof : Dict.get (PyStr.str user_id) (profiles w')
                    = Some (mkProfile (subjects p) (Some k)))
      by (by rewrite Hps, get_alter_eq, Hp).
    split; [unfold profile_of; by rewrite Hprof|].
    split; [destruct (faults w) as [|[] ?]; by injection Hres as <- <-|].
    split; [destruct (faults w) as [|[] ?]; by injection Hres as <- <-|].
    split; [destruct (faults w) as [|[] ?]; injection Hres as <- <-; auto|].
    split.
    + destruct (faults w) as [|[] ?]; injection Hres as <- <-; simpl;
        split; done.
    + by rewrite (get_active_subject_known user_id w' _ k l Hprof eq_refl Hl).
Qed.

Lemma set_active_subject_switches_witness :
  fst (set_active_subject 7 "Physics" three_subjects) = Ret false /\
  active_subject (profile_of (snd (set_active_subject 7 "ART" three_subjects))
                             7) = Some "art".
Proof.
  destruct (set_active_subject_switches 7 "Physics" three_subjects
              (mkProfile [("bio", 0); ("chem", 1); ("art", 2)] (Some "bio"))
              eq_refl) as [H _].
  rewrite (H eq_refl). split; [reflexivity|].
  destruct (set_active_subject_switches 7 "ART" three_subjects
              (mkProfile [("bio", 0); ("chem", 1); ("art", 2)] (Some "bio"))
              eq_refl) as [_ H'].
  destruct (H' 2 _ _ eq_refl (surjective_pairing _)) as (-> & _).
  reflexivity.
Defined.

(** ** The game of a subject *)

(** X5: [set_subject_game] on a key that is not a subject returns without
    changing or writing anything; on a subject it replaces the ["game"]
    entry of that subject's dictionary and nothing else: the name, the
    question bank and the other entries stay, and so does every other
    dictionary and the profile table. *)
Theorem set_subject_game_only_game user_id subject_key game w p :
  Dict.get (PyStr.str user_id) (profiles w) = Some p ->
  (Dict.get subject_key (subjects p) = None ->
   set_subject_game user_id subject_key game w = (Ret tt, w)) /\
  (forall l s r w',
     Dict.get subject_key (subjects p) = Some l ->
     heap w !! l = Some s ->
     set_subject_game user_id subject_key game w = (r, w') ->
     heap w' !! l =
       Some (mkSubject (name s) (Some game) (created s) (question_bank s)
                       (key s)) /\
     (forall l', l' <> l -> heap w' !! l' = heap w !! l') /\
     profiles w' = profiles w /\ fsys w' = fsys w).
Proof.
  intros Hp. pose proof (set_subject_game_run user_id subject_key game w p Hp)
    as Hrun. split.
  - intros Hk. by rewrite Hrun, Hk.
  - intros l s r w' Hl Hs. rewrite Hrun, Hl. intros Hsave.
    apply save_profiles_inv in Hsave as (Hps & Hh & Hfs & _).
    rewrite Hh, Hps, Hfs. simpl. split.
    + by rewrite list_lookup_alter_eq, Hs.
    + split; [|done]. intros l' Hne. by rewrite list_lookup_alter_ne.
Qed.

Lemma set_subject_game_only_game_witness :
  let w' := snd (set_subject_game 7 "chem" "Zelda" three_subjects) in
  game (deref (heap w') 1) = Some "Zelda" /\
  name (deref (heap w') 1) = Some "Chem" /\
  game (deref (heap w') 0) = Some default_game.
Proof.
  intros w'.
  destruct (set_subject_game_only_game 7 "chem" "Zelda" three_subjects
              (mkProfile [("bio", 0); ("chem", 1); ("art", 2)] (Some "bio"))
              eq_refl) as [_ H].
  destruct (H 1 (mkSubject (Some "Chem") (Some default_game) (Some true)
                           (Some []) None) _ _
              eq_refl eq_refl (surjective_pairing _)) as (H1 & H2 & _).
  fold w' in H1, H2. unfold deref. rewrite H1, (H2 0) by done.
  split; [reflexivity|]. split; reflexivity.
Defined.

(** ** Adding and reading questions *)

(** X6: for a key that is not a subject, [add_question_to_bank] returns
    [False], [get_question_bank] returns the empty list, and neither changes
    anything.  For a subject, the question is appended after the questions
    that are there (duplicates are kept), whether or not the write that
    follows succeeds, and [get_question_bank] then returns the old questions
    followed by the new one, without changing anything itself. *)
Theorem add_question_to_bank_appends user_id subject_key question w p :
  Dict.get (PyStr.str user_id) (profiles w) = Some p ->
  (Dict.get subject_key (subjects p) = None ->
   add_question_to_bank user_id subject_key question w = (Ret false, w) /\
   get_question_bank user_id subject_key w = (Ret [], w)) /\
  (forall l s r w',
     Dict.get subject_key (subjects p) = Some l ->
     heap w !! l = Some s ->
     add_question_to_bank user_id subject_key question w = (r, w') ->
     get_question_bank user_id subject_key w =
       (Ret (default [] (question_bank s)), w) /\
     get_question_bank user_id subject_key w' =
       (Ret (default [] (question_bank s) ++ [question])%list, w') /\
     (r = Ret true <-> head (faults w) <> Some true) /\
     (forall l', l' <> l -> heap w' !! l' = heap w !! l') /\
     profiles w' = profiles w).
Proof.
  intros Hp. split.
  - intros Hk. split.
    + unfold add_question_to_bank.
      by rewrite (bind_run _ _ _ _ _ (get_user_profile_known _ _ _ Hp)), Hk.
    + unfold get_question_bank.
      by rewrite (bind_run _ _ _ _ _ (get_user_profile_known _ _ _ Hp)), Hk.
  - intros l s r w' Hl Hs.
    rewrite (add_question_to_bank_run _ _ _ _ p l Hp Hl), save_then_ret.
    simpl. intros Hres.
    assert (Hh : heap w' = alter (append_question question) l (heap w))
      by (destruct (faults w) as [|[] ?]; by injection Hres as <- <-).
    assert (Hps : profiles w' = profiles w)
      by (destruct (faults w) as [|[] ?]; by injection Hres as <- <-).
    split.
    { rewrite (get_question_bank_known _ _ _ p l Hp Hl).
      unfold bank_at, deref. by rewrite Hs. }
    split.
    { rewrite (get_question_bank_known _ _ w' p l) by (by rewrite ?Hps).
      unfold bank_at. by rewrite Hh, (deref_alter _ _ _ s Hs). }
    split.
    { destruct (faults w) as [|[] ?]; injection Hres as <- <-; simpl;
        split; done. }
    split; [|done]. intros l' Hne. by rewrite Hh, list_lookup_alter_ne.
Qed.

Lemma add_question_to_bank_appends_witness :
  let w' := snd (add_question_to_bank 7 "bio" "Why?" one_subject) in
  fst (get_question_bank 7 "bio" w') = Ret ["Why?"] /\
  fst (add_question_to_bank 7 "physics" "Why?" one_subject) = Ret false.
Proof.
  intros w'.
  destruct (add_question_to_bank_appends 7 "bio" "Why?" one_subject
              (mkProfile [("bio", 0)] (Some "bio")) eq_refl) as [_ H].
  destruct (H 0 (mkSubject (Some "Bio") (Some default_game) (Some true)
                           (Some []) None) _ _
              eq_refl eq_refl (surjective_pairing _)) as (_ & H1 & _).
  fold w' in H1. rewrite H1. split; [reflexivity|].
  destruct (add_question_to_bank_appends 7 "physics" "Why?" one_subject
              (mkProfile [("bio", 0)] (Some "bio")) eq_refl) as [H' _].
  destruct (H' eq_refl) as [-> _]. reflexivity.
Defined.

(** ** Creating a further subject *)

(** X7: a subject created while another one is active does not become
    active: the active subject stays, the new key is placed after the
    existing subjects, whose order and dictionaries are kept, and the new
    subject starts with the given name and game and an empty question
    bank. *)
Theorem create_subject_keeps_active user_id subject_name game w w1 a :
  active_subject (profile_of w user_id) = Some a ->
  create_subject user_id subject_name game w = (Ret true, w1) ->
  let k := subject_key_of subject_name in
  active_subject (profile_of w1 user_id) = Some a /\
  subjects (profile_of w1 user_id) =
    (subjects (profile_of w user_id) ++ [(k, length (heap w))])%list /\
  (forall l, l < length (heap w) -> heap w1 !! l = heap w !! l) /\
  heap w1 !! length (heap w) =
    Some (mkSubject (Some subject_name) (Some game) (Some true) (Some [])
                    None).
Proof.
  intros Ha Hrun k.
  apply create_subject_true in Hrun as (Hk & Hheap & Hprof).
  rewrite Ha in Hprof. unfold profile_of at 1 2. rewrite Hprof. simpl.
  split; [done|]. split.
  - apply set_absent. by apply mem_false.
  - rewrite Hheap. split.
    + intros l Hl. by rewrite lookup_app_l.
    + by rewrite list_lookup_middle.
Qed.

Lemma create_subject_keeps_active_witness :
  let w1 := snd (create_subject 7 "Chem" "Zelda" one_subject) in
  active_subject (profile_of w1 7) = Some "bio" /\
  Dict.keys (subjects (profile_of w1 7)) = ["bio"; "chem"].
Proof.
  intros w1.
  assert (Hrun : create_subject 7 "Chem" "Zelda" one_subject = (Ret true, w1))
    by (vm_compute; reflexivity).
  destruct (create_subject_keeps_active 7 "Chem" "Zelda" one_subject w1 "bio"
              eq_refl Hrun) as (H1 & H2 & _).
  split; [exact H1|]. rewrite H2. reflexivity.
Defined.

(** ** Listing the subjects *)

Lemma list_subjects_items_ok h active items :
  (forall k l, In (k, l) items ->
     exists n g, name (deref h l) = Some n /\ game (deref h l) = Some g) ->
  exists views,
    list_subjects_items h active items = Ret views /\
    List.map view_key views = Dict.keys items /\
    Forall2 (fun v kl =>
               view_key v = fst kl /\
               name (deref h (snd kl)) = Some (view_name v) /\
               game (deref h (snd kl)) = Some (view_game v) /\
               (view_active v = true <-> active = Some (fst kl)))
            views items.
Proof.
  induction items as [|[k l] r IH]; intros Hall; simpl.
  - exists []. by repeat split.
  - destruct (Hall k l) as (n & g & Hn & Hg); [by left|].
    destruct IH as (vs & -> & Hkeys & Hvs).
    { intros k' l' Hin. apply (Hall k' l'). by right. }
    rewrite Hn, Hg. eexists. split; [reflexivity|]. simpl.
    split; [by rewrite Hkeys|]. constructor; [|done]. simpl.
    split; [done|]. split; [done|]. split; [done|].
    split; [intros H%bool_decide_eq_true; done|].
    intros ->. by apply bool_decide_eq_true.
Qed.

(** X8: when every subject dictionary has its ["name"] and ["game"]
    entries, [list_subjects] changes nothing and returns one item per
    subject, in the order of insertion, with the key, the name and the game
    of that subject, and with [active] true exactly on the item whose key is
    the active subject. *)
Theorem list_subjects_in_order user_id w p :
  Dict.get (PyStr.str user_id) (profiles w) = Some p ->
  (forall k l, In (k, l) (subjects p) ->
     exists n g, name (deref (heap w) l) = Some n /\
                 game (deref (heap w) l) = Some g) ->
  exists views,
    list_subjects user_id w = (Ret views, w) /\
    List.map view_key views = Dict.keys (subjects p) /\
    Forall2 (fun v kl =>
               view_key v = fst kl /\
               name (deref (heap w) (snd kl)) = Some (view_name v) /\
               game (deref (heap w) (snd kl)) = Some (view_game v) /\
               (view_active v = true <-> active_subject p = Some (fst kl)))
            views (subjects p).
Proof.
  intros Hp Hall.
  destruct (list_subjects_items_ok (heap w) (active_subject p) (subjects p)
              Hall) as (views & Hrun & Hkeys & Hvs).
  exists views. split; [|done].
  unfold list_subjects.
  rewrite (bind_run _ _ _ _ _ (get_user_profile_known _ _ _ Hp)).
  unfold bind, get_world. by rewrite Hrun.
Qed.

Lemma list_subjects_in_order_witness :
  exists views,
    list_subjects 7 three_subjects = (Ret views, three_subjects) /\
    List.map view_key views = ["bio"; "chem"; "art"] /\
    List.map view_active views = [true; false; false].
Proof.
  destruct (list_subjects_in_order 7 three_subjects
              (mkProfile [("bio", 0); ("chem", 1); ("art", 2)] (Some "bio"))
              eq_refl) as (views & Hrun & Hkeys & _).
  { intros k l [[= <- <-]|[[= <- <-]|[[= <- <-]|[]]]];
      eexists _, _; split; reflexivity. }
  exists views. split; [exact Hrun|]. split; [exact Hkeys|].
  revert Hrun. vm_compute. intros [= <-]. reflexivity.
Defined.

(** ** Restarting on the profile file *)

Lemma load_subjects_spec js h :
  snd (load_subjects js h) = (h ++ Dict.values js)%list /\
  forall ext,
    List.map (fun kl => (fst kl, deref (snd (load_subjects js h) ++ ext)
                                       (snd kl)))
             (fst (load_subjects js h)) = js.
Proof.
  revert h. induction js as [|[k s] r IH]; intros h; simpl.
  - split; [by rewrite app_nil_r|done].
  - destruct (IH (h ++ [s])%list) as [Hh Hmap].
    destruct (load_subjects r (h ++ [s])%list) as [d h'] eqn:E. simpl in *.
    split; [by rewrite Hh, <- app_assoc|].
    intros ext. rewrite Hmap. f_equal. f_equal.
    rewrite Hh. unfold deref. rewrite <- !app_assoc. simpl.
    by rewrite list_lookup_middle.
Qed.

Lemma load_profiles_spec j h :
  (exists added, snd (load_profiles j h) = (h ++ added)%list) /\
  forall ext,
    table_json (snd (load_profiles j h) ++ ext) (fst (load_profiles j h))
    = j.
Proof.
  revert h. induction j as [|[u pj] r IH]; intros h; simpl.
  - split; [exists []; by rewrite app_nil_r|done].
  - destruct (load_subjects_spec (json_subjects pj) h) as [Hh1 Hmap].
    destruct (load_subjects (json_subjects pj) h) as [d h1] eqn:E1.
    destruct (IH h1) as [[added Hh2] Hjson].
    destruct (load_profiles r h1) as [ps h2] eqn:E2. simpl in *.
    split.
    + exists (Dict.values (json_subjects pj) ++ added)%list.
      by rewrite Hh2, Hh1, <- app_assoc.
    + intros ext. unfold table_json in *. simpl. rewrite Hjson. f_equal.
      f_equal. rewrite Hh2, <- app_assoc, Hmap. by destruct pj.
Qed.

(** X9: what a start that succeeds loads.  From a profile file that holds
    a table, exactly that table: written out again, the table in memory is
    the file, entry for entry and in the same order, and the file is not
    touched; in particular what a successful [_save_profiles] wrote is what
    the next process starts with.  From a file that does not parse, the
    empty table, without a word, the file staying as it is: so after a
    [_save_profiles] that failed once the file was open, the next process
    starts with no profile at all.  And when there is no file, the empty
    table, the file having been created with it. *)
Theorem restart_reads_profile_file w w' :
  UserProfileManager_init w = (Ret tt, w') ->
  (forall table,
     profiles_json w = Json table ->
     to_json (heap w') (profiles w') = Json table /\
     profiles_json w' = Json table) /\
  (profiles_json w = Garbled ->
   profiles w' = [] /\ profiles_json w' = Garbled) /\
  (profiles_json w = NoFile ->
   profiles w' = [] /\ profiles_json w' = Json []) /\
  (forall w0,
     _save_profiles w0 = (Ret tt, w) ->
     to_json (heap w') (profiles w') = to_json (heap w0) (profiles w0)) /\
  (forall w0,
     _save_profiles w0 = (Raise OSError, w) ->
     hd false (tl (faults w0)) = true ->
     profiles w' = []).
Proof.
  intros Hinit. apply init_inv in Hinit as [Hfile Hload].
  assert (Hjson : forall table,
            profiles_json w' = Json table ->
            to_json (heap w') (profiles w') = Json table).
  { intros table E. rewrite E in Hload. simpl in Hload.
    destruct (load_profiles_spec table []) as [_ Hjson].
    specialize (Hjson []). rewrite app_nil_r in Hjson.
    rewrite <- Hload in Hjson. simpl in Hjson. unfold to_json.
    by rewrite Hjson. }
  assert (Hempty : profiles_json w' = Garbled \/ profiles_json w' = Json [] ->
                   profiles w' = []).
  { intros [E|E]; rewrite E in Hload; by injection Hload. }
  split; [|split; [|split; [|split]]].
  - intros table E. rewrite E in Hfile. split; [by apply Hjson|done].
  - intros E. rewrite E in Hfile. split; [apply Hempty; by left|done].
  - intros E. rewrite E in Hfile. split; [apply Hempty; by right|done].
  - intros w0 Hsave.
    apply save_profiles_inv in Hsave as (_ & _ & _ & _ & _ & E).
    rewrite E in Hfile. unfold to_json in Hfile at 1. simpl in Hfile.
    by rewrite (Hjson _ Hfile).
  - intros w0 Hsave Htorn.
    apply save_profiles_inv in Hsave as (_ & _ & _ & _ & _ & _ & E).
    unfold after_failed_write in E. rewrite Htorn in E.
    rewrite E in Hfile. apply Hempty. by left.
Qed.

Lemma restart_reads_profile_file_witness :
  let w := snd (add_question_to_bank 7 "bio" "Why?" one_subject) in
  let torn := snd (add_question_to_bank 7 "bio" "Why?"
                     (with_faults [true; true] one_subject)) in
  (exists w',
     UserProfileManager_init w = (Ret tt, w') /\
     to_json (heap w') (profiles w') = profiles_json w /\
     bank_at w' 0 = ["Why?"]) /\
  (exists w',
     UserProfileManager_init torn = (Ret tt, w') /\
     bank_at torn 0 = ["Why?"] /\ profiles w' = []).
Proof.
  intros w torn. split.
  - assert (Hinit : UserProfileManager_init w
                    = (Ret tt, snd (UserProfileManager_init w)))
      by (vm_compute; reflexivity).
    exists (snd (UserProfileManager_init w)). split; [exact Hinit|].
    destruct (restart_reads_profile_file w _ Hinit) as (H & _).
    assert (E : exists table, profiles_json w = Json table)
      by (vm_compute; by eexists).
    destruct E as [table E]. destruct (H table E) as [H1 _].
    split; [by rewrite E|]. vm_compute. reflexivity.
  - assert (Hinit : UserProfileManager_init torn
                    = (Ret tt, snd (UserProfileManager_init torn)))
      by (vm_compute; reflexivity).
    exists (snd (UserProfileManager_init torn)). split; [exact Hinit|].
    split; [vm_compute; reflexivity|].
    destruct (restart_reads_profile_file torn _ Hinit) as (_ & H & _).
    apply H. vm_compute. reflexivity.
Defined.

(** ** The game used for mnemonics *)

(** X10: [get_subject_game] falls back to ["popular video games"] when the
    user has no active subject or the active subject's dictionary has no
    ["game"] entry; otherwise it returns that entry, so that after
    [set_subject_game] on the active subject's key it returns the game just
    set, whether or not the write succeeded. *)
Theorem get_subject_game_reads_active user_id w p k l s :
  Dict.get (PyStr.str user_id) (profiles w) = Some p ->
  active_subject p = Some k ->
  Dict.get k (subjects p) = Some l ->
  heap w !! l = Some s ->
  (forall u w0 w0', get_active_subject u w0 = (Ret None, w0') ->
                    get_subject_game u w0 = (Ret default_game, w0')) /\
  fst (get_subject_game user_id w) = Ret (default default_game (game s)) /\
  (forall g r w', set_subject_game user_id k g w = (r, w') ->
                  fst (get_subject_game user_id w') = Ret g).
Proof.
  intros Hp Ha Hl Hs.
  assert (Hrun : forall w0 s0,
            Dict.get (PyStr.str user_id) (profiles w0) = Some p ->
            heap w0 !! l = Some s0 ->
            fst (get_subject_game user_id w0)
            = Ret (default default_game (game s0))).
  { intros w0 s0 Hp0 Hs0. unfold get_subject_game.
    rewrite (bind_run _ _ _ _ _
               (get_active_subject_known _ _ p k l Hp0 Ha Hl)).
    unfold bind, get_world. simpl.
    by rewrite (deref_alter _ _ _ s0 Hs0). }
  split; [|split].
  - intros u w0 w0' H. unfold get_subject_game.
    by rewrite (bind_run _ _ _ _ _ H).
  - by apply Hrun.
  - intros g r w' Hset.
    rewrite (set_subject_game_run _ _ _ _ _ Hp), Hl in Hset.
    apply save_profiles_inv in Hset as (Hps & Hh & _).
    rewrite (Hrun w' (set_game g s)); [done| by rewrite Hps |].
    rewrite Hh. simpl. by rewrite list_lookup_alter_eq, Hs.
Qed.

Lemma get_subject_game_reads_active_witness :
  fst (get_subject_game 7 three_subjects) = Ret default_game /\
  fst (get_subject_game 7
         (snd (set_subject_game 7 "bio" "Zelda" three_subjects)))
  = Ret "Zelda".
Proof.
  destruct (get_subject_game_reads_active 7 three_subjects
              (mkProfile [("bio", 0); ("chem", 1); ("art", 2)] (Some "bio"))
              "bio" 0
              (mkSubject (Some "Bio") (Some default_game) (Some true)
                         (Some []) None)
              eq_refl eq_refl eq_refl eq_refl) as (_ & H1 & H2).
  split; [exact H1|].
  exact (H2 "Zelda" _ _ (surjective_pairing _)).
Defined.

(** ** Operations that leave the folder tree alone *)

Lemma keeps_ret {A} (a : A) : keeps_files (ret a).
Proof. by intros w. Qed.

Lemma keeps_raise {A} e : keeps_files (@raise A e).
Proof. by intros w. Qed.

Lemma keeps_bind {A B} (m : M A) (k : A -> M B) :
  keeps_files m -> (forall a, keeps_files (k a)) -> keeps_files (bind m k).
Proof.
  intros Hm Hk w. unfold bind. specialize (Hm w).
  destruct (m w) as [[a|e] w0]; simpl in *; [|done].
  by rewrite Hk.
Qed.

Lemma keeps_get_world : keeps_files get_world.
Proof. by intros w. Qed.

Lemma keeps_save : keeps_files _save_profiles.
Proof.
  intros w. destruct (_save_profiles w) as [r w'] eqn:E.
  by apply save_profiles_inv in E as (_ & _ & H & _).
Qed.

Lemma keeps_update_subject l f : keeps_files (update_subject l f).
Proof. by intros w. Qed.

Lemma keeps_update_profile u f : keeps_files (update_profile u f).
Proof. by intros w. Qed.

Lemma keeps_subject_key_at l : keeps_files (subject_key_at l).
Proof.
  intros w. unfold subject_key_at, bind, get_world.
  by destruct (key (deref (heap w) l)).
Qed.

Lemma keeps_subject_name_at l : keeps_files (subject_name_at l).
Proof.
  intros w. unfold subject_name_at, bind, get_world.
  by destruct (name (deref (heap w) l)).
Qed.

Lemma keeps_get_user_profile u : keeps_files (get_user_profile u).
Proof.
  intros w. destruct (get_user_profile u w) as [r w'] eqn:E.
  by apply get_user_profile_inv in E as (_ & H & _).
Qed.

Ltac keeps_files_with known :=
  repeat first
    [ apply keeps_ret | apply keeps_raise | apply keeps_get_world
    | apply keeps_save | apply keeps_update_subject
    | apply keeps_update_profile | apply keeps_subject_key_at
    | apply keeps_subject_name_at | apply keeps_get_user_profile
    | known
    | progress cbv zeta
    | apply keeps_bind; [|intros ?]
    | match goal with
      | |- keeps_files (match ?x with _ => _ end) => destruct x
      end ].

Ltac keeps_files_tac := keeps_files_with fail.

Lemma keeps_get_active_subject u : keeps_files (get_active_subject u).
Proof. unfold get_active_subject. keeps_files_tac. Qed.

Lemma keeps_get_question_bank u k : keeps_files (get_question_bank u k).
Proof. unfold get_question_bank. keeps_files_tac. Qed.

Lemma keeps_add_question_to_bank u k q :
  keeps_files (add_question_to_bank u k q).
Proof. unfold add_question_to_bank. keeps_files_tac. Qed.

Lemma keeps_remove_question_from_bank u k i :
  keeps_files (remove_question_from_bank u k i).
Proof. unfold remove_question_from_bank. keeps_files_tac. Qed.

Section KeepsFiles.

Variable pdf_reader : bytes -> option (list (option string)).

Lemma keeps_collect found acc : keeps_files (collect pdf_reader found acc).
Proof. intros w. by rewrite collect_run. Qed.

(** X11: of the methods of the two managers, only [create_subject],
    [delete_subject] and [save_attachment] touch the subject folders: every
    other method of the profile manager and of the document manager, the
    game lookup and the two question commands leave every directory and
    every stored document as it was, whatever they return or raise.  (The
    profile file is kept apart from the folder tree in this development.) *)
Theorem only_three_operations_touch_the_folders :
  (forall u, keeps_files (get_user_profile u)) /\
  (forall u n, keeps_files (set_active_subject u n)) /\
  (forall u, keeps_files (get_active_subject u)) /\
  (forall u k g, keeps_files (set_subject_game u k g)) /\
  (forall u k q, keeps_files (add_question_to_bank u k q)) /\
  (forall u k, keeps_files (get_question_bank u k)) /\
  (forall u k i, keeps_files (remove_question_from_bank u k i)) /\
  (forall u, keeps_files (list_subjects u)) /\
  (forall u t, keeps_files (list_files u t)) /\
  (forall u, keeps_files (get_all_lectures_with_names pdf_reader u)) /\
  (forall u, keeps_files (get_all_practice_tests_with_names pdf_reader u)) /\
  (forall p, keeps_files (extract_text_from_pdf pdf_reader p)) /\
  (forall u, keeps_files (get_subject_game u)) /\
  (forall u q, keeps_files (add_question u q)) /\
  (forall u n, keeps_files (remove_question u n)).
Proof.
  repeat split; intros;
    try (intros w; by rewrite extract_text_from_pdf_run);
    unfold set_active_subject, set_subject_game, list_subjects, list_files,
      get_all_lectures_with_names, get_all_practice_tests_with_names,
      get_all_with_names, get_subject_game, add_question, remove_question;
    keeps_files_with
      ltac:(first [ apply keeps_get_active_subject
                  | apply keeps_get_question_bank
                  | apply keeps_add_question_to_bank
                  | apply keeps_remove_question_from_bank
                  | apply keeps_collect ]).
Qed.

End KeepsFiles.

Lemma save_attachment_inv attachment user_id folder_type w r w' :
  save_attachment attachment user_id folder_type w = (r, w') ->
  (r = Ret true /\ PyStr.endswith (filename attachment) ".pdf" = true /\
   exists data, payload attachment = Some data) \/
  (r <> Ret true /\ fsys w' = fsys w).
Proof.
  unfold save_attachment.
  destruct (PyStr.endswith (filename attachment) ".pdf"); simpl;
    [|intros [= <- <-]; by right].
  unfold bind at 1.
  pose proof (keeps_get_active_subject user_id w) as Ha.
  destruct (get_active_subject user_id w) as [[[l|]|e] w0]; simpl in Ha;
    [|intros [= <- <-]; by right|intros [= <- <-]; by right].
  unfold bind at 1.
  pose proof (keeps_subject_key_at l w0) as Hk.
  destruct (subject_key_at l w0) as [[k|e] w1]; simpl in Hk;
    [|intros [= <- <-]; right; split; [done|congruence]].
  unfold try_except, attachment_save.
  destruct (payload attachment) as [data|]; simpl;
    [|intros [= <- <-]; right; split; [done|congruence]].
  unfold bind.
  destruct (fs_call _ w1) as [[[]|e] w2] eqn:Hcall; simpl;
    intros [= <- <-].
  - left. split; [done|]. split; [done|]. by exists data.
  - apply fs_call_inv in Hcall as (_ & _ & _ & _ & _ & _ & Hfs).
    right. split; [done|congruence].
Qed.

Lemma save_attachment_true_inv attachment user_id folder_type w w' :
  save_attachment attachment user_id folder_type w = (Ret true, w') ->
  PyStr.endswith (filename attachment) ".pdf" = true /\
  exists k data,
    active_subject (profile_of w user_id) = Some k /\
    payload attachment = Some data /\
    FS.write_file (document_path user_id k folder_type attachment) data
                  (fsys w) = Some (fsys w').
Proof.
  unfold save_attachment.
  destruct (PyStr.endswith (filename attachment) ".pdf"); simpl; [|done].
  unfold get_active_subject. unfold bind at 1. unfold bind at 1.
  destruct (get_user_profile user_id w) as [[p|e] w0] eqn:Hg; [|done].
  destruct (get_user_profile_inv _ _ _ _ Hg) as (_ & Hfs & _ & Hp).
  destruct (Hp p eq_refl) as [-> _].
  destruct (active_subject (profile_of w user_id)) as [k|]; [|done].
  destruct (Dict.get k _) as [l|]; [|done].
  unfold bind at 1. unfold bind at 1. rewrite update_subject_run.
  unfold bind at 1, subject_key_at, bind at 1, get_world at 1.
  unfold ret at 1. cbv beta iota.
  unfold deref.
  change (heap (with_heap (alter (set_key k) l (heap w0)) w0))
    with (alter (set_key k) l (heap w0)).
  rewrite list_lookup_alter_eq.
  destruct (heap w0 !! l) as [s|]; simpl; [|done].
  unfold try_except, attachment_save.
  destruct (payload attachment) as [data|]; simpl; [|done].
  unfold fs_call, bind, get_world, set_fsys, raise, ret.
  change (fsys (with_heap (alter (set_key k) l (heap w0)) w0))
    with (fsys w0).
  rewrite Hfs. unfold document_path, collection_path.
  destruct (FS.write_file _ data (fsys w)) as [fs|] eqn:Hw; simpl; [|done].
  intros [= <-]. split; [done|]. by exists k, data.
Qed.

(** X12: an upload that returns [True] had a name ending in [.pdf], an
    active subject and a download that succeeded, and has written the
    downloaded bytes to the path of the document.  An upload that is stopped
    before the file is opened has changed no file and no directory and has
    not returned [True]: this is so when the name does not end in [.pdf],
    when the user has no active subject, when the download fails, when the
    directory that is to hold the document is missing and when the path of
    the document is a directory. *)
Theorem save_attachment_stopped_before_open
    attachment user_id folder_type w r w' :
  save_attachment attachment user_id folder_type w = (r, w') ->
  (r = Ret true ->
   PyStr.endswith (filename attachment) ".pdf" = true /\
   exists k data,
     active_subject (profile_of w user_id) = Some k /\
     payload attachment = Some data /\
     FS.write_file (document_path user_id k folder_type attachment) data
                   (fsys w) = Some (fsys w')) /\
  (PyStr.endswith (filename attachment) ".pdf" = false \/
   active_subject (profile_of w user_id) = None \/
   payload attachment = None \/
   (exists k,
      active_subject (profile_of w user_id) = Some k /\
      (FS.is_dir (PyPath.parent (document_path user_id k folder_type
                                               attachment)) (fsys w) = false \/
       FS.is_dir (document_path user_id k folder_type attachment) (fsys w)
       = true)) ->
   r <> Ret true /\ fsys w' = fsys w).
Proof.
  intros Hrun. split.
  { intros ->. by apply save_attachment_true_inv in Hrun. }
  intros Hcause.
  assert (Hr : r <> Ret true).
  { intros ->. apply save_attachment_true_inv in Hrun
      as (Hpdf & k & data & Hk & Hdata & Hwrite).
    destruct Hcause as [H|[H|[H|(k' & Hk' & H)]]]; try congruence.
    assert (k' = k) as -> by congruence.
    revert Hwrite. unfold FS.write_file.
    destruct H as [->| ->]; [done|].
    by rewrite andb_false_r. }
  split; [done|].
  apply save_attachment_inv in Hrun as [(-> & _)|(_ & Hfs)]; done.
Qed.

Lemma save_attachment_stopped_before_open_witness :
  fsys (snd (save_attachment (mkAttachment "notes.pdf" None) 7 "lecture"
                             one_subject))
  = fsys one_subject /\
  fst (save_attachment notes_v1 7 "lecture"
                       (with_fsys (mkFS [] []) one_subject)) = Ret false.
Proof.
  split.
  - apply (save_attachment_stopped_before_open
             (mkAttachment "notes.pdf" None) 7 "lecture" one_subject _ _
             (surjective_pairing _)).
    right. right. left. reflexivity.
  - destruct (save_attachment_stopped_before_open
                notes_v1 7 "lecture" (with_fsys (mkFS [] []) one_subject) _ _
                (surjective_pairing _)) as (_ & H).
    destruct H as (_ & _).
    + right. right. right. exists "bio". split; [reflexivity|].
      left. vm_compute. reflexivity.
    + vm_compute. reflexivity.
Defined.

(** ** The documents of a collection and their listing *)

Lemma keys_set {V} k (v : V) d n :
  In n (Dict.keys (Dict.set k v d)) <-> n = k \/ In n (Dict.keys d).
Proof.
  unfold Dict.keys. induction d as [|[k' v'] r IH]; simpl.
  - split; intros [H|H]; auto.
  - destruct (String.eqb k k') eqn:E; simpl.
    + apply String.eqb_eq in E. subst k'.
      split; [intros [H|H]; auto|intros [H|[H|H]]; auto].
    + rewrite IH. split; [intros [H|[H|H]]; auto|intros [H|[H|H]]; auto].
Qed.

Lemma fold_add_keys rd fs found acc n :
  In n (Dict.keys (fold_left (add_document rd fs) found acc)) <->
  In n (Dict.keys acc) \/ In n (List.map PyPath.stem found).
Proof.
  revert acc. induction found as [|q rest IH]; intros acc; simpl;
    [tauto|].
  rewrite IH. unfold add_document. rewrite keys_set.
  split; [intros [[H|H]|H]; auto|intros [H|[H|H]]; auto].
Qed.

(** X13: for a user with an active subject, [list_files] and the mapping of
    the same collection name the same documents: a name is listed exactly
    when it is a key of the mapping.  The collection is the lectures for the
    folder type ["lecture"] and the practice tests for any other folder
    type, and both calls leave the same state behind. *)
Theorem list_files_names_the_mapping rd user_id folder_type w p k l s :
  Dict.get (PyStr.str user_id) (profiles w) = Some p ->
  active_subject p = Some k ->
  Dict.get k (subjects p) = Some l ->
  heap w !! l = Some s ->
  let mapping :=
    if String.eqb folder_type "lecture"
    then get_all_lectures_with_names rd user_id
    else get_all_practice_tests_with_names rd user_id in
  exists names m,
    list_files user_id folder_type w = (Ret names, keyed w k l) /\
    mapping w = (Ret m, keyed w k l) /\
    (forall n, In n names <-> In n (Dict.keys m)).
Proof.
  intros Hp Ha Hl Hs mapping. eexists _, _.
  split; [exact (list_files_run _ folder_type _ _ _ _ _ Hp Ha Hl Hs)|].
  assert (Hm : mapping w =
    (Ret (fold_left (add_document rd (fsys w))
            (FS.glob_pdf (collection_path user_id k folder_type) (fsys w))
            Dict.empty), keyed w k l)).
  { unfold mapping, collection_path, folder_of,
      get_all_lectures_with_names, get_all_practice_tests_with_names.
    destruct (String.eqb folder_type "lecture");
      exact (get_all_with_names_run rd _ _ _ _ _ _ _ Hp Ha Hl Hs). }
  split; [exact Hm|].
  intros n. rewrite fold_add_keys. simpl. tauto.
Qed.

Lemma list_files_names_the_mapping_witness :
  exists names m,
    fst (list_files 7 "practice" two_documents) = Ret names /\
    fst (get_all_practice_tests_with_names sample_reader 7 two_documents)
      = Ret m /\
    (forall n, In n names <-> In n (Dict.keys m)).
Proof.
  destruct (list_files_names_the_mapping sample_reader 7 "practice"
              two_documents (mkProfile [("bio", 0)] (Some "bio")) "bio" 0
              (mkSubject (Some "Bio") (Some default_game) (Some true)
                         (Some []) (Some "bio"))
              eq_refl eq_refl eq_refl eq_refl)
    as (names & m & H1 & H2 & H3).
  exists names, m. split; [by rewrite H1|]. split; [|exact H3].
  change (get_all_practice_tests_with_names sample_reader 7 two_documents
          = (Ret m, keyed two_documents "bio" 0)) in H2.
  by rewrite H2.
Defined.

(** ** The text of a document *)

Lemma append_assoc (a b c : string) : (a +:+ b) +:+ c = a +:+ b +:+ c.
Proof.
  induction a as [|x a IH]; [done|].
  change (String x ((a +:+ b) +:+ c) = String x (a +:+ b +:+ c)).
  by rewrite IH.
Qed.

Lemma append_empty_r (a : string) : a +:+ "" = a.
Proof.
  induction a as [|x a IH]; [done|].
  change (String x (a +:+ "") = String x a). by rewrite IH.
Qed.

Lemma append_empty_l (a : string) : "" +:+ a = a.
Proof. reflexivity. Qed.

Lemma extract_pages_acc pages text :
  extract_pages pages text = text +:+ extract_pages pages "".
Proof.
  revert text. induction pages as [|[t|] rest IH]; intros text; simpl.
  - by rewrite append_empty_r.
  - rewrite append_empty_l, (IH (text +:+ t +:+ PyStr.newline)),
            (IH (t +:+ PyStr.newline)).
    by rewrite append_assoc.
  - by rewrite append_empty_r.
Qed.

Lemma extract_pages_until_failure ts tail :
  tail = [] \/ (exists rest, tail = None :: rest) ->
  extract_pages (List.map Some ts ++ tail) "" = pages_text ts.
Proof.
  intros Htail. induction ts as [|t ts IH]; simpl.
  - by destruct Htail as [->|(rest & ->)].
  - rewrite append_empty_l, extract_pages_acc, IH.
    by rewrite append_assoc.
Qed.

(** X14: [extract_text_from_pdf] never raises and changes nothing.  For a
    file that the reader splits into pages, the text is that of the pages
    in order, each followed by a newline, up to the first page whose
    extraction raises: the text read before that page is kept and the pages
    after it are dropped.  A file that cannot be opened, or that the reader
    rejects, gives the empty text. *)
Theorem extract_text_reads_until_first_failure rd q w :
  (exists text, extract_text_from_pdf rd q w = (Ret text, w)) /\
  (forall data ts tail,
     FS.read_file q (fsys w) = Some data ->
     rd data = Some (List.map Some ts ++ tail)%list ->
     tail = [] \/ (exists rest, tail = None :: rest) ->
     fst (extract_text_from_pdf rd q w) = Ret (pages_text ts)) /\
  (FS.read_file q (fsys w) = None \/
   (exists data, FS.read_file q (fsys w) = Some data /\ rd data = None) ->
   fst (extract_text_from_pdf rd q w) = Ret "").
Proof.
  rewrite extract_text_from_pdf_run. unfold extracted_text.
  split; [by eexists|]. split.
  - intros data ts tail -> -> Htail. simpl.
    by rewrite extract_pages_until_failure.
  - intros [->|(data & -> & ->)]; done.
Qed.

Lemma extract_text_reads_until_first_failure_witness :
  fst (extract_text_from_pdf sample_reader
         (document_path 7 "bio" "lecture" notes_v1) one_document)
  = Ret (pages_text ["hello"; "world"]).
Proof.
  destruct (extract_text_reads_until_first_failure sample_reader
              (document_path 7 "bio" "lecture" notes_v1) one_document)
    as (_ & H & _).
  apply (H [Byte.x01] ["hello"; "world"] []).
  - vm_compute. reflexivity.
  - reflexivity.
  - by left.
Defined.

(** ** The folders of a subject *)

Lemma keeps_alloc s : keeps_files (alloc s).
Proof. by intros w. Qed.

Lemma bind_keeps_tail {A B} (m : M A) (k : A -> M B) w :
  (forall a, keeps_files (k a)) ->
  fsys (snd (bind m k w)) = fsys (snd (m w)).
Proof.
  intros Hk. unfold bind. destruct (m w) as [[a|e] w0]; simpl; [|done].
  apply Hk.
Qed.

Lemma find_filter_under p q (l : list (Path * bytes)) :
  List.find (fun e : Path * bytes => bool_decide (fst e = q))
            (List.filter (fun e => negb (PyPath.under p (fst e))) l)
  = if PyPath.under p q then None
    else List.find (fun e : Path * bytes => bool_decide (fst e = q)) l.
Proof.
  induction l as [|[a d] r IH]; simpl; [by destruct (PyPath.under p q)|].
  destruct (PyPath.under p a) eqn:Ea; simpl.
  - rewrite IH. case_bool_decide as E; [|done]. subst a. by rewrite Ea.
  - case_bool_decide as E; [|exact IH]. subst a. by rewrite Ea.
Qed.

Lemma delete_subject_fsys user_id subject_name w p r w' :
  Dict.get (PyStr.str user_id) (profiles w) = Some p ->
  Dict.mem (subject_key_of subject_name) (subjects p) = true ->
  FS.is_dir (subject_folder user_id subject_name) (fsys w) = true ->
  FS.is_file (subject_folder user_id subject_name) (fsys w) = false ->
  delete_subject user_id subject_name w = (r, w') ->
  FS.rmtree (subject_folder user_id subject_name) (fsys w) = Some (fsys w').
Proof.
  intros Hp Hk Hdir Hfile Hrun.
  replace (fsys w') with
    (fsys (snd (delete_subject user_id subject_name w)))
    by (by rewrite Hrun).
  unfold delete_subject.
  rewrite (bind_run _ _ _ _ _ (get_user_profile_known _ _ _ Hp)), Hk.
  cbv beta iota zeta delta [negb].
  rewrite bind_keeps_tail
    by (intros ?; keeps_files_tac).
  unfold bind, get_world, FS.exists_.
  fold (subject_folder user_id subject_name). rewrite Hdir. simpl.
  unfold fs_call, bind, get_world, FS.rmtree. rewrite Hfile. done.
Qed.

(** X15: when [delete_subject] removes a subject whose folder is a
    directory, in a tree whose entries name their places directly as the
    folder does, every file and every directory in the tree of that folder
    is gone afterwards, the folder itself included, and every file and
    directory outside that tree is as it was.  This holds whether or not
    the write of the profile file that follows succeeds. *)
Theorem delete_subject_removes_folder user_id subject_name w p r w' :
  Dict.get (PyStr.str user_id) (profiles w) = Some p ->
  Dict.mem (subject_key_of subject_name) (subjects p) = true ->
  PyPath.plain (subject_folder user_id subject_name) = true ->
  FS.plain_tree (fsys w) = true ->
  FS.is_dir (subject_folder user_id subject_name) (fsys w) = true ->
  FS.is_file (subject_folder user_id subject_name) (fsys w) = false ->
  delete_subject user_id subject_name w = (r, w') ->
  FS.plain_tree (fsys w') = true /\
  forall q,
    (PyPath.under (subject_folder user_id subject_name) q = true ->
     FS.read_file q (fsys w') = None /\ ~ In q (dirs (fsys w'))) /\
    (PyPath.plain q = true ->
     PyPath.under (subject_folder user_id subject_name) q = false ->
     FS.read_file q (fsys w') = FS.read_file q (fsys w) /\
     (In q (dirs (fsys w')) <-> In q (dirs (fsys w)))).
Proof.
  intros Hp Hk Hplain Htree Hdir Hfile Hrun.
  pose proof (delete_subject_fsys _ _ _ _ _ _ Hp Hk Hdir Hfile Hrun) as Hfs.
  unfold FS.rmtree in Hfs. rewrite Hfile in Hfs. injection Hfs as Hfs.
  rewrite <- Hfs. split.
  { revert Htree. unfold FS.plain_tree. simpl.
    rewrite !andb_true_iff, !forallb_forall.
    intros [Hd Hf]. split; intros x Hx; apply filter_In in Hx as [Hx _]; auto. }
  intros q. unfold FS.read_file. simpl. rewrite find_filter_under.
  split; [intros Hq|intros _ Hq]; rewrite Hq.
  - split; [done|]. intros Hin. apply filter_In in Hin as [_ Hin].
    by rewrite Hq in Hin.
  - split; [done|]. rewrite filter_In, Hq. simpl. tauto.
Qed.

Lemma delete_subject_removes_folder_witness :
  let w' := snd (delete_subject 7 "Bio" one_document) in
  FS.read_file (document_path 7 "bio" "lecture" notes_v1) (fsys one_document)
    = Some [Byte.x01] /\
  FS.read_file (document_path 7 "bio" "lecture" notes_v1) (fsys w') = None /\
  In base_path (dirs (fsys w')).
Proof.
  intros w'. split; [vm_compute; reflexivity|].
  assert (Hrun : delete_subject 7 "Bio" one_document
                 = (fst (delete_subject 7 "Bio" one_document), w'))
    by apply surjective_pairing.
  assert (Hp : Dict.get (PyStr.str 7) (profiles one_document)
               = Some (mkProfile [("bio", 0)] (Some "bio")))
    by (vm_compute; reflexivity).
  assert (Hplain : PyPath.plain (subject_folder 7 "Bio") = true)
    by (vm_compute; reflexivity).
  assert (Htree : FS.plain_tree (fsys one_document) = true)
    by (vm_compute; reflexivity).
  assert (Hdir : FS.is_dir (subject_folder 7 "Bio") (fsys one_document)
                 = true) by (vm_compute; reflexivity).
  assert (Hfile : FS.is_file (subject_folder 7 "Bio") (fsys one_document)
                  = false) by (vm_compute; reflexivity).
  destruct (delete_subject_removes_folder 7 "Bio" one_document _ _ _
              Hp eq_refl Hplain Htree Hdir Hfile Hrun) as [_ H].
  split.
  - destruct (H (document_path 7 "bio" "lecture" notes_v1)) as [Hin _].
    assert (Hu : PyPath.under (subject_folder 7 "Bio")
                   (document_path 7 "bio" "lecture" notes_v1) = true)
      by (vm_compute; reflexivity).
    destruct (Hin Hu) as [Hgone _]. exact Hgone.
  - destruct (H base_path) as [_ Hout].
    assert (Hq : PyPath.plain base_path = true) by (vm_compute; reflexivity).
    assert (Hu : PyPath.under (subject_folder 7 "Bio") base_path = false)
      by (vm_compute; reflexivity).
    destruct (Hout Hq Hu) as [_ [_ Hd]]. apply Hd.
    assert (Hb : In base_path (dirs (fsys one_document)))
      by (vm_compute; auto).
    exact Hb.
Defined.

(** ** From a new subject to its first document *)

Lemma is_dir_In p fs :
  parts p <> [] -> FS.is_dir p fs = true <-> In p (dirs fs).
Proof.
  intros Hp. unfold FS.is_dir. destruct (parts p); [done|].
  rewrite bool_decide_eq_true. apply list_elem_of_In.
Qed.

Lemma ancestors_self p : parts p <> [] -> In p (FS.ancestors p).
Proof.
  intros Hp. unfold FS.ancestors. apply in_map_iff.
  exists (length (parts p)). split.
  - rewrite firstn_all. by destruct p.
  - apply in_seq. destruct (parts p); [done|]. simpl. lia.
Qed.

Lemma ancestors_length p a :
  In a (FS.ancestors p) -> length (parts a) <= length (parts p).
Proof.
  unfold FS.ancestors. intros H. apply in_map_iff in H as (n & <- & _).
  simpl. rewrite length_take. lia.
Qed.

Lemma mkdir_p_inv q fs fs' :
  FS.mkdir_p q fs = Some fs' ->
  files fs' = files fs /\
  FS.is_dir q fs' = true /\
  (forall d, In d (dirs fs) -> In d (dirs fs')) /\
  (forall d, In d (dirs fs') -> In d (dirs fs) \/ In d (FS.ancestors q)).
Proof.
  unfold FS.mkdir_p. destruct (existsb _ _); [done|]. intros [= <-]. simpl.
  split; [done|]. split; [|split].
  - destruct (parts q) as [|c r] eqn:Hq; [unfold FS.is_dir; by rewrite Hq|].
    assert (Hne : parts q <> []) by (by rewrite Hq).
    apply is_dir_In; [done|]. simpl. apply in_or_app.
    destruct (FS.is_dir q fs) eqn:Hd.
    + left. by apply is_dir_In.
    + right. apply filter_In. split; [by apply ancestors_self|].
      by rewrite Hd.
  - intros d Hd. apply in_or_app. by left.
  - intros d Hd. apply in_app_or in Hd as [Hd|Hd]; [by left|].
    apply filter_In in Hd as [Hd _]. by right.
Qed.

Lemma is_dir_mono p fs fs' :
  (forall d, In d (dirs fs) -> In d (dirs fs')) ->
  FS.is_dir p fs = true -> FS.is_dir p fs' = true.
Proof.
  intros Hsub. destruct (parts p) as [|c r] eqn:Hp;
    [unfold FS.is_dir; by rewrite Hp|].
  assert (Hne : parts p <> []) by (by rewrite Hp).
  rewrite !is_dir_In by done. apply Hsub.
Qed.

Lemma create_subject_folders user_id subject_name game w w1 :
  create_subject user_id subject_name game w = (Ret true, w1) ->
  exists fs1,
    FS.mkdir_p (subject_folder user_id subject_name // "lectures") (fsys w)
      = Some fs1 /\
    FS.mkdir_p (subject_folder user_id subject_name // "practice_tests") fs1
      = Some (fsys w1).
Proof.
  unfold create_subject. unfold bind at 1.
  destruct (get_user_profile user_id w) as [[p|e] w0] eqn:Hg; [|done].
  apply get_user_profile_inv in Hg as (_ & Hfs & _).
  destruct (Dict.mem _ _); [done|].
  unfold bind at 1.
  destruct (fs_call _ w0) as [[[]|e] wa] eqn:Ha; [|done].
  apply fs_call_inv in Ha as (_ & _ & _ & _ & Ha).
  unfold bind at 1.
  destruct (fs_call _ wa) as [[[]|e] wb] eqn:Hb; [|done].
  apply fs_call_inv in Hb as (_ & _ & _ & _ & Hb).
  intros Hrun. exists (fsys wa). rewrite <- Hfs. split; [exact Ha|].
  etransitivity; [exact Hb|]. f_equal.
  match type of Hrun with ?m wb = _ =>
    assert (Hk : keeps_files m)
      by (keeps_files_with ltac:(apply keeps_alloc));
    specialize (Hk wb); rewrite Hrun in Hk; by rewrite <- Hk
  end.
Qed.



(** ** Long replies are sent in pieces *)

Lemma substring_empty i n : substring i n "" = "".
Proof. by destruct i, n. Qed.

Lemma substring_nothing s : forall i, substring i 0 s = "".
Proof.
  induction s as [|c s IH]; intros i; [by destruct i|].
  destruct i as [|i]; simpl; [done|apply IH].
Qed.

Lemma substring_add s : forall i a b,
  substring i (a + b) s = substring i a s +:+ substring (i + a) b s.
Proof.
  induction s as [|c s IH]; intros i a b.
  - by rewrite !substring_empty.
  - destruct i as [|i]; simpl.
    + destruct a as [|a]; simpl; [done|].
      change (String c (substring 0 (a + b) s)
              = String c (substring 0 a s +:+ substring a b s)).
      by rewrite (IH 0 a b).
    + apply IH.
Qed.

Lemma substring_whole s : forall n,
  String.length s <= n -> substring 0 n s = s.
Proof.
  induction s as [|c s IH]; intros n Hn; [by destruct n|].
  destruct n as [|n]; simpl in *; [lia|]. rewrite IH; [done|lia].
Qed.

Lemma length_substring s : forall i n,
  String.length (substring i n s) = Nat.min n (String.length s - i).
Proof.
  induction s as [|c s IH]; intros i n.
  - rewrite substring_empty. simpl. lia.
  - destruct i as [|i]; simpl.
    + destruct n as [|n]; simpl; [done|]. rewrite IH. simpl. lia.
    + apply IH.
Qed.

Section Chunks.

Variable size : nat.
Hypothesis size_pos : 0 < size.

Lemma pieces_concat text : forall k a,
  concat_text (List.map (fun i => slice text i (i + size))
                        (List.map (fun j => j * size) (seq a k)))
  = substring (a * size) (k * size) text.
Proof.
  induction k as [|k IH]; intros a; simpl.
  - by rewrite substring_nothing.
  - rewrite IH. unfold slice.
    replace (a * size + size - a * size) with size by lia.
    replace (S a * size) with (a * size + size) by lia.
    by rewrite <- substring_add.
Qed.

Lemma range_covers n :
  n <= (n + size - 1) / size * size /\
  forall j, j < (n + size - 1) / size -> j * size < n.
Proof.
  pose proof (Nat.div_mod_eq (n + size - 1) size) as Hdiv.
  pose proof (Nat.mod_upper_bound (n + size - 1) size ltac:(lia)) as Hmod.
  split; [nia|]. intros j Hj. nia.
Qed.

Lemma pieces_cover text :
  let pieces := List.map (fun i => slice text i (i + size))
                         (py_range (String.length text) size) in
  concat_text pieces = text /\
  Forall (fun c => 1 <= String.length c <= size) pieces /\
  length pieces = (String.length text + size - 1) / size.
Proof.
  destruct (range_covers (String.length text)) as [Hall Hin].
  simpl. unfold py_range. split; [|split].
  - rewrite pieces_concat. simpl. by apply substring_whole.
  - apply Forall_forall. intros c Hc.
    apply in_map_iff in Hc as (i & <- & Hi).
    apply in_map_iff in Hi as (j & <- & Hj).
    apply in_seq in Hj. specialize (Hin j ltac:(lia)).
    unfold slice. rewrite length_substring. lia.
  - by rewrite !length_map, length_seq.
Qed.

End Chunks.

(** X17: the pieces in which a generated text is sent are the text: put
    together in order they give it back, none is empty and none is longer
    than 1900 characters, and there are as many as the length divided by
    1900, rounded up; so an empty text is sent as no message at all. *)
Theorem chunks_cover_the_reply text :
  concat_text (chunks text) = text /\
  Forall (fun c => 1 <= String.length c <= 1900) (chunks text) /\
  length (chunks text) = (String.length text + 1899) / 1900 /\
  (chunks text = [] <-> text = "").
Proof.
  assert (Hpos : 0 < chunk_size) by (unfold chunk_size; lia).
  destruct (pieces_cover chunk_size Hpos text) as (Hcat & Hlen & Hnum).
  fold (chunks text) in Hcat, Hlen, Hnum.
  split; [exact Hcat|]. split; [exact Hlen|]. split.
  - rewrite Hnum. f_equal. unfold chunk_size. lia.
  - split.
    + intros Hnil. by rewrite Hnil in Hcat.
    + intros ->. reflexivity.
Qed.

(** ** The numbers shown by [!questions] *)

Lemma question_fields_lookup qs : forall i0 i q,
  qs !! i = Some q ->
  question_fields i0 qs !! i
  = Some ("#" +:+ PyStr.str (Z.of_nat (i0 + i) + 1), display_question q).
Proof.
  induction qs as [|q0 qs IH]; intros i0 i q Hq; [done|].
  destruct i as [|i]; simpl in *.
  - injection Hq as ->. by rewrite Nat.add_0_r.
  - rewrite (IH (S i0) i q Hq). do 4 f_equal. lia.
Qed.

Lemma question_fields_length qs : forall i0,
  length (question_fields i0 qs) = length qs.
Proof. induction qs as [|q qs IH]; intros i0; simpl; [done|]. by rewrite IH. Qed.

Lemma list_questions_run user_id w p k l s :
  Dict.get (PyStr.str user_id) (profiles w) = Some p ->
  active_subject p = Some k ->
  Dict.get k (subjects p) = Some l ->
  heap w !! l = Some s ->
  list_questions user_id w =
  (match name s with
   | None => Raise (KeyError "name")
   | Some nm =>
       match default [] (question_bank s) with
       | [] => Ret (QuestionsEmpty nm)
       | qs => Ret (QuestionsEmbed nm (question_fields 0 qs))
       end
   end, keyed w k l).
Proof.
  intros Hp Ha Hl Hs. unfold list_questions.
  rewrite (bind_run _ _ _ _ _ (active_subject_step _ _ p _ _ Hp Ha Hl)).
  rewrite (bind_run _ _ _ k (keyed w k l))
    by (apply subject_key_at_known; by rewrite (deref_keyed _ _ _ s Hs)).
  rewrite (bind_run _ _ _ _ _
             (get_question_bank_known _ _ (keyed w k l) p l Hp Hl)).
  unfold bind. rewrite subject_name_at_run.
  rewrite (bank_at_keyed _ _ _ s Hs), (deref_keyed _ _ _ s Hs). simpl.
  destruct (name s); [|done]. by destruct (default [] (question_bank s)).
Qed.

(** X18: for a user with an active subject, [!questions] shows one field
    for every question of the bank, in the order of the bank, the field of
    the question at position [i] being named [#i+1]; a question of at most
    100 characters is shown whole, a longer one as its first 100 characters
    followed by three dots.  The number shown is the one that [!removeq]
    takes: removing the number of a field right after the listing removes
    exactly the question shown in that field. *)
Theorem list_questions_numbers_match_removeq user_id w p k l s :
  Dict.get (PyStr.str user_id) (profiles w) = Some p ->
  active_subject p = Some k ->
  Dict.get k (subjects p) = Some l ->
  heap w !! l = Some s ->
  let qs := default [] (question_bank s) in
  (forall nm q0 rest, name s = Some nm -> qs = q0 :: rest ->
     list_questions user_id w
     = (Ret (QuestionsEmbed nm (question_fields 0 qs)), keyed w k l)) /\
  (forall nm, name s = Some nm -> qs = [] ->
     list_questions user_id w = (Ret (QuestionsEmpty nm), keyed w k l)) /\
  length (question_fields 0 qs) = length qs /\
  (forall i q, qs !! i = Some q ->
     question_fields 0 qs !! i
     = Some ("#" +:+ PyStr.str (Z.of_nat i + 1), display_question q) /\
     (String.length q <= 100 -> display_question q = q) /\
     (100 < String.length q ->
      display_question q = substring 0 100 q +:+ "..." /\
      String.length (substring 0 100 q) = 100)) /\
  (forall i q r1 w1 r2 w2, qs !! i = Some q ->
     list_questions user_id w = (r1, w1) ->
     remove_question user_id (Z.of_nat i + 1) w1 = (r2, w2) ->
     bank_at w2 l = delete i qs).
Proof.
  intros Hp Ha Hl Hs qs.
  pose proof (list_questions_run _ _ _ _ _ _ Hp Ha Hl Hs) as Hrun.
  fold qs in Hrun.
  split; [|split; [|split; [|split]]].
  - intros nm q0 rest Hnm Hqs. by rewrite Hrun, Hnm, Hqs.
  - intros nm Hnm Hqs. by rewrite Hrun, Hnm, Hqs.
  - apply question_fields_length.
  - intros i q Hq. split; [exact (question_fields_lookup qs 0 i q Hq)|].
    unfold display_question, slice. split.
    + intros Hlen. by rewrite (proj2 (Nat.ltb_ge _ _) Hlen).
    + intros Hlen. rewrite (proj2 (Nat.ltb_lt _ _) Hlen).
      split; [done|]. rewrite length_substring. lia.
  - intros i q r1 w1 r2 w2 Hq Hlist Hrem.
    rewrite Hrun in Hlist. injection Hlist as _ <-.
    assert (Hs1 : heap (keyed w k l) !! l = Some (set_key k s))
      by (simpl; by rewrite list_lookup_alter_eq, Hs).
    assert (Hi : i < length qs) by (by apply lookup_lt_is_Some; eexists).
    rewrite (remove_question_in_range user_id (keyed w k l) p k l _
               Hp Ha Hl Hs1 (Z.of_nat i + 1)) in Hrem
      by (simpl; fold qs; lia).
    assert (Hh : heap w2 = popped (keyed w k l) k l (set_key k s)
                                  (Z.of_nat i + 1 - 1))
      by (simpl in Hrem; destruct (faults w) as [|[] ?];
          by injection Hrem as <- <-).
    unfold bank_at. rewrite Hh, (deref_popped _ k l _ Hs1). simpl.
    fold qs. unfold pop. f_equal. lia.
Qed.

Lemma list_questions_numbers_match_removeq_witness :
  let w := snd ((create_subject 7 "Bio" default_game ;;
                 add_question 7 "What is a cell?" ;;
                 add_question 7 "What is DNA?") empty_world) in
  fst (list_questions 7 w)
  = Ret (QuestionsEmbed "Bio" [("#1", "What is a cell?");
                                ("#2", "What is DNA?")]) /\
  bank_at (snd (remove_question 7 2 (snd (list_questions 7 w)))) 0
  = ["What is a cell?"].
Proof.
  intros w.
  destruct (list_questions_numbers_match_removeq 7 w
              (mkProfile [("bio", 0)] (Some "bio")) "bio" 0
              (mkSubject (Some "Bio") (Some default_game) (Some true)
                         (Some ["What is a cell?"; "What is DNA?"])
                         (Some "bio"))
              eq_refl eq_refl eq_refl eq_refl) as (Hlist & _ & _ & _ & Hrem).
  split.
  - by rewrite (Hlist "Bio" _ _ eq_refl eq_refl).
  - exact (Hrem 1 "What is DNA?" _ _ _ _ eq_refl
             (surjective_pairing _) (surjective_pairing _)).
Defined.

(** ** The command [!upload] *)

(** X19: [!upload] for a user with an active subject looks at the first
    attachment only, and takes the document type in any capitalisation.
    When it answers that the upload is done, the downloaded content is
    stored under the attachment's name in the lectures of the active
    subject if the type is [lecture], in its practice tests if it is
    [practice].  When it refuses the type or the name of the attachment
    and when the download fails, no file and no directory has changed. *)
Theorem upload_document_stores_first_attachment
    author doc_type attachment others w p k l s r w' :
  Dict.get (PyStr.str author) (profiles w) = Some p ->
  active_subject p = Some k ->
  Dict.get k (subjects p) = Some l ->
  heap w !! l = Some s ->
  upload_document author doc_type (attachment :: others) w = (r, w') ->
  upload_document author doc_type [attachment] w = (r, w') /\
  (forall file subject_name folder_name,
     r = Ret (UploadDone file subject_name folder_name) ->
     file = filename attachment /\ name s = Some subject_name /\
     ((PyStr.lower doc_type = "lecture" /\ folder_name = "lectures") \/
      (PyStr.lower doc_type = "practice" /\
       folder_name = "practice tests")) /\
     exists data,
       payload attachment = Some data /\
       FS.read_file (get_subject_path author k
                     // (if String.eqb (PyStr.lower doc_type) "lecture"
                         then "lectures" else "practice_tests")
                     // filename attachment) (fsys w') = Some data) /\
  (r = Ret UploadBadType \/ r = Ret UploadNotPdf \/
   payload attachment = None ->
   fsys w' = fsys w).
Proof.
  intros Hp Ha Hl Hs Hrun. split; [exact Hrun|].
  revert Hrun. unfold upload_document.
  rewrite (bind_run _ _ _ _ _ (active_subject_step _ _ p _ _ Hp Ha Hl)).
  destruct (String.eqb (PyStr.lower doc_type) "lecture") eqn:E1;
    [|destruct (String.eqb (PyStr.lower doc_type) "practice") eqn:E2];
    cbv beta iota delta [negb orb].
  3: { intros [= <- <-]. split; [by intros ? ? ? [=]|done]. }
  all: destruct (PyStr.endswith (filename attachment) ".pdf") eqn:Hpdf;
    cbv beta iota delta [negb];
    [|intros [= <- <-]; split; [by intros ? ? ? [=]|done]].
  all: unfold bind at 1; rewrite subject_name_at_run;
    rewrite (deref_keyed _ _ _ s Hs); simpl name.
  all: destruct (name s) as [nm|] eqn:Hnm;
    [|intros [= <- <-]; split; [by intros ? ? ? [=]|done]].
  all: assert (Hs1 : heap (keyed w k l) !! l = Some (set_key k s))
    by (simpl; by rewrite list_lookup_alter_eq, Hs).
  all: pose proof (save_attachment_run attachment author
                     (PyStr.lower doc_type) (keyed w k l) p k l _
                     Hp Ha Hl Hs1 Hpdf) as Hsave;
    cbv zeta in Hsave; unfold collection_path, folder_of in Hsave;
    rewrite E1 in Hsave.
  all: unfold bind at 1; rewrite Hsave.
  all: destruct (payload attachment) as [data|];
    [|intros [= <- <-]; split; [by intros ? ? ? [=]|done]].
  all: change (fsys (keyed w k l)) with (fsys w).
  all: destruct (FS.write_file _ data (fsys w)) as [fs|] eqn:Hwrite;
    [|intros [= <- <-]; split; [by intros ? ? ? [=]|done]].
  all: unfold bind; rewrite subject_name_at_run.
  all: apply write_file_inv in Hwrite as (_ & _ & _ & Hread & _).
  all: simpl heap; rewrite (deref_alter _ _ _ (set_key k s)) by exact Hs1.
  all: simpl name; rewrite Hnm; intros [= <- <-].
  all: split; [|by intros [[=]|[[=]|[=]]]].
  all: intros file subject_name folder_name [= <- <- <-].
  all: split; [done|]; split; [done|]; split;
    [|exists data; split; [done|exact Hread]].
  - left. split; [by apply String.eqb_eq|done].
  - right. split; [by apply String.eqb_eq|done].
Qed.

Lemma upload_document_stores_first_attachment_witness :
  exists w',
    upload_document 7 "Lecture" [notes_v1; notes_v2] one_subject
      = (Ret (UploadDone "notes.pdf" "Bio" "lectures"), w') /\
    FS.read_file (get_subject_path 7 "bio" // "lectures" // "notes.pdf")
                 (fsys w') = Some [Byte.x01].
Proof.
  assert (Hrun : upload_document 7 "Lecture" [notes_v1; notes_v2] one_subject
                 = (Ret (UploadDone "notes.pdf" "Bio" "lectures"),
                    snd (upload_document 7 "Lecture" [notes_v1; notes_v2]
                                         one_subject)))
    by (vm_compute; reflexivity).
  eexists. split; [exact Hrun|].
  destruct (upload_document_stores_first_attachment 7 "Lecture" notes_v1
              [notes_v2] one_subject (mkProfile [("bio", 0)] (Some "bio"))
              "bio" 0 (new_subject "Bio" default_game) _ _
              eq_refl eq_refl eq_refl eq_refl Hrun) as (_ & H & _).
  destruct (H _ _ _ eq_refl) as (_ & _ & _ & data & Hdata & Hread).
  injection Hdata as <-. exact Hread.
Defined.

(** ** The command [!deletesubject] *)

(** X20: [!deletesubject] never raises.  Without the confirmation (the
    wait times out, or the answer is not "yes" in some capitalisation)
    nothing at all changes.  With it, the answer is "timed out, deletion
    cancelled" also when [delete_subject] raises.  For a subject of the
    user's profile whose folder is a regular file, that is the answer and
    nothing has changed.  For one whose folder is not a regular file, in a
    tree whose entries name their places directly as the folder does, and a
    write of the profile file that fails, that is the answer, although the
    subject is then gone from the table in memory. *)
Theorem delete_subject_command_confirmation author subject_name msg w :
  (exists reply,
     fst (delete_subject_command author subject_name msg w) = Ret reply) /\
  (declines msg ->
   exists reply,
     delete_subject_command author subject_name msg w = (Ret reply, w) /\
     (reply = DeleteCancelled \/ reply = DeleteTimedOut)) /\
  (forall p content,
     msg = Some content -> PyStr.lower content = "yes" ->
     Dict.get (PyStr.str author) (profiles w) = Some p ->
     Dict.mem (subject_key_of subject_name) (subjects p) = true ->
     FS.is_file (subject_folder author subject_name) (fsys w) = true ->
     delete_subject_command author subject_name msg w
       = (Ret DeleteTimedOut, w)) /\
  (forall p content,
     msg = Some content -> PyStr.lower content = "yes" ->
     Dict.get (PyStr.str author) (profiles w) = Some p ->
     Dict.mem (subject_key_of subject_name) (subjects p) = true ->
     PyPath.plain (subject_folder author subject_name) = true ->
     FS.plain_tree (fsys w) = true ->
     FS.is_file (subject_folder author subject_name) (fsys w) = false ->
     head (faults w) = Some true ->
     let w' := snd (delete_subject_command author subject_name msg w) in
     fst (delete_subject_command author subject_name msg w)
       = Ret DeleteTimedOut /\
     Dict.mem (subject_key_of subject_name)
              (subjects (profile_of w' author)) = false).
Proof.
  split; [|split; [|split]].
  - unfold delete_subject_command. destruct msg as [content|]; [|by eexists].
    unfold try_except.
    destruct (String.eqb (PyStr.lower content) "yes"); [|by eexists].
    unfold bind. destruct (delete_subject author subject_name w)
      as [[[]|e] w0]; by eexists.
  - unfold declines, delete_subject_command. destruct msg as [content|].
    + intros Hno. apply String.eqb_neq in Hno. rewrite Hno.
      exists DeleteCancelled. split; [done|by left].
    + intros _. exists DeleteTimedOut. split; [done|by right].
  - intros p content -> Hyes Hp Hk Hfile.
    unfold delete_subject_command, try_except.
    rewrite Hyes, String.eqb_refl. unfold bind. cbv beta iota.
    destruct (delete_subject author subject_name w) as [r w0] eqn:Hrun.
    pose proof (delete_subject_run _ _ _ _ _ _ Hp Hk Hrun) as Hd.
    cbv zeta in Hd. destruct Hd as (Hheap & [H|H]).
    + destruct H as (_ & -> & Hps & Hfs & Hj).
      assert (Hfl : faults w0 = faults w).
      { revert Hrun. unfold delete_subject.
        rewrite (bind_run _ _ _ _ _ (get_user_profile_known _ _ _ Hp)), Hk.
        cbv beta iota zeta delta [negb].
        unfold bind at 1. unfold bind at 1. unfold get_world at 1.
        unfold FS.exists_. fold (subject_folder author subject_name).
        rewrite Hfile, orb_true_r.
        unfold fs_call, bind, get_world, FS.rmtree. rewrite Hfile.
        by intros [= <-]. }
      simpl. f_equal. destruct w, w0. simpl in *. congruence.
    + destruct H as (H & _). unfold subject_folder in Hfile. congruence.
  - intros p content -> Hyes Hp Hk _ _ Hfile Hfault w'. subst w'.
    unfold delete_subject_command, try_except.
    rewrite Hyes, String.eqb_refl. unfold bind. cbv beta iota.
    destruct (delete_subject author subject_name w) as [r w0] eqn:Hrun.
    pose proof (delete_subject_run _ _ _ _ _ _ Hp Hk Hrun) as Hd.
    cbv zeta in Hd. destruct Hd as (_ & [H|H]).
    { destruct H as (H & _). unfold subject_folder in Hfile. congruence. }
    destruct H as (_ & Hps & [(_ & Hok & _)|(-> & _ & _)]); [done|].
    simpl. split; [done|].
    unfold profile_of. rewrite Hps, get_alter_eq, Hp. simpl.
    unfold Dict.mem. by rewrite get_del_eq.
Qed.

Lemma delete_subject_command_confirmation_witness :
  let w := with_faults [true] one_subject in
  let w' := snd (delete_subject_command 7 "Bio" (Some "YES") w) in
  fst (delete_subject_command 7 "Bio" (Some "YES") w) = Ret DeleteTimedOut /\
  Dict.mem "bio" (subjects (profile_of w 7)) = true /\
  Dict.mem "bio" (subjects (profile_of w' 7)) = false /\
  delete_subject_command 7 "Bio" (Some "no") w = (Ret DeleteCancelled, w) /\
  delete_subject_command 7 "Bio" (Some "yes") folder_is_a_file
    = (Ret DeleteTimedOut, folder_is_a_file).
Proof.
  intros w w'.
  assert (Hfile : delete_subject_command 7 "Bio" (Some "yes") folder_is_a_file
                  = (Ret DeleteTimedOut, folder_is_a_file)).
  { destruct (delete_subject_command_confirmation 7 "Bio" (Some "yes")
                folder_is_a_file) as (_ & _ & H & _).
    apply (H (mkProfile [("bio", 0); ("chem", 1); ("art", 2)] (Some "bio"))
             "yes"); reflexivity. }
  destruct (delete_subject_command_confirmation 7 "Bio" (Some "YES") w)
    as (_ & _ & _ & H).
  destruct (H (mkProfile [("bio", 0)] (Some "bio")) "YES"
              eq_refl eq_refl eq_refl eq_refl eq_refl eq_refl eq_refl
              eq_refl) as [H1 H2].
  split; [exact H1|]. split; [reflexivity|]. split; [exact H2|].
  destruct (delete_subject_command_confirmation 7 "Bio" (Some "no") w)
    as (_ & H' & _ & _).
  destruct H' as (reply & Hrun & _); [discriminate|].
  split; [|exact Hfile].
  rewrite Hrun. f_equal. f_equal.
  assert (E : fst (delete_subject_command 7 "Bio" (Some "no") w)
              = Ret DeleteCancelled) by reflexivity.
  rewrite Hrun in E. by injection E.
Defined.

(** ** The command [!newsubject] *)

(** X21: [!newsubject] without a name, or with nothing but the text of the
    default game, answers with the usage and changes nothing.  When it
    answers that a subject was created, that subject is the rest of the
    line with the first word as its game, or, for a single word, that word
    with the default game; its dictionary is a new object holding the name
    as typed, the game and an empty question bank; and the active subject
    is the new one only if the user had none: otherwise the active subject
    stays what it was. *)
Theorem new_subject_command_creates author game subject_name w :
  (subject_name = "" -> game = "" \/ game = default_game ->
   new_subject_command author game subject_name w
   = (Ret NewSubjectUsage, w)) /\
  (forall n g w',
     new_subject_command author game subject_name w
     = (Ret (NewSubjectCreated n g), w') ->
     (n, g) = (if String.eqb subject_name "" then (game, default_game)
               else (subject_name, game)) /\
     n <> "" /\
     heap w' = (heap w ++ [new_subject n g])%list /\
     Dict.get (subject_key_of n) (subjects (profile_of w' author))
       = Some (length (heap w)) /\
     active_subject (profile_of w' author)
       = Some (default (subject_key_of n)
                       (active_subject (profile_of w author)))).
Proof.
  unfold new_subject_command. split.
  - intros -> [->| ->]; reflexivity.
  - intros n g w'.
    assert (Hcreate : forall n0 g0,
      n0 <> "" ->
      (let* success := create_subject author n0 g0 in
       if success : bool then ret (NewSubjectCreated n0 g0)
       else ret (NewSubjectExists n0)) w
      = (Ret (NewSubjectCreated n g), w') ->
      (n, g) = (n0, g0) /\ n <> "" /\
      heap w' = (heap w ++ [new_subject n g])%list /\
      Dict.get (subject_key_of n) (subjects (profile_of w' author))
        = Some (length (heap w)) /\
      active_subject (profile_of w' author)
        = Some (default (subject_key_of n)
                        (active_subject (profile_of w author)))).
    { intros n0 g0 Hne. unfold bind.
      destruct (create_subject author n0 g0 w) as [[[]|e] w1] eqn:Hc;
        [|done|done].
      intros [= <- <- <-]. split; [done|]. split; [done|].
      destruct (create_subject_true _ _ _ _ _ Hc) as (_ & Hheap & Hget).
      cbv zeta in Hget. split; [done|].
      unfold profile_of at 1 2. rewrite Hget. simpl.
      split; [apply get_set_eq|].
      by destruct (active_subject (profile_of w author)). }
    destruct (String.eqb subject_name "") eqn:E.
    + destruct (String.eqb game "") eqn:E1; simpl; [done|].
      destruct (String.eqb game default_game); simpl; [done|].
      apply Hcreate. by apply String.eqb_neq.
    + apply Hcreate. by apply String.eqb_neq.
Qed.

Lemma new_subject_command_creates_witness :
  let w' := snd (new_subject_command 7 "Pokemon" "Chem 101" one_subject) in
  fst (new_subject_command 7 "Pokemon" "Chem 101" one_subject)
    = Ret (NewSubjectCreated "Chem 101" "Pokemon") /\
  Dict.get "chem_101" (subjects (profile_of w' 7)) = Some 1 /\
  active_subject (profile_of w' 7) = Some "bio".
Proof.
  intros w'.
  assert (Hrun : new_subject_command 7 "Pokemon" "Chem 101" one_subject
                 = (Ret (NewSubjectCreated "Chem 101" "Pokemon"), w'))
    by (vm_compute; reflexivity).
  destruct (new_subject_command_creates 7 "Pokemon" "Chem 101" one_subject)
    as [_ H].
  destruct (H _ _ _ Hrun) as (_ & _ & _ & H1 & H2).
  split; [by rewrite Hrun|]. split; [exact H1|exact H2].
Defined.

(** ** Subjects never share a dictionary *)

Lemma heap_ok_sub w w' :
  (forall u k l, lookup_subject w' u k = Some l ->
                 lookup_subject w u k = Some l) ->
  length (heap w) <= length (heap w') ->
  heap_ok w -> heap_ok w'.
Proof.
  intros Hsub Hlen Hok u k l Hl.
  destruct (Hok u k l (Hsub _ _ _ Hl)) as [Hlt Hinj]. split; [lia|].
  intros u' k' Hl'. apply Hinj. by apply Hsub.
Qed.

Lemma heap_ok_frame w w' :
  profiles w' = profiles w -> length (heap w') = length (heap w) ->
  heap_ok w -> heap_ok w'.
Proof.
  intros Hp Hh. apply heap_ok_sub; [|lia].
  intros u k l. unfold lookup_subject. by rewrite Hp.
Qed.

Lemma heap_ok_ret {A} (a : A) : keeps_heap_ok (ret a).
Proof. by intros w H. Qed.

Lemma heap_ok_raise {A} e : keeps_heap_ok (@raise A e).
Proof. by intros w H. Qed.

Lemma heap_ok_bind {A B} (m : M A) (k : A -> M B) :
  keeps_heap_ok m -> (forall a, keeps_heap_ok (k a)) ->
  keeps_heap_ok (bind m k).
Proof.
  intros Hm Hk w Hw. unfold bind. specialize (Hm w Hw).
  destruct (m w) as [[a|e] w0]; simpl in *; [|done]. by apply Hk.
Qed.

Lemma heap_ok_try {A} (m h : M A) :
  keeps_heap_ok m -> keeps_heap_ok h -> keeps_heap_ok (try_except m h).
Proof.
  intros Hm Hh w Hw. unfold try_except. specialize (Hm w Hw).
  destruct (m w) as [[a|e] w0]; simpl in *; [done|]. by apply Hh.
Qed.

Lemma heap_ok_get_world : keeps_heap_ok get_world.
Proof. by intros w H. Qed.

Lemma heap_ok_save : keeps_heap_ok _save_profiles.
Proof.
  intros w H. destruct (_save_profiles w) as [r w'] eqn:E.
  apply save_profiles_inv in E as (Hp & Hh & _).
  apply (heap_ok_frame w); [done|simpl; by rewrite Hh|done].
Qed.

Lemma heap_ok_fs_call f : keeps_heap_ok (fs_call f).
Proof.
  intros w H. destruct (fs_call f w) as [r w'] eqn:E.
  apply fs_call_inv in E as (Hp & Hh & _).
  apply (heap_ok_frame w); [done|simpl; by rewrite Hh|done].
Qed.

Lemma heap_ok_update_subject l f : keeps_heap_ok (update_subject l f).
Proof.
  intros w H. apply (heap_ok_frame w); [done| |done].
  simpl. apply length_alter.
Qed.

Lemma heap_ok_subject_key_at l : keeps_heap_ok (subject_key_at l).
Proof.
  intros w H. unfold subject_key_at, bind, get_world.
  by destruct (key (deref (heap w) l)).
Qed.

Lemma heap_ok_subject_name_at l : keeps_heap_ok (subject_name_at l).
Proof. intros w H. by rewrite subject_name_at_run. Qed.

Lemma heap_ok_collect rd found acc : keeps_heap_ok (collect rd found acc).
Proof. intros w H. by rewrite collect_run. Qed.

Lemma lookup_subject_alter w f u u' k :
  lookup_subject (with_profiles (Dict.alter f u (profiles w)) w) u' k =
  match Dict.get u' (profiles w) with
  | Some p => Dict.get k (subjects (if String.eqb u u' then f p else p))
  | None => None
  end.
Proof.
  unfold lookup_subject. simpl.
  destruct (String.eqb u u') eqn:E.
  - apply String.eqb_eq in E. subst u'. rewrite get_alter_eq.
    by destruct (Dict.get u (profiles w)).
  - apply String.eqb_neq in E. by rewrite get_alter_ne.
Qed.

(** A change of a profile that adds no subject. *)
Lemma heap_ok_update_profile u f :
  (forall p k l, Dict.get k (subjects (f p)) = Some l ->
                 Dict.get k (subjects p) = Some l) ->
  keeps_heap_ok (update_profile u f).
Proof.
  intros Hf w H. apply (heap_ok_sub w); [|done|done].
  intros u' k l.
  change (snd (update_profile u f w))
    with (with_profiles (Dict.alter f (PyStr.str u) (profiles w)) w).
  rewrite lookup_subject_alter. unfold lookup_subject.
  destruct (Dict.get u' (profiles w)) as [p|]; [|done].
  destruct (String.eqb (PyStr.str u) u'); [apply Hf|done].
Qed.

Lemma heap_ok_get_user_profile u : keeps_heap_ok (get_user_profile u).
Proof.
  intros w H. unfold get_user_profile, bind, get_world.
  destruct (Dict.get (PyStr.str u) (profiles w)) eqn:E; [done|]. simpl.
  match goal with |- context [_save_profiles ?x] =>
    assert (Hx : heap_ok x);
    [|pose proof (heap_ok_save x Hx) as Hs;
      by destruct (_save_profiles x) as [[[]|e] w1]] end.
  apply (heap_ok_sub w); [|done|done].
  intros u' k l. unfold lookup_subject. simpl.
  destruct (decide (PyStr.str u = u')) as [<-|Hne].
  - by rewrite get_set_eq.
  - by rewrite get_set_ne.
Qed.

(** The new dictionary of [create_subject] and its entry in the profile. *)
Lemma heap_ok_insert {A} u k s (f : loc -> Profile -> Profile) (rest : M A) :
  (forall l p k' l', Dict.get k' (subjects (f l p)) = Some l' ->
     (k' = k /\ l' = l) \/ (k' <> k /\ Dict.get k' (subjects p) = Some l')) ->
  keeps_heap_ok rest ->
  keeps_heap_ok (let* l := alloc s in update_profile u (f l) ;; rest).
Proof.
  intros Hf Hrest w H.
  change (snd ((let* l := alloc s in update_profile u (f l) ;; rest) w))
    with (snd (rest (mkWorld (Dict.alter (f (length (heap w))) (PyStr.str u)
                                         (profiles w))
                             (heap w ++ [s]) (profiles_json w) (fsys w)
                             (faults w)))).
  apply Hrest.
  assert (Hcase : forall u' k' l',
    lookup_subject
      (mkWorld (Dict.alter (f (length (heap w))) (PyStr.str u) (profiles w))
               (heap w ++ [s]) (profiles_json w) (fsys w) (faults w))
      u' k' = Some l' ->
    (u' = PyStr.str u /\ k' = k /\ l' = length (heap w)) \/
    ((u' <> PyStr.str u \/ k' <> k) /\ lookup_subject w u' k' = Some l')).
  { intros u' k' l'. unfold lookup_subject. simpl.
    destruct (decide (PyStr.str u = u')) as [<-|Hne].
    - rewrite get_alter_eq.
      destruct (Dict.get (PyStr.str u) (profiles w)) as [p|]; [|done].
      simpl. intros Hget. destruct (Hf _ _ _ _ Hget) as [[-> ->]|[Hk Hold]].
      + by left.
      + right. split; [by right|done].
    - rewrite get_alter_ne by done. intros Hget. right.
      split; [left; congruence|done]. }
  intros u1 k1 l1 H1. simpl. rewrite length_app. simpl.
  destruct (Hcase _ _ _ H1) as [(-> & -> & ->)|[Hne1 Hold1]].
  - split; [lia|]. intros u2 k2 H2.
    destruct (Hcase _ _ _ H2) as [(-> & -> & _)|[_ Hold2]]; [done|].
    destruct (H _ _ _ Hold2) as [Hlt _]. lia.
  - destruct (H _ _ _ Hold1) as [Hlt Hinj]. split; [lia|].
    intros u2 k2 H2.
    destruct (Hcase _ _ _ H2) as [(-> & -> & ->)|[_ Hold2]]; [lia|].
    by apply Hinj.
Qed.

Lemma get_set_cases {V} k (v : V) d k' v' :
  Dict.get k' (Dict.set k v d) = Some v' ->
  (k' = k /\ v' = v) \/ (k' <> k /\ Dict.get k' d = Some v').
Proof.
  destruct (decide (k = k')) as [<-|Hne].
  - rewrite get_set_eq. intros [= <-]. by left.
  - rewrite get_set_ne by done. intros H. right. split; [congruence|done].
Qed.

Lemma get_del_sub {V} k (d : Dict.t V) k' v :
  Dict.get k' (Dict.del k d) = Some v -> Dict.get k' d = Some v.
Proof.
  destruct (decide (k = k')) as [<-|Hne].
  - by rewrite get_del_eq.
  - by rewrite get_del_ne.
Qed.

Ltac heap_ok_with known :=
  repeat first
    [ apply heap_ok_ret | apply heap_ok_raise | apply heap_ok_get_world
    | apply heap_ok_save | apply heap_ok_fs_call
    | apply heap_ok_update_subject | apply heap_ok_subject_key_at
    | apply heap_ok_subject_name_at | apply heap_ok_get_user_profile
    | apply heap_ok_collect
    | known
    | progress cbv zeta
    | apply heap_ok_try
    | apply heap_ok_bind; [|intros ?]
    | match goal with
      | |- keeps_heap_ok (match ?x with _ => _ end) => destruct x
      end ].

Lemma heap_ok_create_subject u n g : keeps_heap_ok (create_subject u n g).
Proof.
  unfold create_subject.
  apply heap_ok_bind; [apply heap_ok_get_user_profile|]. intros p.
  cbv zeta. destruct (Dict.mem _ _); [apply heap_ok_ret|].
  apply heap_ok_bind; [apply heap_ok_fs_call|]. intros _.
  apply heap_ok_bind; [apply heap_ok_fs_call|]. intros _.
  apply (heap_ok_insert u (subject_key_of n) _
           (fun l p => set_subjects (Dict.set (subject_key_of n) l
                                              (subjects p)) p)).
  - intros l p0 k' l'. simpl. apply get_set_cases.
  - apply heap_ok_bind.
    + apply heap_ok_update_profile. intros p0 k l.
      by destruct (active_subject p0).
    + intros _. heap_ok_with fail.
Qed.

Lemma heap_ok_set_active_subject u n :
  keeps_heap_ok (set_active_subject u n).
Proof.
  unfold set_active_subject.
  heap_ok_with ltac:(apply heap_ok_update_profile; by intros p0 k l).
Qed.

Lemma heap_ok_delete_subject u n : keeps_heap_ok (delete_subject u n).
Proof.
  unfold delete_subject.
  heap_ok_with ltac:(
    apply heap_ok_update_profile; intros p0 k l; simpl;
    first [ apply get_del_sub
          | by destruct (bool_decide (active_subject p0 = Some _)) ]).
Qed.

Lemma heap_ok_get_active_subject u : keeps_heap_ok (get_active_subject u).
Proof. unfold get_active_subject. heap_ok_with fail. Qed.

Lemma heap_ok_set_subject_game u k g :
  keeps_heap_ok (set_subject_game u k g).
Proof. unfold set_subject_game. heap_ok_with fail. Qed.

Lemma heap_ok_add_question_to_bank u k q :
  keeps_heap_ok (add_question_to_bank u k q).
Proof. unfold add_question_to_bank. heap_ok_with fail. Qed.

Lemma heap_ok_remove_question_from_bank u k i :
  keeps_heap_ok (remove_question_from_bank u k i).
Proof. unfold remove_question_from_bank. heap_ok_with fail. Qed.

Lemma heap_ok_get_question_bank u k : keeps_heap_ok (get_question_bank u k).
Proof. unfold get_question_bank. heap_ok_with fail. Qed.

Lemma heap_ok_list_subjects u : keeps_heap_ok (list_subjects u).
Proof. unfold list_subjects. heap_ok_with fail. Qed.

Lemma heap_ok_attachment_save a q : keeps_heap_ok (attachment_save a q).
Proof. unfold attachment_save. heap_ok_with fail. Qed.

Lemma heap_ok_save_attachment a u t : keeps_heap_ok (save_attachment a u t).
Proof.
  unfold save_attachment.
  heap_ok_with ltac:(first [ apply heap_ok_get_active_subject
                           | apply heap_ok_attachment_save ]).
Qed.

Ltac heap_ok_tac :=
  heap_ok_with
    ltac:(first [ apply heap_ok_get_active_subject
                | apply heap_ok_get_question_bank
                | apply heap_ok_add_question_to_bank
                | apply heap_ok_remove_question_from_bank
                | apply heap_ok_save_attachment
                | apply heap_ok_create_subject
                | apply heap_ok_set_active_subject
                | apply heap_ok_set_subject_game
                | apply heap_ok_delete_subject
                | apply heap_ok_list_subjects ]).

Lemma heap_ok_run_op rd op : keeps_heap_ok (run_op rd op).
Proof.
  destruct op as [u|m| | | | | | | | |]; [|destruct m|..]; simpl;
    unfold list_files, get_all_lectures_with_names,
      get_all_practice_tests_with_names, get_all_with_names,
      add_question, remove_question;
    heap_ok_tac.
Qed.

Lemma load_subjects_locs js : forall h,
  length (snd (load_subjects js h)) = length h + length js /\
  forall k l,
    Dict.get k (fst (load_subjects js h)) = Some l ->
    length h <= l < length h + length js /\
    forall k', Dict.get k' (fst (load_subjects js h)) = Some l -> k' = k.
Proof.
  induction js as [|[k0 s] r IH]; intros h; simpl; [split; [lia|done]|].
  destruct (IH (h ++ [s])%list) as [Hlen Hget].
  destruct (load_subjects r (h ++ [s])%list) as [d h'] eqn:E. simpl in *.
  rewrite length_app in Hlen, Hget. simpl in Hlen, Hget.
  split; [lia|]. intros k l.
  destruct (String.eqb k k0) eqn:Ek.
  - apply String.eqb_eq in Ek. subst k0. intros [= <-]. split; [lia|].
    intros k'. destruct (String.eqb k' k) eqn:Ek'.
    + intros _. by apply String.eqb_eq.
    + intros H. apply Hget in H as [H _]. lia.
  - intros H. destruct (Hget _ _ H) as [Hr Hinj]. split; [lia|].
    intros k'. destruct (String.eqb k' k0) eqn:Ek'.
    + intros [= <-]. lia.
    + apply Hinj.
Qed.

Lemma load_profiles_locs j : forall h,
  length h <= length (snd (load_profiles j h)) /\
  forall u p k l,
    Dict.get u (fst (load_profiles j h)) = Some p ->
    Dict.get k (subjects p) = Some l ->
    length h <= l < length (snd (load_profiles j h)) /\
    forall u' p' k',
      Dict.get u' (fst (load_profiles j h)) = Some p' ->
      Dict.get k' (subjects p') = Some l -> u' = u /\ k' = k.
Proof.
  induction j as [|[u0 pj] r IH]; intros h; simpl; [split; [lia|done]|].
  destruct (load_subjects_locs (json_subjects pj) h) as [Hlen1 Hget1].
  destruct (load_subjects (json_subjects pj) h) as [d h1] eqn:E1.
  destruct (IH h1) as [Hlen2 Hget2].
  destruct (load_profiles r h1) as [ps h2] eqn:E2. simpl in *.
  split; [lia|]. intros u p k l.
  destruct (String.eqb u u0) eqn:Eu.
  - apply String.eqb_eq in Eu. subst u0. intros [= <-]. simpl. intros Hk.
    destruct (Hget1 _ _ Hk) as [Hr Hinj]. split; [lia|].
    intros u' p' k'. destruct (String.eqb u' u) eqn:Eu'.
    + apply String.eqb_eq in Eu'. subst u'. intros [= <-]. simpl.
      intros Hk'. split; [done|]. by apply Hinj.
    + intros Hp' Hk'. destruct (Hget2 _ _ _ _ Hp' Hk') as [Hr' _]. lia.
  - intros Hp Hk. destruct (Hget2 _ _ _ _ Hp Hk) as [Hr Hinj].
    split; [lia|]. intros u' p' k'. destruct (String.eqb u' u0) eqn:Eu'.
    + intros [= <-]. simpl. intros Hk'.
      destruct (Hget1 _ _ Hk') as [Hr' _]. lia.
    + apply Hinj.
Qed.

Lemma heap_ok_init w w' :
  UserProfileManager_init w = (Ret tt, w') -> heap_ok w'.
Proof.
  intros Hinit. apply init_inv in Hinit as [_ Hload].
  intros u k l. unfold lookup_subject.
  assert (Hps : profiles w' = fst (_load_profiles (profiles_json w')))
    by (by rewrite <- Hload).
  assert (Hh : heap w' = snd (_load_profiles (profiles_json w')))
    by (by rewrite <- Hload).
  rewrite Hps, Hh.
  destruct (profiles_json w') as [| |table]; simpl; [done|done|].
  destruct (load_profiles_locs table []) as [_ Hget].
  destruct (Dict.get u (fst (load_profiles table []))) as [p|] eqn:Hp;
    [|done].
  intros Hk. destruct (Hget _ _ _ _ Hp Hk) as [Hr Hinj]. split; [lia|].
  intros u' k'.
  destruct (Dict.get u' (fst (load_profiles table []))) as [p'|] eqn:Hp';
    [|done].
  intros Hk'. by apply (Hinj u' p' k').
Qed.

(** X22: subjects never share a dictionary.  In every state that the store
    reaches from a first start, by any sequence of operations and restarts,
    every dictionary held by the table is allocated and is held by one
    entry only (one subject key of one user), and every operation keeps it
    so.  Hence a question added to one subject shows in the bank of no
    other subject, of the same user or of another. *)
Theorem subjects_never_share_a_dictionary pdf_reader :
  (forall w, reachable pdf_reader w -> heap_ok w) /\
  (forall w op, heap_ok w -> heap_ok (snd (run_op pdf_reader op w))) /\
  (forall w u k q u' k' p p',
     heap_ok w ->
     Dict.get (PyStr.str u) (profiles w) = Some p ->
     Dict.get (PyStr.str u') (profiles w) = Some p' ->
     PyStr.str u <> PyStr.str u' \/ k <> k' ->
     fst (get_question_bank u' k' (snd (add_question_to_bank u k q w)))
     = fst (get_question_bank u' k' w)).
Proof.
  split; [|split].
  - intros w Hw. induction Hw as [fs fl|w op Hw IH|w w' Hw IH Hinit].
    + by intros u k l.
    + by apply heap_ok_run_op.
    + by apply (heap_ok_init w).
  - intros w op. apply heap_ok_run_op.
  - intros w u k q u' k' p p' Hok Hp Hp' Hne.
    destruct (Dict.get k (subjects p)) as [l|] eqn:Hl.
    + rewrite (add_question_to_bank_run _ _ q _ _ _ Hp Hl).
      destruct ((_save_profiles ;; ret true)
                  (with_heap (alter (append_question q) l (heap w)) w))
        as [r w1] eqn:Hsave.
      assert (Hw1 : profiles w1 = profiles w /\
                    heap w1 = alter (append_question q) l (heap w)).
      { rewrite save_then_ret in Hsave.
        destruct (faults _) as [|[] ?]; by injection Hsave as _ <-. }
      destruct Hw1 as [Hps Hh]. simpl.
      destruct (Dict.get k' (subjects p')) as [l'|] eqn:Hl'.
      * rewrite (get_question_bank_known _ _ w1 p' l') by
          (by rewrite ?Hps).
        rewrite (get_question_bank_known _ _ w p' l') by done.
        simpl. f_equal. unfold bank_at. rewrite Hh.
        rewrite deref_alter_ne; [done|]. intros ->.
        assert (H1 : lookup_subject w (PyStr.str u) k = Some l')
          by (unfold lookup_subject; by rewrite Hp).
        assert (H2 : lookup_subject w (PyStr.str u') k' = Some l')
          by (unfold lookup_subject; by rewrite Hp').
        destruct (Hok _ _ _ H1) as [_ Hinj].
        destruct (Hinj _ _ H2) as [E1 E2]. by destruct Hne.
      * unfold get_question_bank.
        rewrite (bind_run _ _ _ _ _ (get_user_profile_known _ w1 p'
                   ltac:(by rewrite Hps))).
        rewrite (bind_run _ _ _ _ _ (get_user_profile_known _ w p' Hp')).
        by rewrite Hl'.
    + unfold add_question_to_bank.
      rewrite (bind_run _ _ _ _ _ (get_user_profile_known _ _ _ Hp)), Hl.
      done.
Qed.

Lemma subjects_never_share_a_dictionary_witness :
  reachable sample_reader two_users /\
  lookup_subject two_users "7" "bio" = Some 0 /\
  lookup_subject two_users "8" "bio" = Some 1 /\
  fst (get_question_bank 8 "bio"
         (snd (add_question_to_bank 7 "bio" "Why?" two_users)))
  = Ret [].
Proof.
  assert (Hreach : reachable sample_reader two_users).
  { pose (w0 := mkWorld [] [] (Json []) (mkFS [] []) []).
    pose (w1 := snd (run_op sample_reader
                       (OpMutation (CreateSubject 7 "Bio" default_game)) w0)).
    pose (w2 := snd (run_op sample_reader
                       (OpMutation (CreateSubject 8 "Bio" default_game)) w1)).
    pose (w3 := snd (run_op sample_reader
                       (OpMutation (CreateSubject 7 "Chem" default_game))
                       w2)).
    pose (w4 := snd (run_op sample_reader
                       (OpMutation (CreateSubject 8 "Art" default_game)) w3)).
    assert (E : two_users = w4) by (vm_compute; reflexivity).
    rewrite E. unfold w4, w3, w2, w1.
    repeat apply reach_op. apply reach_start. }
  split; [exact Hreach|].
  split; [vm_compute; reflexivity|]. split; [vm_compute; reflexivity|].
  destruct (subjects_never_share_a_dictionary sample_reader)
    as (Hok & _ & Hbank).
  assert (Hp : Dict.get (PyStr.str 7) (profiles two_users)
               = Some (mkProfile [("bio", 0); ("chem", 2)] (Some "bio")))
    by (vm_compute; reflexivity).
  assert (Hp' : Dict.get (PyStr.str 8) (profiles two_users)
                = Some (mkProfile [("bio", 1); ("art", 3)] (Some "bio")))
    by (vm_compute; reflexivity).
  rewrite (Hbank two_users 7%Z "bio" "Why?" 8%Z "bio" _ _
             (Hok _ Hreach) Hp Hp')
    by (left; vm_compute; discriminate).
  vm_compute. reflexivity.
Defined.
